(** * Smart-Expense-Tracker: a shallow embedding of [app.py]

    The application is a Flask front end over three SQLite tables
    ([users], [expenses], [user_budget]).  Every handler opens a
    connection, runs a few statements and closes it, so a handler is
    modelled as a function from the database (and the request) to the
    new database and a response.

    Tables are lists of rows in rowid order.  All three tables are
    declared [INTEGER PRIMARY KEY AUTOINCREMENT] and the application
    never supplies an id, so rowid order is insertion order.

    Numbers.  A REAL is an IEEE 754 binary64 number ([Float.float]); a
    REAL column holds a REAL or, when the text bound to it is not a
    number, that TEXT.  Python's [/], [-] and [round] are the binary64
    ones.  How SQLite's SUM and Python's [sum] add up doubles depends on
    their version; they are left to the runtime.

    Text.  A [string] is the UTF-8 encoding of a text, byte by byte;
    SQLite's BINARY collation is [String.compare], Python's [len] is
    [Text.len], which counts characters.

    Errors.  A missing form field aborts a request with a 400, and the
    dashboard can raise [TypeError] on a stored value that is no number;
    both outcomes are part of the model.

    Left out: the HTML templates.  A handler is modelled up to the
    arguments it hands to [render_template]. *)

From Stdlib Require Import ZArith QArith Qround Qabs Bool List Ascii String Lia.
From Stdlib Require Import Permutation Sorted Setoid Morphisms SpecFloat.
Import ListNotations.

Open Scope string_scope.
Open Scope list_scope.
Open Scope Z_scope.

Set Implicit Arguments.

(* ===================================================================== *)
(** ** Text helpers *)
(* ===================================================================== *)

Module Text.

(** Python truthiness of a [str]. *)
Definition truthy (s : string) : bool := negb (s =? "")%string.

(** Truthiness of an optional argument ([None] is falsy). *)
Definition truthy_opt (o : option string) : bool :=
  match o with
  | None => false
  | Some s => truthy s
  end.

Definition digit_char (n : Z) : ascii := ascii_of_nat (48 + Z.to_nat (n mod 10)).

(** The last [width] decimal digits of [n], zero padded ([%02d], [%04d]). *)
Fixpoint zero_pad (width : nat) (n : Z) : string :=
  match width with
  | O => ""
  | S w => (zero_pad w (n / 10) ++ String (digit_char n) "")%string
  end.

(** Decimal rendering of a non-negative integer ([fuel] digits at most). *)
Fixpoint digits_of (fuel : nat) (n : Z) (acc : string) : string :=
  match fuel with
  | O => acc
  | S f =>
      let acc' := String (digit_char n) acc in
      if n / 10 =? 0 then acc' else digits_of f (n / 10) acc'
  end.

Definition string_of_Z (n : Z) : string :=
  if n <? 0
  then ("-" ++ digits_of (S (Z.to_nat (Z.log2 (- n)))) (- n) "")%string
  else digits_of (S (Z.to_nat (Z.log2 n))) n "".

(** [needle in haystack]. *)
Fixpoint contains (needle haystack : string) : bool :=
  prefix needle haystack
  || match haystack with
     | EmptyString => false
     | String _ rest => contains needle rest
     end.

(** BINARY collation: [a <= b] and [a >= b] on TEXT. *)
Definition text_le (a b : string) : bool := String.leb a b.
Definition text_ge (a b : string) : bool := String.leb b a.

(** The bytes 10xxxxxx, which continue a character, and the bytes
    11xxxxxx, which start a character of several bytes. *)
Definition is_continuation (c : ascii) : bool :=
  let n := nat_of_ascii c in (Nat.leb 128 n && Nat.ltb n 192)%bool.

Definition is_lead (c : ascii) : bool := Nat.leb 192 (nat_of_ascii c).

(** Python [len(s)]: the number of characters. *)
Fixpoint len (s : string) : nat :=
  match s with
  | EmptyString => O
  | String c rest => ((if is_continuation c then 0 else 1) + len rest)%nat
  end.

Fixpoint drop_continuations (s : string) : string :=
  match s with
  | EmptyString => EmptyString
  | String c rest => if is_continuation c then drop_continuations rest else s
  end.

(** ASCII case folding, as used by SQLite's [LIKE]. *)
Definition lower (c : ascii) : ascii :=
  let n := nat_of_ascii c in
  if (Nat.leb 65 n && Nat.leb n 90)%bool then ascii_of_nat (n + 32) else c.

Definition eq_nocase (c d : ascii) : bool := (lower c =? lower d)%char.

(** The text up to its first NUL byte: what a C string holds. *)
Fixpoint c_string (s : string) : string :=
  match s with
  | EmptyString => EmptyString
  | String c rest =>
      if (nat_of_ascii c =? 0)%nat then EmptyString else String c (c_string rest)
  end.

(** The matching of [LIKE] without ESCAPE: [%] matches any run of
    characters, [_] exactly one character, anything else itself up to
    ASCII case.  A [_] takes the bytes of one character and does not
    match in the middle of one, nor does any byte that can start a
    pattern item, so the positions that [%] tries inside a character
    lead nowhere. *)
Fixpoint like_c (pattern text : string) {struct pattern} : bool :=
  match pattern with
  | EmptyString => match text with EmptyString => true | _ => false end
  | String p pattern' =>
      if (p =? "%")%char then
        (fix any_run (t : string) : bool :=
           like_c pattern' t
           || match t with
              | EmptyString => false
              | String _ t' => any_run t'
              end) text
      else
        match text with
        | EmptyString => false
        | String c text' =>
            if (p =? "_")%char then
              negb (is_continuation c)
              && like_c pattern' (if is_lead c then drop_continuations text' else text')
            else eq_nocase p c && like_c pattern' text'
        end
  end.

(** SQLite [text LIKE pattern]: both operands are read as C strings. *)
Definition like (pattern text : string) : bool :=
  like_c (c_string pattern) (c_string text).

End Text.

(* ===================================================================== *)
(** ** The clock: [datetime.now()], [timedelta(days=n)], [strftime] *)
(* ===================================================================== *)

Module Clock.

(** The calendar date of a [datetime].  The handlers only ever shift a
    datetime by whole days and print it with [%Y-%m-%d] or [%Y-%m], so
    the time of day plays no role. *)
Record datetime := { year : Z; month : Z; day : Z }.

(** Day number of a proleptic Gregorian date (days since 1970-01-01). *)
Definition days_from_civil (d : datetime) : Z :=
  let y := if month d <=? 2 then year d - 1 else year d in
  let era := y / 400 in
  let yoe := y - era * 400 in
  let mp := if month d >? 2 then month d - 3 else month d + 9 in
  let doy := (153 * mp + 2) / 5 + day d - 1 in
  let doe := yoe * 365 + yoe / 4 - yoe / 100 + doy in
  era * 146097 + doe - 719468.

Definition civil_from_days (z : Z) : datetime :=
  let z := z + 719468 in
  let era := z / 146097 in
  let doe := z - era * 146097 in
  let yoe := (doe - doe / 1460 + doe / 36524 - doe / 146096) / 365 in
  let doy := doe - (365 * yoe + yoe / 4 - yoe / 100) in
  let mp := (5 * doy + 2) / 153 in
  let d := doy - (153 * mp + 2) / 5 + 1 in
  let m := if mp <? 10 then mp + 3 else mp - 9 in
  let y := yoe + era * 400 in
  {| year := if m <=? 2 then y + 1 else y; month := m; day := d |}.

(** [now - timedelta(days=n)]. *)
Definition minus_days (now : datetime) (n : Z) : datetime :=
  civil_from_days (days_from_civil now - n).

(** Number of days of month [m] of year [y]. *)
Definition days_in_month (y m : Z) : Z :=
  let next := if m =? 12 then {| year := y + 1; month := 1; day := 1 |}
              else {| year := y; month := m + 1; day := 1 |} in
  days_from_civil next - days_from_civil {| year := y; month := m; day := 1 |}.

(** [now + relativedelta(months=1)]: the same day of the next month, or
    that month's last day when it is shorter. *)
Definition plus_one_month (now : datetime) : datetime :=
  let y := if month now =? 12 then year now + 1 else year now in
  let m := if month now =? 12 then 1 else month now + 1 in
  {| year := y; month := m; day := Z.min (day now) (days_in_month y m) |}.

(** [strftime('%Y-%m-%d')]. *)
Definition strftime_Ymd (d : datetime) : string :=
  (Text.zero_pad 4 (year d) ++ "-" ++ Text.zero_pad 2 (month d)
     ++ "-" ++ Text.zero_pad 2 (day d))%string.

(** [strftime('%Y-%m')]. *)
Definition strftime_Ym (d : datetime) : string :=
  (Text.zero_pad 4 (year d) ++ "-" ++ Text.zero_pad 2 (month d))%string.

End Clock.

(* ===================================================================== *)
(** ** Doubles *)
(* ===================================================================== *)

Module Float.

(** An IEEE 754 binary64 number: a zero, an infinity, a NaN or
    [(-1)^s * m * 2^e]. *)
Definition float : Type := spec_float.

Definition prec : Z := 53.
Definition emax : Z := 1024.

Definition zero : float := S754_zero false.

(** The double nearest to an integer (Python [float(n)]). *)
Definition of_Z (z : Z) : float := binary_normalize prec emax z 0 false.

(** [x + y], [x - y], [x * y], [x / y], rounded to nearest, ties to
    even. *)
Definition add : float -> float -> float := SFadd prec emax.
Definition sub : float -> float -> float := SFsub prec emax.
Definition mul : float -> float -> float := SFmul prec emax.
Definition div : float -> float -> float := SFdiv prec emax.

(** The double nearest to [num / den]. *)
Definition ratio (num : Z) (den : positive) : float :=
  match num with
  | Z0 => zero
  | Zpos n => SFdiv prec emax (S754_finite false n 0) (S754_finite false den 0)
  | Zneg n => SFdiv prec emax (S754_finite true n 0) (S754_finite false den 0)
  end.

(** The number a finite double stands for. *)
Definition value (x : float) : Q :=
  match x with
  | S754_finite s m e =>
      let q := (inject_Z (Zpos m) * Qpower 2 e)%Q in
      if s then Qopp q else q
  | _ => 0%Q
  end.

(** NaN, minus infinity, the finite numbers, plus infinity. *)
Definition rank (x : float) : Z :=
  match x with
  | S754_nan => -2
  | S754_infinity true => -1
  | S754_infinity false => 1
  | _ => 0
  end.

(** [x <= y] by value.  (SQLite keeps a NaN as NULL, which sorts first.) *)
Definition leb (x y : float) : bool :=
  (rank x <? rank y) || ((rank x =? rank y) && Qle_bool (value x) (value y)).

(** Nearest integer, ties to the even one. *)
Definition round_half_even (x : Q) : Z :=
  let f := Qfloor x in
  match Qcompare (x - inject_Z f) (1 # 2) with
  | Lt => f
  | Gt => f + 1
  | Eq => if Z.even f then f else f + 1
  end.

(** Python [round(x, 2)]: the exact value of [x] is rounded to two
    decimal places, ties to even, and the result is the double nearest
    to that decimal; a zero keeps the sign of [x]. *)
Definition round2 (x : float) : float :=
  match x with
  | S754_finite s _ _ =>
      match round_half_even (value x * 100) with
      | Z0 => S754_zero s
      | n => ratio n 100
      end
  | _ => x
  end.

End Float.

(* ===================================================================== *)
(** ** Tables *)
(* ===================================================================== *)

Module Sql.

(** A value bound to a [?] of a statement. *)
Inductive param := PInt (z : Z) | PText (s : string).

(** What a REAL column, or a [SUM] over it, gives: NULL, a REAL, or the
    TEXT that could not be converted to a number. *)
Inductive value := VNull | VReal (x : Float.float) | VText (s : string).

(** [a <= b] in [ORDER BY]: NULL comes first, then the numbers by value,
    then the texts byte by byte. *)
Definition value_le (a b : value) : bool :=
  match a, b with
  | VNull, _ => true
  | _, VNull => false
  | VReal x, VReal y => Float.leb x y
  | VReal _, VText _ => true
  | VText _, VReal _ => false
  | VText s, VText t => Text.text_le s t
  end.

(** Neither value sorts before the other. *)
Definition value_eqv (a b : value) : bool := value_le a b && value_le b a.

(** A table with an AUTOINCREMENT key: its rows in rowid order and the
    largest rowid handed out so far ([sqlite_sequence]). *)
Record table (A : Type) := { rows : list A; seq : Z }.

Definition empty {A : Type} : table A := {| rows := []; seq := 0 |}.

(** [INSERT]: the new row gets the next rowid and goes last. *)
Definition insert {A : Type} (t : table A) (mk : Z -> A) : table A :=
  {| rows := rows t ++ [mk (seq t + 1)]; seq := seq t + 1 |}.

(** [UPDATE ... SET ... WHERE cond]. *)
Definition update {A : Type} (t : table A) (cond : A -> bool) (set : A -> A) : table A :=
  {| rows := map (fun r => if cond r then set r else r) (rows t); seq := seq t |}.

(** [DELETE FROM ... WHERE cond]. *)
Definition delete {A : Type} (t : table A) (cond : A -> bool) : table A :=
  {| rows := filter (fun r => negb (cond r)) (rows t); seq := seq t |}.

(** [SELECT * FROM ... WHERE cond], in rowid order. *)
Definition select {A : Type} (t : table A) (cond : A -> bool) : list A :=
  filter cond (rows t).

Definition fetchone {A : Type} (result : list A) : option A := hd_error result.

(** [LIMIT n]: a negative limit means no limit. *)
Definition limit {A : Type} (n : Z) (result : list A) : list A :=
  if n <? 0 then result else firstn (Z.to_nat n) result.

(** [ORDER BY]: the rows are put in order by inserting them one after
    the other; a row goes in front of the rows it is [le] to, so rows
    that compare equal stay in the order they were read. *)
Section OrderBy.
Variable A : Type.
Variable le : A -> A -> bool.

Fixpoint insert_sorted (x : A) (l : list A) : list A :=
  match l with
  | [] => [x]
  | y :: l' => if le x y then x :: l else y :: insert_sorted x l'
  end.

Definition order_by (l : list A) : list A := fold_right insert_sorted [] l.
End OrderBy.

(** [GROUP BY key]: the values of each distinct key in the order they
    were read, the groups in ascending order of the key. *)
Section GroupBy.
Variables R K V : Type.
Variable key : R -> K.
Variable val : R -> V.
Variable keq : K -> K -> bool.
Variable kle : K -> K -> bool.

Fixpoint add_to_group (k : K) (v : V) (groups : list (K * list V))
  : list (K * list V) :=
  match groups with
  | [] => [(k, [v])]
  | (k', vs) :: rest =>
      if keq k k' then (k', vs ++ [v]) :: rest
      else (k', vs) :: add_to_group k v rest
  end.

(** The groups after reading [result], starting from [groups]. *)
Definition collect (groups : list (K * list V)) (result : list R)
  : list (K * list V) :=
  fold_left (fun g r => add_to_group (key r) (val r) g) result groups.

Definition group_by (result : list R) : list (K * list V) :=
  order_by (fun a b => kle (fst a) (fst b)) (collect [] result).

(** The values listed for key [k], none when the key is not listed. *)
Fixpoint group_of (k : K) (groups : list (K * list V)) : list V :=
  match groups with
  | [] => []
  | (k', vs) :: rest => if keq k k' then vs else group_of k rest
  end.
End GroupBy.

(** Comparison of nullable TEXT: NULL sorts before every string. *)
Definition opt_text_le (a b : option string) : bool :=
  match a, b with
  | None, _ => true
  | Some _, None => false
  | Some x, Some y => Text.text_le x y
  end.

Definition opt_text_eqb (a b : option string) : bool :=
  match a, b with
  | None, None => true
  | Some x, Some y => (x =? y)%string
  | _, _ => false
  end.

(** [a = b] in a WHERE clause: NULL on either side is not a match. *)
Definition opt_text_matches (a : option string) (b : string) : bool :=
  match a with
  | None => false
  | Some x => (x =? b)%string
  end.

End Sql.

Module Users.
Record row := { id : Z; username : string; email : string; password_hash : string }.
End Users.

Module Expenses.
Record row := {
  id : Z;
  user_id : Z;
  amount : Sql.value;
  category : string;
  date : string;
  note : option string
}.
End Expenses.

Module UserBudget.
Record row := {
  id : Z;
  user_id : Z;
  monthly_income : Sql.value;
  savings_goal : Sql.value
}.
End UserBudget.

Record database := {
  users : Sql.table Users.row;
  expenses : Sql.table Expenses.row;
  user_budget : Sql.table UserBudget.row
}.

(** [init_db] on a fresh file. *)
Definition init_db : database :=
  {| users := Sql.empty; expenses := Sql.empty; user_budget := Sql.empty |}.

Definition with_users (db : database) (t : Sql.table Users.row) : database :=
  {| users := t; expenses := expenses db; user_budget := user_budget db |}.

Definition with_expenses (db : database) (t : Sql.table Expenses.row) : database :=
  {| users := users db; expenses := t; user_budget := user_budget db |}.

Definition with_user_budget (db : database) (t : Sql.table UserBudget.row) : database :=
  {| users := users db; expenses := expenses db; user_budget := t |}.

(* ===================================================================== *)
(** ** What the libraries compute *)
(* ===================================================================== *)

(** The handlers call into SQLite, Python, werkzeug and pandas for a few
    conversions whose result depends on the library or its version.
    They are the fields of [Runtime]; every statement below holds for any
    choice of them, and [Reference.runtime] gives one to compute with. *)
Class Runtime := {
  (** SQLite [strftime('%Y-%m', t)] as a statement of the request
      evaluates it: NULL when [t] is not a date. *)
  sqlite_strftime_Ym : string -> option string;
  (** The REAL that a text which is a number converts to when it is
      stored in a REAL column; none for any other text. *)
  sqlite_numeric : string -> option Float.float;
  (** SQLite [SUM] over the values of a group, in the order read (a
      plain running sum before SQLite 3.44, a compensated one since). *)
  sqlite_sum : list Sql.value -> Sql.value;
  (** Python [sum] over one or more floats, [0 + x1 + x2 + ...] (a
      plain running sum up to CPython 3.11, a compensated one since). *)
  py_float_sum : list Float.float -> Float.float;
  (** werkzeug [generate_password_hash]. *)
  generate_password_hash : string -> string;
  (** The line pandas [to_csv(index=False)] writes for one record. *)
  csv_record : Expenses.row -> string;
  (** [os.linesep], the line terminator of [to_csv]. *)
  linesep : string
}.

(** What a REAL column keeps of a bound text (REAL affinity). *)
Definition sqlite_real {RT : Runtime} (s : string) : Sql.value :=
  match sqlite_numeric s with
  | Some x => Sql.VReal x
  | None => Sql.VText s
  end.

(** [SELECT key, SUM(val) ... GROUP BY key]: one row per distinct key, in
    ascending order of the key. *)
Definition group_sum {RT : Runtime} {R K : Type} (key : R -> K)
    (val : R -> Sql.value) (keq kle : K -> K -> bool) (result : list R)
  : list (K * Sql.value) :=
  map (fun g => (fst g, sqlite_sum (snd g))) (Sql.group_by key val keq kle result).

(* ===================================================================== *)
(** ** Python values *)
(* ===================================================================== *)

Module Py.

(** [None], an [int], a [float] or a [str]. *)
Inductive value := none | int (z : Z) | float (x : Float.float) | str (s : string).

(** The Python value of a column read through [sqlite3.Row]. *)
Definition of_sql (v : Sql.value) : value :=
  match v with
  | Sql.VNull => none
  | Sql.VReal x => float x
  | Sql.VText s => str s
  end.

End Py.

(** An expression that may raise [TypeError]. *)
Inductive raising (A : Type) := Returns (a : A) | TypeError.
Arguments Returns {A} a.
Arguments TypeError {A}.

(** The rest of a block runs when the expression has returned. *)
Definition and_then (A B : Type) (e : raising A) (rest : A -> raising B)
  : raising B :=
  match e with
  | Returns a => rest a
  | TypeError => TypeError
  end.

Notation "'let!' x ':=' e 'in' body" :=
  (and_then e (fun x => body))
  (at level 10, x name, e at level 9, body at level 200, only parsing).

(** The floats of a list of column values, if they all are floats. *)
Fixpoint floats_of (vs : list Sql.value) : option (list Float.float) :=
  match vs with
  | [] => Some []
  | Sql.VReal x :: rest => option_map (cons x) (floats_of rest)
  | _ :: _ => None
  end.

(** [sum(vs)] over values read from the database: the int [0] of
    nothing, a float of floats, and [TypeError] once a [str] or a [None]
    is to be added. *)
Definition py_sum {RT : Runtime} (vs : list Sql.value) : raising Py.value :=
  match vs with
  | [] => Returns (Py.int 0)
  | _ :: _ =>
      match floats_of vs with
      | Some xs => Returns (Py.float (py_float_sum xs))
      | None => TypeError
      end
  end.

(** [a - b]: an int next to a float is converted; a [str] or [None]
    raises [TypeError]. *)
Definition py_sub (a b : Py.value) : raising Py.value :=
  match a, b with
  | Py.float x, Py.float y => Returns (Py.float (Float.sub x y))
  | Py.float x, Py.int z => Returns (Py.float (Float.sub x (Float.of_Z z)))
  | Py.int z, Py.float y => Returns (Py.float (Float.sub (Float.of_Z z) y))
  | Py.int z, Py.int w => Returns (Py.int (z - w))
  | _, _ => TypeError
  end.

(** [total / n] for a count [n >= 1]. *)
Definition py_div (total : Py.value) (n : Z) : raising Py.value :=
  match total with
  | Py.float x => Returns (Py.float (Float.div x (Float.of_Z n)))
  | Py.int z => Returns (Py.float (Float.ratio z (Z.to_pos n)))
  | _ => TypeError
  end.

(** [round(x, 2)]. *)
Definition py_round2 (x : Py.value) : raising Py.value :=
  match x with
  | Py.float x => Returns (Py.float (Float.round2 x))
  | Py.int z => Returns (Py.int z)
  | _ => TypeError
  end.

(* ===================================================================== *)
(** ** Python dictionaries *)
(* ===================================================================== *)

(** A [dict] as an association list in insertion order: assignment to a
    key that is present overwrites in place, a new key goes last. *)
Section Dict.
Variables K V : Type.
Variable keq : K -> K -> bool.

Fixpoint dict_set (k : K) (v : V) (d : list (K * V)) : list (K * V) :=
  match d with
  | [] => [(k, v)]
  | (k', v') :: rest =>
      if keq k' k then (k', v) :: rest else (k', v') :: dict_set k v rest
  end.

Definition dict_has (k : K) (d : list (K * V)) : bool :=
  existsb (fun kv => keq (fst kv) k) d.
End Dict.

(* ===================================================================== *)
(** ** Queries of [app.py] *)
(* ===================================================================== *)

Section Queries.
Context {RT : Runtime}.

Definition default_monthly_income : Sql.value := Sql.VReal (Float.of_Z 5000).
Definition default_savings_goal : Sql.value := Sql.VReal (Float.of_Z 1000).

(** [get_budget(user_id)]: the first budget row of the user; when there
    is none, the default row is inserted and read back. *)
Definition get_budget (db : database) (user_id : Z)
  : database * option UserBudget.row :=
  let owned := fun b => UserBudget.user_id b =? user_id in
  let budget := Sql.fetchone (Sql.select (user_budget db) owned) in
  match budget with
  | Some _ => (db, budget)
  | None =>
      let db' :=
        with_user_budget db
          (Sql.insert (user_budget db)
             (fun i => {| UserBudget.id := i;
                          UserBudget.user_id := user_id;
                          UserBudget.monthly_income := default_monthly_income;
                          UserBudget.savings_goal := default_savings_goal |})) in
      (db', Sql.fetchone (Sql.select (user_budget db') owned))
  end.

(** The text and the parameters that [get_expenses] hands to
    [conn.execute]. *)
Definition get_expenses_query (user_id : Z)
    (category start_date end_date search : option string)
    (sort_by sort_order : string) : string * list Sql.param :=
  let query := "SELECT * FROM expenses WHERE user_id = ?" in
  let params := [Sql.PInt user_id] in
  let '(query, params) :=
    match category with
    | Some c =>
        if Text.truthy c && negb (c =? "All")%string
        then ((query ++ " AND category = ?")%string, params ++ [Sql.PText c])
        else (query, params)
    | None => (query, params)
    end in
  let '(query, params) :=
    match start_date with
    | Some d =>
        if Text.truthy d
        then ((query ++ " AND date >= ?")%string, params ++ [Sql.PText d])
        else (query, params)
    | None => (query, params)
    end in
  let '(query, params) :=
    match end_date with
    | Some d =>
        if Text.truthy d
        then ((query ++ " AND date <= ?")%string, params ++ [Sql.PText d])
        else (query, params)
    | None => (query, params)
    end in
  let '(query, params) :=
    match search with
    | Some s =>
        if Text.truthy s
        then ((query ++ " AND (note LIKE ? OR category LIKE ?)")%string,
              params ++ [Sql.PText ("%" ++ s ++ "%"); Sql.PText ("%" ++ s ++ "%")])
        else (query, params)
    | None => (query, params)
    end in
  let query :=
    if existsb (String.eqb sort_by) ["date"; "amount"; "category"] then
      let safe_order := if (sort_order =? "ASC")%string then "ASC" else "DESC" in
      (query ++ " ORDER BY " ++ sort_by ++ " " ++ safe_order)%string
    else query in
  (query, params).

(** [a <= b] on the column named by [sort_by]. *)
Definition column_le (sort_by : string) (a b : Expenses.row) : bool :=
  if (sort_by =? "date")%string then Text.text_le (Expenses.date a) (Expenses.date b)
  else if (sort_by =? "amount")%string
       then Sql.value_le (Expenses.amount a) (Expenses.amount b)
  else Text.text_le (Expenses.category a) (Expenses.category b).

(** [note LIKE p]: NULL is not a match. *)
Definition note_like (p : string) (e : Expenses.row) : bool :=
  match Expenses.note e with
  | None => false
  | Some n => Text.like p n
  end.

(** [get_expenses]: the rows that the query above selects.  Each
    [query +=] of the source is one more condition on the rows. *)
Definition get_expenses (db : database) (user_id : Z)
    (category start_date end_date search : option string)
    (sort_by sort_order : string) : list Expenses.row :=
  let result := Sql.select (expenses db) (fun e => Expenses.user_id e =? user_id) in
  let result :=
    match category with
    | Some c =>
        if Text.truthy c && negb (c =? "All")%string
        then filter (fun e => (Expenses.category e =? c)%string) result
        else result
    | None => result
    end in
  let result :=
    match start_date with
    | Some d =>
        if Text.truthy d
        then filter (fun e => Text.text_ge (Expenses.date e) d) result
        else result
    | None => result
    end in
  let result :=
    match end_date with
    | Some d =>
        if Text.truthy d
        then filter (fun e => Text.text_le (Expenses.date e) d) result
        else result
    | None => result
    end in
  let result :=
    match search with
    | Some s =>
        if Text.truthy s
        then
          let p := ("%" ++ s ++ "%")%string in
          filter (fun e => note_like p e || Text.like p (Expenses.category e)) result
        else result
    | None => result
    end in
  if existsb (String.eqb sort_by) ["date"; "amount"; "category"] then
    if (sort_order =? "ASC")%string
    then Sql.order_by (column_le sort_by) result
    else Sql.order_by (fun a b => column_le sort_by b a) result
  else result.

(** [calculate_category_spending]: (category, total) per category. *)
Definition calculate_category_spending (db : database) (user_id : Z)
  : list (string * Sql.value) :=
  group_sum Expenses.category Expenses.amount String.eqb Text.text_le
    (Sql.select (expenses db) (fun e => Expenses.user_id e =? user_id)).

(** [calculate_daily_spending]: (date, total) per date since the cutoff. *)
Definition calculate_daily_spending (now : Clock.datetime) (db : database)
    (user_id : Z) (period : string) : list (string * Sql.value) :=
  let days_back :=
    if (period =? "week")%string then 7
    else if (period =? "month")%string then 30
    else 30 in
  let cutoff_date := Clock.strftime_Ymd (Clock.minus_days now days_back) in
  Sql.order_by (fun a b => Text.text_le (fst a) (fst b))
    (group_sum Expenses.date Expenses.amount String.eqb Text.text_le
       (Sql.select (expenses db)
          (fun e => (Expenses.user_id e =? user_id)
                    && Text.text_ge (Expenses.date e) cutoff_date))).

(** The rows of the forecast query: (month, total) per month key. *)
Definition forecast_rows (now : Clock.datetime) (db : database) (user_id : Z)
  : list (option string * Sql.value) :=
  let three_months_ago := Clock.strftime_Ymd (Clock.minus_days now 90) in
  Sql.order_by (fun a b => Sql.opt_text_le (fst a) (fst b))
    (group_sum (fun e => sqlite_strftime_Ym (Expenses.date e))
       Expenses.amount Sql.opt_text_eqb Sql.opt_text_le
       (Sql.select (expenses db)
          (fun e => (Expenses.user_id e =? user_id)
                    && Text.text_ge (Expenses.date e) three_months_ago))).

(** [forecast_next_month]. *)
Definition forecast_next_month (now : Clock.datetime) (db : database)
    (user_id : Z) : raising Py.value :=
  let result := forecast_rows now db user_id in
  if (List.length result =? 0)%nat then Returns (Py.int 0)
  else
    let! total_spending := (py_sum (map snd result)) in
    let! avg_monthly :=
      (py_div total_spending (Z.max (Z.of_nat (List.length result)) 1)) in
    py_round2 avg_monthly.

(** [get_monthly_trend]: the totals per month key of the last 180 days,
    then the forecast under next month's label. *)
Definition get_monthly_trend (now : Clock.datetime) (db : database) (user_id : Z)
  : raising (list (option string * Py.value)) :=
  let six_months_ago := Clock.strftime_Ymd (Clock.minus_days now 180) in
  let result :=
    Sql.order_by (fun a b => Sql.opt_text_le (fst a) (fst b))
      (group_sum (fun e => sqlite_strftime_Ym (Expenses.date e))
         Expenses.amount Sql.opt_text_eqb Sql.opt_text_le
         (Sql.select (expenses db)
            (fun e => (Expenses.user_id e =? user_id)
                      && Text.text_ge (Expenses.date e) six_months_ago))) in
  let monthly_data :=
    fold_left
      (fun data row => dict_set Sql.opt_text_eqb (fst row) (Py.of_sql (snd row)) data)
      result [] in
  let next_month := Clock.strftime_Ym (Clock.plus_one_month now) in
  let! forecast_amount := (forecast_next_month now db user_id) in
  Returns (dict_set Sql.opt_text_eqb (Some next_month) forecast_amount monthly_data).

(** [get_top_expenses]. *)
Definition get_top_expenses (db : database) (user_id : Z) (limit : Z)
  : list Expenses.row :=
  Sql.limit limit
    (Sql.order_by (fun a b => Sql.value_le (Expenses.amount b) (Expenses.amount a))
       (Sql.select (expenses db) (fun e => Expenses.user_id e =? user_id))).

End Queries.

(* ===================================================================== *)
(** ** Requests and responses *)
(* ===================================================================== *)

Inductive http_method := GET | POST.

(** [request.form] and [request.args]: the submitted fields in order; a
    lookup yields the first value of the key. *)
Definition fields := list (string * string).

Fixpoint field (k : string) (f : fields) : option string :=
  match f with
  | [] => None
  | (k', v) :: rest => if (k' =? k)%string then Some v else field k rest
  end.

(** [request.args.get(k, default)]. *)
Definition field_or (k default : string) (f : fields) : string :=
  match field k f with
  | Some v => v
  | None => default
  end.

Inductive response :=
| Redirect (endpoint : string)
| RenderTemplate (template : string)
| BadRequest
| SendFile (body mimetype : string) (as_attachment : bool) (download_name : string).

(** What a handler leaves behind: the database, the flashed
    (message, category) pairs and the response. *)
Record outcome := {
  out_db : database;
  out_flash : list (string * string);
  out_response : response
}.

Definition respond (db : database) (r : response) : outcome :=
  {| out_db := db; out_flash := []; out_response := r |}.

Definition flash_and_redirect (db : database) (message category endpoint : string)
  : outcome :=
  {| out_db := db; out_flash := [(message, category)]; out_response := Redirect endpoint |}.

(** [request.form[k]]: a missing key aborts the request with a 400
    before any statement has run. *)
Definition form_item (db : database) (k : string) (form : fields)
    (continue : string -> outcome) : outcome :=
  match field k form with
  | Some v => continue v
  | None => respond db BadRequest
  end.

Notation "'let*' x ':=' item 'in' body" :=
  (item (fun x => body))
  (at level 10, x name, item at level 9, body at level 200, only parsing).

Definition categories : list string :=
  ["Food"; "Rent"; "Travel"; "Entertainment"; "Bills"; "Other"].

(** The part of the dashboard's template context that is computed. *)
Record dashboard_context := {
  ctx_expenses : list Expenses.row;
  ctx_budget : option UserBudget.row;
  ctx_total_spent : Py.value;
  ctx_remaining_budget : Py.value;
  ctx_category_data : list (string * Py.value);
  ctx_daily_data : list (string * Py.value);
  ctx_monthly_trend : list (option string * Py.value);
  ctx_forecast : Py.value;
  ctx_top_expenses : list Expenses.row
}.

Section Handlers.
Context {RT : Runtime}.

(** [/signup]. *)
Definition signup (method : http_method) (form : fields) (db : database) : outcome :=
  match method with
  | POST =>
      let* username := (form_item db "username" form) in
      let* email := (form_item db "email" form) in
      let* password := (form_item db "password" form) in
      if (Text.len password <? 8)%nat then
        flash_and_redirect db "Password must be at least 8 characters long!" "danger" "signup"
      else
        let existing_user :=
          Sql.fetchone
            (Sql.select (users db)
               (fun u => (Users.username u =? username)%string
                         || (Users.email u =? email)%string)) in
        match existing_user with
        | Some _ =>
            flash_and_redirect db "Username or email already exists!" "danger" "signup"
        | None =>
            let password_hash := generate_password_hash password in
            let db' :=
              with_users db
                (Sql.insert (users db)
                   (fun i => {| Users.id := i;
                                Users.username := username;
                                Users.email := email;
                                Users.password_hash := password_hash |})) in
            flash_and_redirect db' "Account created successfully! Please login." "success" "login"
        end
  | GET => respond db (RenderTemplate "signup.html")
  end.

(** [/] for the logged-in user [current_user]: the database after
    [get_budget], and the context handed to the template unless a
    [TypeError] is raised on the way. *)
Definition dashboard (now : Clock.datetime) (current_user : Z) (args : fields)
    (db : database) : database * raising dashboard_context :=
  let category_filter := field_or "category" "All" args in
  let start_date := field_or "start_date" "" args in
  let end_date := field_or "end_date" "" args in
  let search := field_or "search" "" args in
  let sort_by := field_or "sort_by" "date" args in
  let sort_order := field_or "sort_order" "DESC" args in
  let expenses :=
    get_expenses db current_user (Some category_filter) (Some start_date)
      (Some end_date) (Some search) sort_by sort_order in
  let '(db, budget) := get_budget db current_user in
  let category_spending := calculate_category_spending db current_user in
  let daily_spending := calculate_daily_spending now db current_user "month" in
  (db,
   let! forecast := (forecast_next_month now db current_user) in
   let top_expenses := get_top_expenses db current_user 3 in
   let! monthly_trend := (get_monthly_trend now db current_user) in
   let! total_spent := (py_sum (map Expenses.amount expenses)) in
   let! remaining_budget :=
     (match budget with
      | Some b => py_sub (Py.of_sql (UserBudget.monthly_income b)) total_spent
      | None => Returns (Py.int 0)
      end) in
   let category_data :=
     fold_left
       (fun data row =>
          if dict_has String.eqb (fst row) data
          then dict_set String.eqb (fst row) (Py.of_sql (snd row)) data
          else data)
       category_spending
       (map (fun cat => (cat, Py.int 0)) categories) in
   let daily_data :=
     fold_left
       (fun data row => dict_set String.eqb (fst row) (Py.of_sql (snd row)) data)
       daily_spending [] in
   Returns
     {| ctx_expenses := expenses;
        ctx_budget := budget;
        ctx_total_spent := total_spent;
        ctx_remaining_budget := remaining_budget;
        ctx_category_data := category_data;
        ctx_daily_data := daily_data;
        ctx_monthly_trend := monthly_trend;
        ctx_forecast := forecast;
        ctx_top_expenses := top_expenses |}).

(** [/add]. *)
Definition add_expense (current_user : Z) (method : http_method) (form : fields)
    (db : database) : outcome :=
  match method with
  | POST =>
      let* amount := (form_item db "amount" form) in
      let* category := (form_item db "category" form) in
      let* date := (form_item db "date" form) in
      let note := field_or "note" "" form in
      let db' :=
        with_expenses db
          (Sql.insert (expenses db)
             (fun i => {| Expenses.id := i;
                          Expenses.user_id := current_user;
                          Expenses.amount := sqlite_real amount;
                          Expenses.category := category;
                          Expenses.date := date;
                          Expenses.note := Some note |})) in
      flash_and_redirect db' "Expense added successfully!" "success" "dashboard"
  | GET => respond db (RenderTemplate "add_expense.html")
  end.

(** [/edit/<expense_id>]. *)
Definition edit_expense (current_user : Z) (expense_id : Z) (method : http_method)
    (form : fields) (db : database) : outcome :=
  let mine := fun e =>
    (Expenses.id e =? expense_id) && (Expenses.user_id e =? current_user) in
  match method with
  | POST =>
      let* amount := (form_item db "amount" form) in
      let* category := (form_item db "category" form) in
      let* date := (form_item db "date" form) in
      let note := field_or "note" "" form in
      let db' :=
        with_expenses db
          (Sql.update (expenses db) mine
             (fun e => {| Expenses.id := Expenses.id e;
                          Expenses.user_id := Expenses.user_id e;
                          Expenses.amount := sqlite_real amount;
                          Expenses.category := category;
                          Expenses.date := date;
                          Expenses.note := Some note |})) in
      flash_and_redirect db' "Expense updated successfully!" "success" "dashboard"
  | GET =>
      match Sql.fetchone (Sql.select (expenses db) mine) with
      | None => flash_and_redirect db "Expense not found!" "danger" "dashboard"
      | Some _ => respond db (RenderTemplate "edit_expense.html")
      end
  end.

(** [/delete/<expense_id>]. *)
Definition delete_expense (current_user : Z) (expense_id : Z) (db : database)
  : outcome :=
  let db' :=
    with_expenses db
      (Sql.delete (expenses db)
         (fun e => (Expenses.id e =? expense_id)
                   && (Expenses.user_id e =? current_user))) in
  flash_and_redirect db' "Expense deleted successfully!" "success" "dashboard".

(** [/set_budget]. *)
Definition set_budget (current_user : Z) (method : http_method) (form : fields)
    (db : database) : outcome :=
  match method with
  | POST =>
      let* monthly_income := (form_item db "monthly_income" form) in
      let* savings_goal := (form_item db "savings_goal" form) in
      let db' :=
        with_user_budget db
          (Sql.update (user_budget db)
             (fun b => UserBudget.user_id b =? current_user)
             (fun b => {| UserBudget.id := UserBudget.id b;
                          UserBudget.user_id := UserBudget.user_id b;
                          UserBudget.monthly_income := sqlite_real monthly_income;
                          UserBudget.savings_goal := sqlite_real savings_goal |})) in
      flash_and_redirect db' "Budget settings updated!" "success" "dashboard"
  | GET =>
      let '(db', _) := get_budget db current_user in
      respond db' (RenderTemplate "set_budget.html")
  end.

(** The rows [/export] selects. *)
Definition export_rows (now : Clock.datetime) (current_user : Z) (db : database)
  : list Expenses.row :=
  let current_month := Clock.strftime_Ym now in
  Sql.order_by
    (fun a b => Text.text_le (Expenses.date b) (Expenses.date a))
    (Sql.select (expenses db)
       (fun e => (Expenses.user_id e =? current_user)
                 && Sql.opt_text_matches (sqlite_strftime_Ym (Expenses.date e))
                      current_month)).

(** [pd.DataFrame(records).to_csv(index=False)]: the header line with
    the column names, then a line per record.  A frame built from no
    record has no column, so its header line is empty. *)
Definition to_csv (records : list Expenses.row) : string :=
  let header :=
    match records with
    | [] => ""
    | _ :: _ => "id,user_id,amount,category,date,note"
    end in
  (header ++ linesep
     ++ String.concat "" (map (fun r => csv_record r ++ linesep) records))%string.

(** [/export]. *)
Definition export_expenses (now : Clock.datetime) (current_user : Z) (db : database)
  : outcome :=
  let current_month := Clock.strftime_Ym now in
  let expenses := export_rows now current_user db in
  let output := to_csv expenses in
  let filename := ("expenses_" ++ current_month ++ ".csv")%string in
  respond db (SendFile output "text/csv" true filename).

End Handlers.

(* ===================================================================== *)
(** ** The session: [load_user], [/login], [/logout] *)
(* ===================================================================== *)

(** werkzeug [check_password_hash(pwhash, password)]. *)
Class Hasher := {
  check_password_hash : string -> string -> bool
}.

Module FlaskLogin.
(** [class User(UserMixin)]. *)
Record User := { id : Z; username : string; email : string }.
End FlaskLogin.

Definition user_object (u : Users.row) : FlaskLogin.User :=
  {| FlaskLogin.id := Users.id u;
     FlaskLogin.username := Users.username u;
     FlaskLogin.email := Users.email u |}.

(** [load_user(user_id)]: the user of the session, if the row is there. *)
Definition load_user (db : database) (user_id : Z) : option FlaskLogin.User :=
  let user := Sql.fetchone (Sql.select (users db) (fun u => Users.id u =? user_id)) in
  match user with
  | Some u => Some (user_object u)
  | None => None
  end.

(** [/login]: the outcome and the user handed to [login_user], if any. *)
Definition login {H : Hasher} (method : http_method) (form : fields) (db : database)
  : outcome * option FlaskLogin.User :=
  match method with
  | POST =>
      match field "username" form, field "password" form with
      | Some username, Some password =>
          let user :=
            Sql.fetchone
              (Sql.select (users db) (fun u => (Users.username u =? username)%string)) in
          match user with
          | Some u =>
              if check_password_hash (Users.password_hash u) password then
                (flash_and_redirect db "Login successful!" "success" "dashboard",
                 Some (user_object u))
              else
                (flash_and_redirect db "Invalid username or password!" "danger" "login",
                 None)
          | None =>
              (flash_and_redirect db "Invalid username or password!" "danger" "login",
               None)
          end
      | _, _ => (respond db BadRequest, None)
      end
  | GET => (respond db (RenderTemplate "login.html"), None)
  end.

(** [/logout]. *)
Definition logout (db : database) : outcome :=
  flash_and_redirect db "You have been logged out." "info" "login".

(* ===================================================================== *)
(** ** The application as a transition system *)
(* ===================================================================== *)

(** The requests that reach the database.  [/login] and [/logout] only
    read [users] and change the session.  Routes behind [login_required]
    carry the id of the logged-in user. *)
Inductive request :=
| Signup (method : http_method) (form : fields)
| Dashboard (now : Clock.datetime) (current_user : Z) (args : fields)
| AddExpense (current_user : Z) (method : http_method) (form : fields)
| EditExpense (current_user expense_id : Z) (method : http_method) (form : fields)
| DeleteExpense (current_user expense_id : Z)
| SetBudget (current_user : Z) (method : http_method) (form : fields)
| Export (now : Clock.datetime) (current_user : Z).

Definition handle {RT : Runtime} (r : request) (db : database) : database :=
  match r with
  | Signup method form => out_db (signup method form db)
  | Dashboard now u args => fst (dashboard now u args db)
  | AddExpense u method form => out_db (add_expense u method form db)
  | EditExpense u i method form => out_db (edit_expense u i method form db)
  | DeleteExpense u i => out_db (delete_expense u i db)
  | SetBudget u method form => out_db (set_budget u method form db)
  | Export now u => out_db (export_expenses now u db)
  end.

(** The databases the application can be in, starting from [init_db]. *)
Inductive reachable {RT : Runtime} : database -> Prop :=
| reachable_init : reachable init_db
| reachable_step (r : request) (db : database) :
    reachable db -> reachable (handle r db).

(* ===================================================================== *)
(** ** A runtime to compute with *)
(* ===================================================================== *)

Module Reference.

Definition digit_value (c : ascii) : option Z :=
  let n := nat_of_ascii c in
  if (Nat.leb 48 n && Nat.leb n 57)%bool then Some (Z.of_nat (n - 48)) else None.

(** The value of a non-empty run of decimal digits. *)
Fixpoint digits_value (acc : Z) (s : string) : option Z :=
  match s with
  | EmptyString => Some acc
  | String c rest =>
      match digit_value c with
      | Some d => digits_value (acc * 10 + d) rest
      | None => None
      end
  end.

Definition number (s : string) : option Z :=
  match s with
  | EmptyString => None
  | _ => digits_value 0 s
  end.

(** [strftime('%Y-%m', t)] for [t] of the form [YYYY-MM-DD]: the month
    must be 01..12 and the day 01..31, and the answer is [YYYY-MM] as
    written (a day past the end of its month is not rolled over).  Other
    texts give NULL here; SQLite also reads a time after the date, Julian
    day numbers and [now]. *)
Definition strftime_Ym (t : string) : option string :=
  if negb (String.length t =? 10)%nat then None
  else if negb ((substring 4 1 t =? "-") && (substring 7 1 t =? "-"))%string then None
  else
    match number (substring 0 4 t), number (substring 5 2 t), number (substring 8 2 t) with
    | Some y, Some m, Some d =>
        if (1 <=? m) && (m <=? 12) && (1 <=? d) && (d <=? 31)
        then Some (substring 0 7 t)
        else None
    | _, _, _ => None
    end.

(** *** Text to REAL, after [sqlite3AtoF] of SQLite 3.40 *)

(** The x87 extended format in which SQLite scales the significand. *)
Definition xprec : Z := 64.
Definition xemax : Z := 16384.

Definition extended_of_Z (z : Z) : spec_float :=
  binary_normalize xprec xemax z 0 false.

(** Rounding of an extended number to a double. *)
Definition double_of_extended (x : spec_float) : Float.float :=
  match x with
  | S754_finite s m e =>
      binary_normalize Float.prec Float.emax (if s then Zneg m else Zpos m) e s
  | _ => x
  end.

(** [sqlite3Pow10]: 10^E by squaring, in the extended format. *)
Fixpoint pow10_loop (fuel : nat) (E : Z) (x r : spec_float) : spec_float :=
  match fuel with
  | O => r
  | S fuel' =>
      let r := if Z.odd E then SFmul xprec xemax r x else r in
      let E := Z.shiftr E 1 in
      if E =? 0 then r
      else pow10_loop fuel' E (SFmul xprec xemax x x) r
  end.

Definition pow10 (E : Z) : spec_float :=
  pow10_loop 16 E (extended_of_Z 10) (extended_of_Z 1).

Definition is_space (c : ascii) : bool :=
  let n := nat_of_ascii c in
  (Nat.eqb n 32 || (Nat.leb 9 n && Nat.leb n 13))%bool.

Fixpoint skip_spaces (z : string) : string :=
  match z with
  | String c rest => if is_space c then skip_spaces rest else z
  | EmptyString => z
  end.

Definition LARGEST_INT64 : Z := 9223372036854775807.

(** The digits before the point: significand, exponent shift, digits
    read, rest of the text. *)
Fixpoint whole_digits (z : string) (s d nDigit : Z) : Z * Z * Z * string :=
  match z with
  | String c rest =>
      match digit_value c with
      | Some v =>
          if s >=? (LARGEST_INT64 - 9) / 10
          then whole_digits rest s (d + 1) nDigit
          else whole_digits rest (s * 10 + v) d (nDigit + 1)
      | None => (s, d, nDigit, z)
      end
  | EmptyString => (s, d, nDigit, z)
  end.

(** The digits after the point. *)
Fixpoint fraction_digits (z : string) (s d nDigit : Z) : Z * Z * Z * string :=
  match z with
  | String c rest =>
      match digit_value c with
      | Some v =>
          if s <? (LARGEST_INT64 - 9) / 10
          then fraction_digits rest (s * 10 + v) (d - 1) (nDigit + 1)
          else fraction_digits rest s d nDigit
      | None => (s, d, nDigit, z)
      end
  | EmptyString => (s, d, nDigit, z)
  end.

(** The digits of the exponent: value, whether a digit was read, rest. *)
Fixpoint exponent_digits (z : string) (e : Z) (eValid : bool) : Z * bool * string :=
  match z with
  | String c rest =>
      match digit_value c with
      | Some v => exponent_digits rest (if e <? 10000 then e * 10 + v else 10000) true
      | None => (e, eValid, z)
      end
  | EmptyString => (e, eValid, z)
  end.

(** Trailing zeros of the significand against a negative exponent, and
    room in the significand against a positive one. *)
Fixpoint reduce_exponent (fuel : nat) (esign_negative : bool) (s e : Z) : Z * Z :=
  match fuel with
  | O => (s, e)
  | S fuel' =>
      if e >? 0 then
        if esign_negative then
          if negb (s mod 10 =? 0) then (s, e)
          else reduce_exponent fuel' esign_negative (s / 10) (e - 1)
        else
          if s >=? LARGEST_INT64 / 10 then (s, e)
          else reduce_exponent fuel' esign_negative (s * 10) (e - 1)
      else (s, e)
  end.

Definition atof_calc (negative : bool) (s e0 d : Z) : Float.float :=
  let e := e0 + d in
  let esign_negative := e <? 0 in
  let e := Z.abs e in
  if s =? 0 then S754_zero negative
  else
    let '(s, e) := reduce_exponent 20 esign_negative s e in
    let s := if negative then - s else s in
    if e =? 0 then Float.of_Z s
    else if e >? 307 then
      if e <? 342 then
        let scale := pow10 (e - 308) in
        let huge := Float.ratio (10 ^ 308) 1 in
        if esign_negative
        then Float.div (double_of_extended (SFdiv xprec xemax (extended_of_Z s) scale)) huge
        else Float.mul (double_of_extended (SFmul xprec xemax (extended_of_Z s) scale)) huge
      else
        if esign_negative then S754_zero negative else S754_infinity negative
    else
      let scale := pow10 e in
      if esign_negative
      then double_of_extended (SFdiv xprec xemax (extended_of_Z s) scale)
      else double_of_extended (SFmul xprec xemax (extended_of_Z s) scale).

(** The double read from the longest numeric prefix of the text, and
    whether the whole text is a number. *)
Definition atof (text : string) : Float.float * bool :=
  let z := skip_spaces text in
  match z with
  | EmptyString => (Float.zero, false)
  | String c0 rest0 =>
      let '(negative, z) :=
        if (c0 =? "-")%char then (true, rest0)
        else if (c0 =? "+")%char then (false, rest0)
        else (false, z) in
      let '(s, d, nDigit, z) := whole_digits z 0 0 0 in
      let '(s, d, nDigit, z) :=
        match z with
        | String "." rest => fraction_digits rest s d nDigit
        | _ => (s, d, nDigit, z)
        end in
      let '(e, eValid, z) :=
        match z with
        | EmptyString => (0, true, z)
        | String c rest =>
            if ((c =? "e") || (c =? "E"))%char then
              match rest with
              | EmptyString => (0, false, rest)
              | String c1 rest1 =>
                  let '(esign, z) :=
                    if (c1 =? "-")%char then (-1, rest1)
                    else if (c1 =? "+")%char then (1, rest1)
                    else (1, rest) in
                  let '(e, eValid, z) := exponent_digits z 0 false in
                  (e * esign, eValid, skip_spaces z)
              end
            else (0, true, skip_spaces z)
        end in
      (atof_calc negative s e d,
       match z with
       | EmptyString => (nDigit >? 0) && eValid
       | _ => false
       end)
  end.

(** The REAL stored for a text that is a number; a zero is stored
    without its sign. *)
Definition numeric (s : string) : option Float.float :=
  let '(x, whole) := atof s in
  if whole then
    Some match x with
         | S754_zero _ => Float.zero
         | _ => x
         end
  else None.

(** [SUM] (SQLite before 3.44): the doubles are added one after the
    other from 0.0; of a text its numeric prefix counts, a NULL is passed
    over, and a sum that is not a number comes out as NULL. *)
Definition sum_operand (v : Sql.value) : list Float.float :=
  match v with
  | Sql.VNull => []
  | Sql.VReal x => [x]
  | Sql.VText s => [fst (atof s)]
  end.

Definition sum (vs : list Sql.value) : Sql.value :=
  match flat_map sum_operand vs with
  | [] => Sql.VNull
  | xs =>
      match fold_left Float.add xs Float.zero with
      | S754_nan => Sql.VNull
      | total => Sql.VReal total
      end
  end.

(** Python [sum] of floats (CPython up to 3.11): left to right from 0. *)
Definition float_sum (xs : list Float.float) : Float.float :=
  fold_left Float.add xs Float.zero.

(** *** [repr] of a float *)

(** The double nearest to [num / den], [num] and [den] positive. *)
Definition nearest (num den : Z) : Float.float :=
  Float.ratio num (Z.to_pos den).

Definition float_eqb (x y : Float.float) : bool :=
  match x, y with
  | S754_finite s m e, S754_finite t n f => Bool.eqb s t && Pos.eqb m n && Z.eqb e f
  | S754_zero s, S754_zero t => Bool.eqb s t
  | S754_infinity s, S754_infinity t => Bool.eqb s t
  | S754_nan, S754_nan => true
  | _, _ => false
  end.

(** [digits * 10^exp10] as a fraction. *)
Definition decimal (digits exp10 : Z) : Z * Z :=
  if exp10 >=? 0 then (digits * 10 ^ exp10, 1) else (digits, 10 ^ (- exp10)).

(** The position of the decimal point of [v > 0]: the [k] with
    [10^(k-1) <= v < 10^k]. *)
Fixpoint adjust_point (fuel : nat) (v : Q) (k : Z) : Z :=
  match fuel with
  | O => k
  | S fuel' =>
      let '(n, d) := decimal 1 k in
      if Qle_bool (n # Z.to_pos d) v then adjust_point fuel' v (k + 1) else k
  end.

Definition decimal_point (v : Q) : Z :=
  let guess := (Z.log2 (Qnum v) - Z.log2 (Zpos (Qden v))) * 30103 / 100000 - 1 in
  adjust_point 6 v guess.

(** The shortest digit string that reads back as [x > 0], the closest to
    [x] among the shortest: the digits as a number, how many, and the
    position of the point. *)
Fixpoint shortest_from (fuel : nat) (n : Z) (x : Float.float) (k : Z) : Z * Z :=
  match fuel with
  | O => (0, n)
  | S fuel' =>
      let v := Float.value x in
      let '(sn, sd) := decimal 1 (n - k) in
      let scaled := (v * (sn # Z.to_pos sd))%Q in
      let lo := Qfloor scaled in
      let hi := lo + 1 in
      let reads_back digits :=
        let '(a, b) := decimal digits (k - n) in
        (0 <? digits) && float_eqb (nearest a b) x in
      let lo_ok := reads_back lo in
      let hi_ok := reads_back hi in
      let pick_hi :=
        match Qcompare (scaled - inject_Z lo) (1 # 2) with
        | Lt => false
        | Gt => true
        | Eq => Z.odd lo
        end in
      if lo_ok && hi_ok then ((if pick_hi then hi else lo), n)
      else if lo_ok then (lo, n)
      else if hi_ok then (hi, n)
      else shortest_from fuel' (n + 1) x k
  end.

Fixpoint strip_zeros (fuel : nat) (digits n : Z) : Z * Z :=
  match fuel with
  | O => (digits, n)
  | S fuel' =>
      if (1 <? n) && (digits mod 10 =? 0) then strip_zeros fuel' (digits / 10) (n - 1)
      else (digits, n)
  end.

Fixpoint zeros (n : nat) : string :=
  match n with
  | O => ""
  | S n' => String "0" (zeros n')
  end.

Definition repr_positive (x : Float.float) : string :=
  let k := decimal_point (Float.value x) in
  let '(digits, n) := shortest_from 17 1 x k in
  (* a carry, as in 9.5 read with one digit, moves the point *)
  let k := if digits =? 10 ^ n then k + 1 else k in
  let '(digits, n) := strip_zeros 20 digits (if digits =? 10 ^ n then n + 1 else n) in
  let text := Text.string_of_Z digits in
  if (-4 <? k) && (k <=? 16) then
    if k <=? 0 then ("0." ++ zeros (Z.to_nat (- k)) ++ text)%string
    else if n <=? k then (text ++ zeros (Z.to_nat (k - n)) ++ ".0")%string
    else (substring 0 (Z.to_nat k) text ++ "."
            ++ substring (Z.to_nat k) (Z.to_nat (n - k)) text)%string
  else
    let e := k - 1 in
    (substring 0 1 text
       ++ (if (1 <? n)%Z then "." ++ substring 1 (Z.to_nat (n - 1)) text else "")
       ++ "e" ++ (if (e <? 0)%Z then "-" else "+")
       ++ (if (Z.abs e <? 10)%Z then "0" else "") ++ Text.string_of_Z (Z.abs e))%string.

Definition repr (x : Float.float) : string :=
  match x with
  | S754_nan => "nan"
  | S754_infinity s => if s then "-inf" else "inf"
  | S754_zero s => if s then "-0.0" else "0.0"
  | S754_finite s m e =>
      ((if s then "-" else "") ++ repr_positive (S754_finite false m e))%string
  end.

(** *** A CSV field *)

Definition quote : ascii := ascii_of_nat 34.

(** A field with a comma, a quote or a line feed is quoted. *)
Fixpoint needs_quotes (s : string) : bool :=
  match s with
  | EmptyString => false
  | String c rest =>
      (c =? ",")%char || (c =? quote)%char || (nat_of_ascii c =? 10)%nat
      || needs_quotes rest
  end.

Fixpoint double_quotes (s : string) : string :=
  match s with
  | EmptyString => EmptyString
  | String c rest =>
      if (c =? quote)%char then String quote (String quote (double_quotes rest))
      else String c (double_quotes rest)
  end.

Definition csv_field (s : string) : string :=
  if needs_quotes s
  then (String quote (double_quotes s) ++ String quote "")%string
  else s.

Definition record_line (r : Expenses.row) : string :=
  String.concat ","
    [Text.string_of_Z (Expenses.id r);
     Text.string_of_Z (Expenses.user_id r);
     match Expenses.amount r with
     | Sql.VNull => ""
     | Sql.VReal x => repr x
     | Sql.VText s => csv_field s
     end;
     csv_field (Expenses.category r);
     csv_field (Expenses.date r);
     match Expenses.note r with Some n => csv_field n | None => "" end].

Definition newline : string := String (ascii_of_nat 10) "".

#[export] Instance runtime : Runtime := {|
  sqlite_strftime_Ym := strftime_Ym;
  sqlite_numeric := numeric;
  sqlite_sum := sum;
  py_float_sum := float_sum;
  generate_password_hash := fun password => ("hash:" ++ password)%string;
  csv_record := record_line;
  linesep := newline
|}.

End Reference.

(* ===================================================================== *)
(** ** Vocabulary of the statements *)
(* ===================================================================== *)

Definition opt_text_dec (a b : option string) : {a = b} + {a <> b}.
Proof. decide equality. apply string_dec. Defined.

(** The expenses of [user_id], in storage order. *)
Definition owned_expenses (db : database) (user_id : Z) : list Expenses.row :=
  filter (fun e => (Expenses.user_id e =? user_id)%Z) (Sql.rows (expenses db)).

(** The day [forecast_next_month] counts from, as [YYYY-MM-DD]. *)
Definition three_months_ago (now : Clock.datetime) : string :=
  Clock.strftime_Ymd (Clock.minus_days now 90).

(** The expenses of the user dated, as text, on or after that day. *)
Definition forecast_window (now : Clock.datetime) (db : database) (user_id : Z)
  : list Expenses.row :=
  filter (fun e => Text.text_ge (Expenses.date e) (three_months_ago now))
    (owned_expenses db user_id).

(** A date within the trailing three months: from that day up to today. *)
Definition in_trailing_three_months (now : Clock.datetime) (date : string) : bool :=
  Text.text_ge date (three_months_ago now) && Text.text_le date (Clock.strftime_Ymd now).

(** The distinct values of [strftime('%Y-%m', date)] over some expenses
    (the dates SQLite cannot read share the key NULL). *)
Definition month_keys {RT : Runtime} (es : list Expenses.row) : list (option string) :=
  nodup opt_text_dec (map (fun e => sqlite_strftime_Ym (Expenses.date e)) es).

(** The columns [get_expenses] may sort by. *)
Definition sort_columns : list string := ["date"; "amount"; "category"].

(** The text of the query up to the ORDER BY clause, given which of the
    four optional conditions are present. *)
Definition where_text (by_category by_start by_end by_search : bool) : string :=
  ("SELECT * FROM expenses WHERE user_id = ?"
     ++ (if by_category then " AND category = ?" else "")
     ++ (if by_start then " AND date >= ?" else "")
     ++ (if by_end then " AND date <= ?" else "")
     ++ (if by_search then " AND (note LIKE ? OR category LIKE ?)" else ""))%string.

(** The sixteen such texts. *)
Definition where_texts : list string :=
  flat_map (fun a =>
    flat_map (fun b =>
      flat_map (fun c =>
        map (fun d => where_text a b c d) [true; false])
        [true; false])
      [true; false])
    [true; false].

(** The expenses that belong to somebody else than [user_id]. *)
Definition expenses_of_others (db : database) (user_id : Z) : list Expenses.row :=
  filter (fun e => negb (Expenses.user_id e =? user_id)%Z) (Sql.rows (expenses db)).

(** The budget rows of [user_id]. *)
Definition budget_rows_of (db : database) (user_id : Z) : list UserBudget.row :=
  filter (fun b => (UserBudget.user_id b =? user_id)%Z) (Sql.rows (user_budget db)).

(** No user has two budget rows. *)
Definition one_budget_per_user (db : database) : Prop :=
  forall u : Z, (List.length (budget_rows_of db u) <= 1)%nat.

(** The UNIQUE constraints of [users]. *)
Definition unique_accounts (db : database) : Prop :=
  NoDup (map Users.username (Sql.rows (users db)))
  /\ NoDup (map Users.email (Sql.rows (users db))).

(** The budget row the dashboard shows for [user_id]: the first one
    stored, or the row [get_budget] stores when there is none yet. *)
Definition stored_budget (db : database) (user_id : Z) : UserBudget.row :=
  match budget_rows_of db user_id with
  | b :: _ => b
  | [] =>
      {| UserBudget.id := (Sql.seq (user_budget db) + 1)%Z;
         UserBudget.user_id := user_id;
         UserBudget.monthly_income := Sql.VReal (Float.of_Z 5000);
         UserBudget.savings_goal := Sql.VReal (Float.of_Z 1000) |}
  end.

(** The listing of the dashboard for the parameters of a request. *)
Definition dashboard_listing (db : database) (user_id : Z) (args : fields)
  : list Expenses.row :=
  get_expenses db user_id
    (Some (field_or "category" "All" args)) (Some (field_or "start_date" "" args))
    (Some (field_or "end_date" "" args)) (Some (field_or "search" "" args))
    (field_or "sort_by" "date" args) (field_or "sort_order" "DESC" args).

(** What the dashboard computes after the listing and the budget row are
    read: the chart data. *)
Definition category_data_of {RT : Runtime} (db : database) (user_id : Z)
  : list (string * Py.value) :=
  fold_left
    (fun data row =>
       if dict_has String.eqb (fst row) data
       then dict_set String.eqb (fst row) (Py.of_sql (snd row)) data
       else data)
    (calculate_category_spending db user_id)
    (map (fun cat => (cat, Py.int 0)) categories).

(** Concrete databases and dates to run the model on. *)
Module Scenario.

Definition post_expense (user : Z) (amount category date : string) (db : database)
  : database :=
  out_db (add_expense (RT := Reference.runtime) user POST
            [("amount", amount); ("category", category); ("date", date)] db).

(** The example of the specification: (10.00, Food, 2024-01-05),
    (20.00, Food, 2024-01-10), (5.00, Travel, 2024-02-01), user 1. *)
Definition three_expenses : database :=
  post_expense 1 "5.00" "Travel" "2024-02-01"
    (post_expense 1 "20.00" "Food" "2024-01-10"
       (post_expense 1 "10.00" "Food" "2024-01-05" init_db)).

(** One expense of user 1, dated half a year after [mid_june]. *)
Definition christmas_trip : database :=
  post_expense 1 "40" "Travel" "2024-12-25" init_db.

(** Three small expenses of user 1: 0.1 Food, 0.1 Travel, 1.1 Food. *)
Definition tenths : database :=
  post_expense 1 "1.1" "Food" "2024-01-07"
    (post_expense 1 "0.1" "Travel" "2024-01-06"
       (post_expense 1 "0.1" "Food" "2024-01-05" init_db)).

(** 154.40 in January and 708.69 in February. *)
Definition two_months : database :=
  post_expense 1 "708.69" "Rent" "2024-02-03"
    (post_expense 1 "154.40" "Food" "2024-01-20" init_db).

(** Two amounts of one month that add up to no number. *)
Definition overflowing : database :=
  post_expense 1 "-1e999" "Other" "2024-02-04"
    (post_expense 1 "1e999" "Other" "2024-02-03" init_db).

(** An expense posted with an empty amount field among two numbers. *)
Definition empty_amount : database :=
  post_expense 1 "20.00" "Food" "2024-01-10"
    (post_expense 1 "" "Other" "2024-01-07"
       (post_expense 1 "10.00" "Food" "2024-01-05" init_db)).

(** An expense with a note of non-ASCII characters, and one whose note
    holds a NUL byte. *)
Definition cafe : database :=
  out_db (add_expense (RT := Reference.runtime) 1 POST
            [("amount", "3.20"); ("category", "Food"); ("date", "2024-02-04");
             ("note", "café bar")] init_db).

Definition nul_note : database :=
  out_db (add_expense (RT := Reference.runtime) 1 POST
            [("amount", "8"); ("category", "Food"); ("date", "2024-02-05");
             ("note", String "x" (String (ascii_of_nat 0) "lunch"))] init_db).

Definition mid_june : Clock.datetime :=
  {| Clock.year := 2024; Clock.month := 6; Clock.day := 15 |}.

Definition mid_february : Clock.datetime :=
  {| Clock.year := 2024; Clock.month := 2; Clock.day := 15 |}.

(** Users 1 and 2 with one expense each, both with id-bearing rows. *)
Definition two_users : database :=
  post_expense 2 "7.25" "Bills" "2024-02-03"
    (post_expense 1 "12.50" "Food" "2024-02-02" init_db).

Definition signup_form (username email password : string) : fields :=
  [("username", username); ("email", email); ("password", password)].

(** One registered user, "ana". *)
Definition one_account : database :=
  out_db (signup (RT := Reference.runtime) POST
            (signup_form "ana" "ana@example.org" "correct horse") init_db).

End Scenario.

(** AUTOINCREMENT keys: in rowid order the keys strictly increase, and
    each is positive and at most the last key handed out. *)
Definition keys_in_sequence (A : Type) (key : A -> Z) (t : Sql.table A) : Prop :=
  StronglySorted Z.lt (map key (Sql.rows t))
  /\ Forall (fun r => (0 < key r <= Sql.seq t)%Z) (Sql.rows t)
  /\ (0 <= Sql.seq t)%Z.

Definition well_keyed (db : database) : Prop :=
  keys_in_sequence Users.id (users db)
  /\ keys_in_sequence Expenses.id (expenses db)
  /\ keys_in_sequence UserBudget.id (user_budget db).

(** The statements a request can run against the tables: none, or one
    INSERT, UPDATE or DELETE.  An INSERT takes its key from the sequence,
    and an UPDATE never assigns [id] or [user_id]. *)
Inductive writes : database -> database -> Prop :=
| writes_nothing (db : database) : writes db db
| writes_insert_user (db : database) (mk : Z -> Users.row) :
    (forall i, Users.id (mk i) = i) ->
    writes db (with_users db (Sql.insert (users db) mk))
| writes_insert_expense (db : database) (mk : Z -> Expenses.row) :
    (forall i, Expenses.id (mk i) = i) ->
    writes db (with_expenses db (Sql.insert (expenses db) mk))
| writes_update_expense (db : database) (cond : Expenses.row -> bool)
    (set : Expenses.row -> Expenses.row) :
    (forall r, Expenses.id (set r) = Expenses.id r) ->
    writes db (with_expenses db (Sql.update (expenses db) cond set))
| writes_delete_expense (db : database) (cond : Expenses.row -> bool) :
    writes db (with_expenses db (Sql.delete (expenses db) cond))
| writes_insert_budget (db : database) (mk : Z -> UserBudget.row) :
    (forall i, UserBudget.id (mk i) = i) ->
    writes db (with_user_budget db (Sql.insert (user_budget db) mk))
| writes_update_budget (db : database) (cond : UserBudget.row -> bool)
    (set : UserBudget.row -> UserBudget.row) :
    (forall r, UserBudget.id (set r) = UserBudget.id r) ->
    writes db (with_user_budget db (Sql.update (user_budget db) cond set)).

(** The databases that follow [db] after any number of requests. *)
Inductive later {RT : Runtime} (db : database) : database -> Prop :=
| later_now : later db db
| later_step (r : request) (db' : database) :
    later db db' -> later db (handle r db').

(** The logged-in user on whose behalf a request runs. *)
Definition request_user (r : request) : option Z :=
  match r with
  | Signup _ _ => None
  | Dashboard _ u _ => Some u
  | AddExpense u _ _ => Some u
  | EditExpense u _ _ _ => Some u
  | DeleteExpense u _ => Some u
  | SetBudget u _ _ => Some u
  | Export _ u => Some u
  end.



(** The row that [/edit] and [/add] write from a form. *)
Definition expense_of_form {RT : Runtime} (id user_id : Z) (amount category date : string)
    (form : fields) : Expenses.row :=
  {| Expenses.id := id;
     Expenses.user_id := user_id;
     Expenses.amount := sqlite_real amount;
     Expenses.category := category;
     Expenses.date := date;
     Expenses.note := Some (field_or "note" "" form) |}.

(** The value a dictionary holds under a key. *)
Fixpoint dict_get (K V : Type) (keq : K -> K -> bool) (k : K) (d : list (K * V))
  : option V :=
  match d with
  | [] => None
  | (k', v) :: rest => if keq k' k then Some v else dict_get keq k rest
  end.

(** A hash verifies the password it was made from. *)
Definition hasher_sound {RT : Runtime} {H : Hasher} : Prop :=
  forall password : string,
    check_password_hash (generate_password_hash password) password = true.

(** The checker that goes with [Reference.runtime]. *)
Definition reference_hasher : Hasher :=
  {| check_password_hash := fun pwhash password => (pwhash =? "hash:" ++ password)%string |}.

(** More concrete databases. *)
Module Cases.

Definition add_form (amount category date : string) : fields :=
  [("amount", amount); ("category", category); ("date", date)].

(** User 1 posts one expense into the empty database. *)
Definition one_expense : database :=
  handle (RT := Reference.runtime)
    (AddExpense 1 POST (add_form "12.50" "Food" "2024-02-02")) init_db.

(** [Scenario.two_users] after each user has opened the dashboard. *)
Definition two_budgets : database :=
  handle (RT := Reference.runtime) (Dashboard Scenario.mid_february 2 [])
    (handle (RT := Reference.runtime) (Dashboard Scenario.mid_february 1 [])
       Scenario.two_users).

End Cases.

(* ===================================================================== *)
(** * Properties *)
(* ===================================================================== *)

Local Open Scope Q_scope.

(** ** The model on a few inputs *)

Example minus_days_examples :
  Clock.strftime_Ymd (Clock.minus_days Scenario.mid_june 90) = "2024-03-17"
  /\ Clock.strftime_Ymd
       (Clock.minus_days {| Clock.year := 2024; Clock.month := 3; Clock.day := 1 |} 1)
     = "2024-02-29"
  /\ Clock.strftime_Ymd
       (Clock.minus_days {| Clock.year := 2023; Clock.month := 1; Clock.day := 15 |} 30)
     = "2022-12-16"
  /\ Clock.strftime_Ym Scenario.mid_june = "2024-06".
Proof. repeat split. Qed.

Example like_examples :
  Text.like "%foo%" "Fast FOOD" = true
  /\ Text.like "%%" "" = true
  /\ Text.like "%a_c%" "xxabcxx" = true
  /\ Text.like "%rent%" "Food" = false.
Proof. repeat split. Qed.

Example string_of_Z_examples :
  Text.string_of_Z 0 = "0" /\ Text.string_of_Z 1234 = "1234"
  /\ Text.string_of_Z (-70) = "-70".
Proof. repeat split. Qed.

Example like_reads_characters :
  Text.like "%f_ b%" "café bar" = true
  /\ Text.like "caf_" "café" = true
  /\ Text.like "caf__" "café" = false
  /\ Text.like "%É%" "café" = false
  /\ Text.len "пароль1" = 7%nat
  /\ String.length "пароль1" = 13%nat.
Proof. repeat split. Qed.

Example round2_examples :
  Float.round2 (Float.ratio 35 2) = Float.ratio 175 10
  /\ Float.round2 (Float.ratio 100 3) = Float.ratio 3333 100
  /\ Float.round2 (Float.ratio 2675 1000) = Float.ratio 267 100
  /\ Float.round2 (Float.ratio 431545 1000) = Float.ratio 43155 100
  /\ Float.round2 (Float.ratio 1 8) = Float.ratio 12 100
  /\ Float.round2 (Float.ratio 3 8) = Float.ratio 38 100
  /\ Float.round2 (Float.ratio (-1) 1000) = S754_zero true
  /\ Float.round2 (S754_infinity false) = S754_infinity false.
Proof. repeat split; vm_compute; reflexivity. Qed.

Example reference_runtime_examples :
  Reference.strftime_Ym "2024-01-05" = Some "2024-01"
  /\ Reference.strftime_Ym "2024-02-30" = Some "2024-02"
  /\ Reference.strftime_Ym "2024-13-01" = None
  /\ Reference.strftime_Ym "soon" = None
  /\ Reference.numeric "12.50" = Some (Float.ratio 125 10)
  /\ Reference.numeric "-3" = Some (Float.of_Z (-3))
  /\ Reference.numeric "1e3" = Some (Float.of_Z 1000)
  /\ Reference.numeric ".5" = Some (Float.ratio 1 2)
  /\ Reference.numeric "+7" = Some (Float.of_Z 7)
  /\ Reference.numeric " 5 " = Some (Float.of_Z 5)
  /\ Reference.numeric "-0.0" = Some Float.zero
  /\ Reference.numeric "abc" = None
  /\ Reference.numeric "" = None
  /\ Reference.numeric "12abc" = None
  /\ Reference.sum [Sql.VText "12abc"; Sql.VReal (Float.ratio 1 2)]
     = Sql.VReal (Float.ratio 125 10)
  /\ Reference.sum [Sql.VReal (S754_infinity false); Sql.VReal (S754_infinity true)]
     = Sql.VNull
  /\ Reference.repr (Float.of_Z 20) = "20.0"
  /\ Reference.repr (Float.ratio 125 10) = "12.5"
  /\ Reference.repr (Float.ratio 13 10) = "1.3"
  /\ Reference.repr (Float.add (Float.ratio 12 10) (Float.ratio 1 10)) = "1.3"
  /\ Reference.repr (Float.add (Float.ratio 1 10) (Float.ratio 2 10))
     = "0.30000000000000004"
  /\ Reference.repr (Float.of_Z (10 ^ 16)) = "1e+16"
  /\ Reference.repr (Float.ratio 1 100000) = "1e-05".
Proof. repeat split; vm_compute; reflexivity. Qed.

Example category_totals_of_three_expenses :
  calculate_category_spending (RT := Reference.runtime) Scenario.three_expenses 1
  = [("Food", Sql.VReal (Float.of_Z 30)); ("Travel", Sql.VReal (Float.of_Z 5))].
Proof. vm_compute. reflexivity. Qed.

(** ** ORDER BY *)

Section OrderByFacts.
Variable A : Type.
Variable le : A -> A -> bool.

Lemma insert_sorted_perm (x : A) (l : list A) :
  Permutation (Sql.insert_sorted le x l) (x :: l).
Proof.
  induction l as [|y l IH]; cbn [Sql.insert_sorted].
  - reflexivity.
  - destruct (le x y).
    + reflexivity.
    + rewrite IH. apply perm_swap.
Qed.

Lemma order_by_perm (l : list A) : Permutation (Sql.order_by le l) l.
Proof.
  induction l as [|x l IH]; cbn [Sql.order_by fold_right].
  - reflexivity.
  - fold (Sql.order_by le l). rewrite insert_sorted_perm. now constructor.
Qed.

Lemma order_by_length (l : list A) : List.length (Sql.order_by le l) = List.length l.
Proof. apply Permutation_length, order_by_perm. Qed.

Lemma order_by_cons (x : A) (l : list A) :
  Sql.order_by le (x :: l) = Sql.insert_sorted le x (Sql.order_by le l).
Proof. reflexivity. Qed.

(** A class of rows that are [le] to each other keeps the order in
    which it was read. *)
Section Stable.
Variable p : A -> bool.
Hypothesis p_le : forall x y, p x = true -> p y = true -> le x y = true.

Lemma insert_sorted_filter (x : A) (l : list A) :
  filter p (Sql.insert_sorted le x l) = filter p (x :: l).
Proof.
  induction l as [|y l IH]; cbn [Sql.insert_sorted].
  - reflexivity.
  - destruct (le x y) eqn:Hxy.
    + reflexivity.
    + cbn [filter] in IH |- *. rewrite IH.
      destruct (p x) eqn:Hx, (p y) eqn:Hy; try reflexivity.
      rewrite (p_le Hx Hy) in Hxy. discriminate.
Qed.

Lemma order_by_stable (l : list A) : filter p (Sql.order_by le l) = filter p l.
Proof.
  induction l as [|x l IH].
  - reflexivity.
  - rewrite order_by_cons, insert_sorted_filter. cbn [filter].
    now rewrite IH.
Qed.
End Stable.

Section Sorted.
Hypothesis le_total : forall x y, le x y = true \/ le y x = true.
Hypothesis le_trans : forall x y z, le x y = true -> le y z = true -> le x z = true.

Lemma insert_sorted_sorted (x : A) (l : list A) :
  StronglySorted (fun a b => le a b = true) l ->
  StronglySorted (fun a b => le a b = true) (Sql.insert_sorted le x l).
Proof.
  induction 1 as [|y l Hs IH Hy]; cbn [Sql.insert_sorted].
  - repeat constructor.
  - destruct (le x y) eqn:Hxy.
    + constructor.
      * now constructor.
      * constructor; [exact Hxy|].
        eapply Forall_impl; [|exact Hy].
        intros z Hz. now apply le_trans with y.
    + constructor; [exact IH|].
      eapply Permutation_Forall.
      * symmetry. apply insert_sorted_perm.
      * constructor; [|exact Hy].
        destruct (le_total x y) as [H|H]; [congruence|exact H].
Qed.

Lemma order_by_sorted (l : list A) :
  StronglySorted (fun a b => le a b = true) (Sql.order_by le l).
Proof.
  induction l as [|x l IH].
  - constructor.
  - rewrite order_by_cons. now apply insert_sorted_sorted.
Qed.
End Sorted.
End OrderByFacts.


(** ** GROUP BY *)

Section GroupByFacts.
Variables R K V : Type.
Variable key : R -> K.
Variable val : R -> V.
Variable keq : K -> K -> bool.
Variable kle : K -> K -> bool.
Hypothesis keq_eq : forall a b, keq a b = true <-> a = b.

Local Abbreviation collect := (Sql.collect key val keq).
Local Abbreviation group_by := (Sql.group_by key val keq kle).

Lemma add_to_group_keys (k : K) (v : V) (g : list (K * list V)) :
  map fst (Sql.add_to_group keq k v g)
  = if existsb (keq k) (map fst g) then map fst g else map fst g ++ [k].
Proof.
  induction g as [|[k' t] g IH]; cbn [Sql.add_to_group map fst existsb app].
  - reflexivity.
  - destruct (keq k k') eqn:Hk; cbn [orb map fst].
    + reflexivity.
    + rewrite IH. now destruct (existsb (keq k) (map fst g)).
Qed.

Lemma existsb_keq (k : K) (ks : list K) : existsb (keq k) ks = true <-> In k ks.
Proof.
  rewrite existsb_exists. split.
  - intros [k' [Hin Hk]]. apply keq_eq in Hk. now subst.
  - intros Hin. exists k. split; [exact Hin|]. now apply keq_eq.
Qed.

Lemma add_to_group_NoDup (k : K) (v : V) (g : list (K * list V)) :
  NoDup (map fst g) -> NoDup (map fst (Sql.add_to_group keq k v g)).
Proof.
  intros Hnd. rewrite add_to_group_keys.
  destruct (existsb (keq k) (map fst g)) eqn:Hex; [exact Hnd|].
  apply NoDup_app; [exact Hnd|repeat constructor; intros []|].
  intros x Hx [Hk|[]]. subst x.
  apply existsb_keq in Hx. congruence.
Qed.

Lemma add_to_group_In (k k0 : K) (v : V) (g : list (K * list V)) :
  In k0 (map fst (Sql.add_to_group keq k v g)) <-> k0 = k \/ In k0 (map fst g).
Proof.
  rewrite add_to_group_keys.
  destruct (existsb (keq k) (map fst g)) eqn:Hex.
  - apply existsb_keq in Hex. split; [now right|].
    intros [->|H]; assumption.
  - rewrite in_app_iff. cbn [In]. intuition.
Qed.

Lemma collect_cons (r : R) (result : list R) (g : list (K * list V)) :
  collect g (r :: result) = collect (Sql.add_to_group keq (key r) (val r) g) result.
Proof. reflexivity. Qed.

Lemma collect_NoDup (result : list R) (g : list (K * list V)) :
  NoDup (map fst g) -> NoDup (map fst (collect g result)).
Proof.
  revert g; induction result as [|r result IH]; intros g Hnd.
  - exact Hnd.
  - rewrite collect_cons. apply IH. now apply add_to_group_NoDup.
Qed.

Lemma collect_In (k0 : K) (result : list R) (g : list (K * list V)) :
  In k0 (map fst (collect g result))
  <-> In k0 (map fst g) \/ In k0 (map key result).
Proof.
  revert g; induction result as [|r result IH]; intros g.
  - cbn. intuition.
  - rewrite collect_cons, IH, add_to_group_In. cbn [map In]. intuition.
Qed.

Lemma add_to_group_group_of (c k : K) (v : V) (g : list (K * list V)) :
  Sql.group_of keq c (Sql.add_to_group keq k v g)
  = Sql.group_of keq c g ++ (if keq c k then [v] else []).
Proof.
  induction g as [|[k' t] g IH]; cbn [Sql.add_to_group Sql.group_of].
  - now destruct (keq c k).
  - destruct (keq k k') eqn:Hk; cbn [Sql.group_of].
    + apply keq_eq in Hk. subst k'.
      destruct (keq c k); [reflexivity|].
      now rewrite app_nil_r.
    + destruct (keq c k') eqn:Hc.
      * apply keq_eq in Hc. subst k'.
        destruct (keq c k) eqn:Hck; [|now rewrite app_nil_r].
        apply keq_eq in Hck. subst k.
        assert (keq c c = true) by now apply keq_eq. congruence.
      * exact IH.
Qed.

Lemma collect_group_of (c : K) (result : list R) (g : list (K * list V)) :
  Sql.group_of keq c (collect g result)
  = Sql.group_of keq c g ++ map val (filter (fun r => keq c (key r)) result).
Proof.
  revert g; induction result as [|r result IH]; intros g.
  - cbn. now rewrite app_nil_r.
  - rewrite collect_cons, IH, add_to_group_group_of. cbn [filter].
    destruct (keq c (key r)); cbn [map].
    + now rewrite <- app_assoc.
    + now rewrite app_nil_r.
Qed.

Lemma group_of_In (c : K) (vs : list V) (g : list (K * list V)) :
  NoDup (map fst g) -> In (c, vs) g -> Sql.group_of keq c g = vs.
Proof.
  induction g as [|[k' t'] g IH]; cbn [map fst In Sql.group_of]; intros Hnd Hin.
  - contradiction.
  - inversion Hnd as [|? ? Hnotin Hnd']; subst.
    destruct Hin as [Heq|Hin].
    + inversion Heq; subst.
      assert (keq c c = true) as -> by now apply keq_eq. reflexivity.
    + destruct (keq c k') eqn:Hc.
      * apply keq_eq in Hc. subst k'.
        exfalso. apply Hnotin. change c with (fst (c, vs)). now apply in_map.
      * now apply IH.
Qed.

Lemma group_by_perm (result : list R) :
  Permutation (group_by result) (collect [] result).
Proof. apply order_by_perm. Qed.

Lemma group_by_NoDup (result : list R) : NoDup (map fst (group_by result)).
Proof.
  eapply Permutation_NoDup.
  - symmetry. apply Permutation_map, group_by_perm.
  - apply collect_NoDup. constructor.
Qed.

Lemma group_by_In (k0 : K) (result : list R) :
  In k0 (map fst (group_by result)) <-> In k0 (map key result).
Proof.
  split.
  - intros H.
    apply (Permutation_in _ (Permutation_map fst (group_by_perm result))) in H.
    apply collect_In in H. destruct H as [[]|H]. exact H.
  - intros H.
    apply (Permutation_in _ (Permutation_sym (Permutation_map fst (group_by_perm result)))).
    apply collect_In. now right.
Qed.

(** The values of a group are those of the rows of its key, in the
    order of the rows. *)
Lemma group_by_each (c : K) (vs : list V) (result : list R) :
  In (c, vs) (group_by result) ->
  vs = map val (filter (fun r => keq c (key r)) result).
Proof.
  intros Hin.
  apply (Permutation_in _ (group_by_perm result)) in Hin.
  rewrite <- (@group_of_In c vs _ (@collect_NoDup result [] (NoDup_nil _)) Hin).
  now rewrite collect_group_of.
Qed.

(** As many groups as there are distinct keys. *)
Lemma group_by_length (dec : forall a b : K, {a = b} + {a <> b}) (result : list R) :
  List.length (group_by result) = List.length (nodup dec (map key result)).
Proof.
  rewrite <- (length_map fst).
  apply Permutation_length, NoDup_Permutation.
  - apply group_by_NoDup.
  - apply NoDup_nodup.
  - intros k0. rewrite group_by_In, nodup_In. reflexivity.
Qed.

Lemma group_by_keys (dec : forall a b : K, {a = b} + {a <> b}) (result : list R) :
  Permutation (map fst (group_by result)) (nodup dec (map key result)).
Proof.
  apply NoDup_Permutation.
  - apply group_by_NoDup.
  - apply NoDup_nodup.
  - intros k0. rewrite group_by_In, nodup_In. reflexivity.
Qed.

Section Ascending.
Hypothesis kle_total : forall x y, kle x y = true \/ kle y x = true.
Hypothesis kle_trans : forall x y z, kle x y = true -> kle y z = true -> kle x z = true.

Lemma group_by_sorted (result : list R) :
  StronglySorted (fun a b => kle (fst a) (fst b) = true) (group_by result).
Proof.
  apply order_by_sorted.
  - intros x y. apply kle_total.
  - intros x y z. apply kle_trans.
Qed.

End Ascending.
End GroupByFacts.

Section GroupSumFacts.
Context {RT : Runtime}.
Variables R K : Type.
Variable key : R -> K.
Variable val : R -> Sql.value.
Variable keq : K -> K -> bool.
Variable kle : K -> K -> bool.
Hypothesis keq_eq : forall a b, keq a b = true <-> a = b.

Lemma group_sum_keys (result : list R) :
  map fst (group_sum key val keq kle result)
  = map fst (Sql.group_by key val keq kle result).
Proof. unfold group_sum. rewrite map_map. reflexivity. Qed.

Lemma group_sum_NoDup (result : list R) :
  NoDup (map fst (group_sum key val keq kle result)).
Proof. rewrite group_sum_keys. now apply (@group_by_NoDup R K Sql.value key val keq kle keq_eq). Qed.

Lemma group_sum_In (k0 : K) (result : list R) :
  In k0 (map fst (group_sum key val keq kle result)) <-> In k0 (map key result).
Proof. rewrite group_sum_keys. now apply (@group_by_In R K Sql.value key val keq kle keq_eq). Qed.

(** Each total is [SUM] over the values of the rows of its key, in the
    order of the rows. *)
Lemma group_sum_each (c : K) (t : Sql.value) (result : list R) :
  In (c, t) (group_sum key val keq kle result) ->
  t = sqlite_sum (map val (filter (fun r => keq c (key r)) result)).
Proof.
  unfold group_sum. intros Hin.
  apply in_map_iff in Hin. destruct Hin as [[c' vs] [Heq Hin]].
  cbn [fst snd] in Heq. injection Heq as -> <-.
  now rewrite <- (@group_by_each R K Sql.value key val keq kle keq_eq c vs result Hin).
Qed.

Lemma group_sum_length (dec : forall a b : K, {a = b} + {a <> b}) (result : list R) :
  List.length (group_sum key val keq kle result)
  = List.length (nodup dec (map key result)).
Proof.
  unfold group_sum. rewrite length_map.
  now apply (@group_by_length R K Sql.value key val keq kle keq_eq).
Qed.

Lemma group_sum_sorted (result : list R) :
  (forall x y, kle x y = true \/ kle y x = true) ->
  (forall x y z, kle x y = true -> kle y z = true -> kle x z = true) ->
  StronglySorted (fun a b => kle (fst a) (fst b) = true)
    (group_sum key val keq kle result).
Proof.
  intros Htotal Htrans. unfold group_sum.
  pose proof (@group_by_sorted R K Sql.value key val keq kle Htotal Htrans result) as Hs.
  induction Hs as [|g l Hs IH Hg]; cbn [map].
  - constructor.
  - constructor; [exact IH|].
    apply Forall_forall. intros y Hy.
    apply in_map_iff in Hy. destruct Hy as [g' [<- Hg']].
    rewrite Forall_forall in Hg. cbn [fst]. now apply Hg.
Qed.
End GroupSumFacts.

Lemma opt_text_eqb_eq (a b : option string) : Sql.opt_text_eqb a b = true <-> a = b.
Proof.
  destruct a as [x|], b as [y|]; cbn [Sql.opt_text_eqb];
    try (split; [discriminate|discriminate]); try (split; reflexivity).
  rewrite String.eqb_eq. split; [now intros ->|now intros [= ->]].
Qed.

(** ** The order of column values *)

Lemma text_le_total (a b : string) : Text.text_le a b = true \/ Text.text_le b a = true.
Proof. apply String.leb_total. Qed.

Lemma text_le_trans (a b c : string) :
  Text.text_le a b = true -> Text.text_le b c = true -> Text.text_le a c = true.
Proof.
  unfold Text.text_le, String.leb. revert b c.
  induction a as [|x a IH]; intros [|y b] [|z c]; cbn [String.compare];
    try reflexivity; try discriminate.
  unfold Ascii.compare.
  destruct (N.compare_spec (N_of_ascii x) (N_of_ascii y)) as [Hxy|Hxy|Hxy];
    destruct (N.compare_spec (N_of_ascii y) (N_of_ascii z)) as [Hyz|Hyz|Hyz];
    destruct (N.compare_spec (N_of_ascii x) (N_of_ascii z)) as [Hxz|Hxz|Hxz];
    try reflexivity; try discriminate; try lia.
  apply IH.
Qed.


Lemma opt_text_le_total (a b : option string) :
  Sql.opt_text_le a b = true \/ Sql.opt_text_le b a = true.
Proof.
  destruct a as [x|], b as [y|]; cbn [Sql.opt_text_le]; auto.
  apply text_le_total.
Qed.

Lemma opt_text_le_trans (a b c : option string) :
  Sql.opt_text_le a b = true -> Sql.opt_text_le b c = true ->
  Sql.opt_text_le a c = true.
Proof.
  destruct a as [x|], b as [y|], c as [z|]; cbn [Sql.opt_text_le];
    try reflexivity; try discriminate.
  apply text_le_trans.
Qed.

Lemma float_leb_total (x y : Float.float) :
  Float.leb x y = true \/ Float.leb y x = true.
Proof.
  unfold Float.leb.
  destruct (Z.ltb_spec (Float.rank x) (Float.rank y)) as [H|H]; [now left|].
  destruct (Z.ltb_spec (Float.rank y) (Float.rank x)) as [H'|H']; [now right|].
  assert (Float.rank x = Float.rank y) as E by lia.
  rewrite E, Z.eqb_refl. cbn [orb andb].
  destruct (Qlt_le_dec (Float.value y) (Float.value x)) as [Hlt|Hle].
  - right. apply Qle_bool_iff. now apply Qlt_le_weak.
  - left. now apply Qle_bool_iff.
Qed.

Lemma float_leb_trans (x y z : Float.float) :
  Float.leb x y = true -> Float.leb y z = true -> Float.leb x z = true.
Proof.
  unfold Float.leb. intros Hxy Hyz.
  apply orb_true_iff in Hxy. apply orb_true_iff in Hyz. apply orb_true_iff.
  rewrite andb_true_iff, Z.ltb_lt, Z.eqb_eq in *.
  destruct Hxy as [Hxy|[E1 L1]], Hyz as [Hyz|[E2 L2]].
  - left. lia.
  - left. lia.
  - left. lia.
  - right. split; [lia|].
    apply Qle_bool_iff. apply Qle_bool_iff in L1, L2.
    now apply Qle_trans with (Float.value y).
Qed.

Lemma value_le_total (a b : Sql.value) :
  Sql.value_le a b = true \/ Sql.value_le b a = true.
Proof.
  destruct a as [|x|s], b as [|y|t]; cbn [Sql.value_le]; auto.
  - apply float_leb_total.
  - apply text_le_total.
Qed.

Lemma value_le_trans (a b c : Sql.value) :
  Sql.value_le a b = true -> Sql.value_le b c = true -> Sql.value_le a c = true.
Proof.
  destruct a as [|x|s], b as [|y|t], c as [|z|u]; cbn [Sql.value_le];
    try reflexivity; try discriminate.
  - apply float_leb_trans.
  - apply text_le_trans.
Qed.

(** Some values in their order: NULL, the numbers, the texts. *)
Example value_order_examples :
  StronglySorted (fun a b => Sql.value_le a b = true)
    [Sql.VNull; Sql.VReal (S754_infinity true); Sql.VReal (Float.of_Z (-3));
     Sql.VReal Float.zero; Sql.VReal (Float.ratio 1 10); Sql.VReal (Float.of_Z 20);
     Sql.VReal (S754_infinity false); Sql.VText ""; Sql.VText "10"; Sql.VText "abc"]
  /\ Sql.value_le (Sql.VText "") (Sql.VReal (S754_infinity false)) = false
  /\ Sql.value_eqv (Sql.VReal Float.zero) (Sql.VReal (S754_zero true)) = true.
Proof.
  split; [|split; reflexivity].
  repeat (constructor; [|repeat (constructor; [reflexivity|]); constructor]).
  constructor.
Qed.

(* ===================================================================== *)
(** ** Category totals *)
(* ===================================================================== *)

(** C2, as the code has it.  The categories that
    [calculate_category_spending] lists are pairwise distinct and come in
    ascending order; they are the categories of the expenses of the user,
    whatever their dates, so that every expense falls under one listed
    category; and the total of a category is SQLite's [SUM] over the
    amounts of the user's expenses of that category, in storage order. *)
Theorem category_totals_partition_expenses {RT : Runtime} (db : database) (user_id : Z) :
  let owned := owned_expenses db user_id in
  let totals := calculate_category_spending db user_id in
  NoDup (map fst totals)
  /\ StronglySorted (fun a b => Text.text_le (fst a) (fst b) = true) totals
  /\ (forall c : string, In c (map fst totals) <-> In c (map Expenses.category owned))
  /\ Forall
       (fun ct =>
          snd ct
          = sqlite_sum
              (map Expenses.amount
                 (filter (fun e => (Expenses.category e =? fst ct)%string) owned)))
       totals.
Proof.
  cbv zeta. unfold calculate_category_spending, Sql.select.
  fold (owned_expenses db user_id).
  split; [|split; [|split]].
  - apply group_sum_NoDup, String.eqb_eq.
  - apply group_sum_sorted; [exact text_le_total|exact text_le_trans].
  - intros c. apply group_sum_In, String.eqb_eq.
  - apply Forall_forall. intros [c t] Hin. cbn [fst snd].
    rewrite (@group_sum_each _ _ _ Expenses.category Expenses.amount String.eqb
               Text.text_le String.eqb_eq _ _ _ Hin).
    f_equal. f_equal. apply filter_ext.
    intros e. apply String.eqb_sym.
Qed.

(** C2 as the specification words it does not hold of the doubles the
    code adds: for 0.1 Food, 0.1 Travel and 1.1 Food the totals are
    0.1 + 1.1 and 0.1, which Python adds up to 1.3000000000000003, and the
    amounts of the three expenses add up to 1.3, in Python as in SQLite. *)
Lemma category_totals_add_up_differently :
  let totals := calculate_category_spending (RT := Reference.runtime) Scenario.tenths 1 in
  let amounts := map Expenses.amount (owned_expenses Scenario.tenths 1) in
  let tenth := Float.ratio 1 10 in
  let eleven_tenths := Float.ratio 11 10 in
  amounts = [Sql.VReal tenth; Sql.VReal tenth; Sql.VReal eleven_tenths]
  /\ totals = [("Food", Sql.VReal (Float.add tenth eleven_tenths));
               ("Travel", Sql.VReal tenth)]
  /\ py_sum (RT := Reference.runtime) (map snd totals)
     = Returns (Py.float (Float.add (Float.add tenth eleven_tenths) tenth))
  /\ py_sum (RT := Reference.runtime) amounts
     = Returns (Py.float (Float.add (Float.add tenth tenth) eleven_tenths))
  /\ sqlite_sum (Runtime := Reference.runtime) amounts
     = Sql.VReal (Float.add (Float.add tenth tenth) eleven_tenths)
  /\ Reference.repr (Float.add (Float.add tenth eleven_tenths) tenth)
     = "1.3000000000000003"
  /\ Reference.repr (Float.add (Float.add tenth tenth) eleven_tenths) = "1.3"
  /\ py_sum (RT := Reference.runtime) (map snd totals)
     <> py_sum (RT := Reference.runtime) amounts
  /\ py_sum (RT := Reference.runtime) (map snd totals)
     <> Returns (Py.of_sql (sqlite_sum (Runtime := Reference.runtime) amounts)).
Proof.
  cbv zeta. repeat split; try (vm_compute; reflexivity);
    vm_compute; discriminate.
Qed.

(* ===================================================================== *)
(** ** Rounding *)
(* ===================================================================== *)

(** [Float.round_half_even] is within one half of its argument. *)
Lemma round_half_even_nearest (x : Q) :
  Qabs (x - inject_Z (Float.round_half_even x)) <= 1 # 2.
Proof.
  apply Qabs_Qle_condition.
  pose proof (Qfloor_le x) as Hlo.
  pose proof (Qlt_floor x) as Hhi.
  rewrite inject_Z_plus in Hhi.
  unfold Float.round_half_even.
  destruct (Qcompare (x - inject_Z (Qfloor x)) (1 # 2)) eqn:Hc.
  - apply Qeq_alt in Hc.
    destruct (Z.even (Qfloor x)).
    + rewrite Hc. split; discriminate.
    + rewrite inject_Z_plus.
      assert (x - (inject_Z (Qfloor x) + inject_Z 1) == x - inject_Z (Qfloor x) - 1) as ->
        by ring.
      rewrite Hc. split; discriminate.
  - apply Qlt_alt in Hc. split.
    + apply Qle_trans with 0; [discriminate|].
      now apply -> Qle_minus_iff.
    + now apply Qlt_le_weak.
  - apply Qgt_alt in Hc. rewrite inject_Z_plus. split.
    + apply Qplus_le_l with (z := inject_Z (Qfloor x) + inject_Z 1).
      apply Qlt_le_weak.
      assert (x - (inject_Z (Qfloor x) + inject_Z 1) + (inject_Z (Qfloor x) + inject_Z 1) == x)
        as -> by ring.
      apply Qplus_lt_l with (z := - inject_Z (Qfloor x) - (1 # 2)).
      assert (- (1 # 2) + (inject_Z (Qfloor x) + inject_Z 1) + (- inject_Z (Qfloor x) - (1 # 2)) == 0)
        as -> by (change (inject_Z 1) with 1; ring).
      assert (x + (- inject_Z (Qfloor x) - (1 # 2)) == x - inject_Z (Qfloor x) - (1 # 2))
        as -> by ring.
      apply Qlt_minus_iff in Hc.
      assert (x - inject_Z (Qfloor x) - (1 # 2) == x - inject_Z (Qfloor x) + - (1 # 2))
        as -> by ring.
      exact Hc.
    + apply Qle_trans with 0; [|discriminate].
      apply Qlt_le_weak.
      apply Qplus_lt_l with (z := inject_Z (Qfloor x) + inject_Z 1).
      assert (x - (inject_Z (Qfloor x) + inject_Z 1) + (inject_Z (Qfloor x) + inject_Z 1) == x)
        as -> by ring.
      now rewrite Qplus_0_l.
Qed.

(** [Float.round2] gives the double nearest to a whole number of
    hundredths, and that number is the nearest to the value rounded. *)
Lemma round2_finite (s : bool) (m : positive) (e : Z) :
  let x := S754_finite s m e in
  let cents := Float.round_half_even (Float.value x * 100) in
  Qabs (Float.value x * 100 - inject_Z cents) <= 1 # 2
  /\ Float.round2 x = (if (cents =? 0)%Z then S754_zero s else Float.ratio cents 100).
Proof.
  cbv zeta. split; [apply round_half_even_nearest|].
  unfold Float.round2.
  destruct (Float.round_half_even (Float.value (S754_finite s m e) * 100)); reflexivity.
Qed.

(* ===================================================================== *)
(** ** Forecast *)
(* ===================================================================== *)

Lemma filter_andb (A : Type) (f g : A -> bool) (l : list A) :
  filter (fun x => f x && g x)%bool l = filter g (filter f l).
Proof.
  induction l as [|x l IH]; cbn [filter].
  - reflexivity.
  - destruct (f x); cbn [andb filter]; [destruct (g x)|]; now rewrite IH.
Qed.


Lemma forecast_rows_window {RT : Runtime} (now : Clock.datetime) (db : database)
    (user_id : Z) :
  forecast_rows now db user_id
  = Sql.order_by (fun a b => Sql.opt_text_le (fst a) (fst b))
      (group_sum (fun e => sqlite_strftime_Ym (Expenses.date e))
         Expenses.amount Sql.opt_text_eqb Sql.opt_text_le
         (forecast_window now db user_id)).
Proof.
  unfold forecast_rows, forecast_window, owned_expenses, Sql.select, three_months_ago.
  now rewrite filter_andb.
Qed.

Lemma forecast_rows_length {RT : Runtime} (now : Clock.datetime) (db : database)
    (user_id : Z) :
  List.length (forecast_rows now db user_id)
  = List.length (month_keys (forecast_window now db user_id)).
Proof.
  rewrite forecast_rows_window, order_by_length.
  apply group_sum_length, opt_text_eqb_eq.
Qed.

(** The rows of a month-by-month query over some expenses: the month
    keys in ascending order, each once, each with [SUM] over the amounts
    of the expenses of that key, in storage order. *)
Lemma monthly_rows {RT : Runtime} (es : list Expenses.row) :
  let rows :=
    Sql.order_by (fun a b => Sql.opt_text_le (fst a) (fst b))
      (group_sum (fun e => sqlite_strftime_Ym (Expenses.date e))
         Expenses.amount Sql.opt_text_eqb Sql.opt_text_le es) in
  StronglySorted (fun a b => Sql.opt_text_le (fst a) (fst b) = true) rows
  /\ Permutation (map fst rows) (month_keys es)
  /\ Forall
       (fun kt =>
          snd kt
          = sqlite_sum
              (map Expenses.amount
                 (filter (fun e => Sql.opt_text_eqb (sqlite_strftime_Ym (Expenses.date e))
                                     (fst kt)) es)))
       rows.
Proof.
  cbv zeta. split; [|split].
  - apply order_by_sorted.
    + intros x y. apply opt_text_le_total.
    + intros x y z. apply opt_text_le_trans.
  - rewrite (Permutation_map fst (order_by_perm _ _)).
    rewrite group_sum_keys. apply group_by_keys, opt_text_eqb_eq.
  - apply Forall_forall. intros [k t] Hin. cbn [fst snd].
    apply (Permutation_in _ (order_by_perm _ _)) in Hin.
    rewrite (@group_sum_each _ _ _ (fun e => sqlite_strftime_Ym (Expenses.date e))
               Expenses.amount Sql.opt_text_eqb Sql.opt_text_le opt_text_eqb_eq _ _ _ Hin).
    f_equal. f_equal. apply filter_ext. intros e.
    destruct (Sql.opt_text_eqb k (sqlite_strftime_Ym (Expenses.date e))) eqn:E.
    + apply opt_text_eqb_eq in E. symmetry. apply opt_text_eqb_eq. now symmetry.
    + destruct (Sql.opt_text_eqb (sqlite_strftime_Ym (Expenses.date e)) k) eqn:E'; [|reflexivity].
      apply opt_text_eqb_eq in E'. symmetry in E'. apply opt_text_eqb_eq in E'. congruence.
Qed.

(** C1, as the code has it.  Take the expenses of the user dated (as
    text) on or after the day 90 days before today, later dates
    included.  The query lists their month keys [strftime('%Y-%m', date)]
    in ascending order, each once, each with SQLite's [SUM] over the
    amounts of that key.  The forecast is the int 0 when there is no such
    expense; otherwise Python adds up the totals, divides by the number
    of distinct month keys and rounds the double to 2 places, and a total
    that is not a number raises [TypeError].  For 154.40 in January and
    708.69 in February the forecast is 431.55. *)
Theorem forecast_is_average_over_month_keys {RT : Runtime}
    (now : Clock.datetime) (db : database) (user_id : Z) :
  let window := forecast_window now db user_id in
  let rows := forecast_rows now db user_id in
  StronglySorted (fun a b => Sql.opt_text_le (fst a) (fst b) = true) rows
  /\ Permutation (map fst rows) (month_keys window)
  /\ Forall
       (fun kt =>
          snd kt
          = sqlite_sum
              (map Expenses.amount
                 (filter (fun e => Sql.opt_text_eqb (sqlite_strftime_Ym (Expenses.date e))
                                     (fst kt)) window)))
       rows
  /\ forecast_next_month now db user_id
     = match window with
       | [] => Returns (Py.int 0)
       | _ :: _ =>
           match floats_of (map snd rows) with
           | Some totals =>
               Returns
                 (Py.float
                    (Float.round2
                       (Float.div (py_float_sum totals)
                          (Float.of_Z (Z.of_nat (List.length (month_keys window)))))))
           | None => TypeError
           end
       end
  /\ forecast_next_month (RT := Reference.runtime) Scenario.mid_february
       Scenario.two_months 1
     = Returns (Py.float (Float.ratio 43155 100)).
Proof.
  cbv zeta.
  pose proof (forecast_rows_length now db user_id) as Hlen.
  rewrite forecast_rows_window in *.
  destruct (monthly_rows (forecast_window now db user_id)) as [Hs [Hp Hf]].
  split; [exact Hs|]. split; [exact Hp|]. split; [exact Hf|].
  split; [|vm_compute; reflexivity].
  unfold forecast_next_month. rewrite forecast_rows_window, Hlen.
  destruct (forecast_window now db user_id) as [|e w] eqn:Hw.
  - reflexivity.
  - set (keys := month_keys (e :: w)) in *.
    assert (List.length keys <> 0%nat) as Hne.
    { assert (In (sqlite_strftime_Ym (Expenses.date e)) keys) as Hin
        by (apply nodup_In; now left).
      destruct keys; [contradiction|discriminate]. }
    apply Nat.eqb_neq in Hne. rewrite Hne.
    rewrite Z.max_l by (apply Nat.eqb_neq in Hne; lia).
    unfold py_sum.
    match goal with |- context [map snd ?r] => destruct r as [|r0 rs] end.
    + apply Nat.eqb_neq in Hne. exfalso. apply Hne. symmetry. exact Hlen.
    + cbn [map]. destruct (floats_of _); reflexivity.
Qed.

(** C1 as the specification words it does not hold for an expense dated
    after today: user 1 has no expense within the trailing three months
    of 2024-06-15, and the forecast is 40.0, not 0. *)
Lemma forecast_counts_future_dated_expense :
  filter (fun e => in_trailing_three_months Scenario.mid_june (Expenses.date e))
    (owned_expenses Scenario.christmas_trip 1) = []
  /\ forecast_next_month (RT := Reference.runtime) Scenario.mid_june Scenario.christmas_trip 1
     = Returns (Py.float (Float.of_Z 40))
  /\ forecast_next_month (RT := Reference.runtime) Scenario.mid_june Scenario.christmas_trip 1
     <> Returns (Py.int 0)
  /\ forecast_next_month (RT := Reference.runtime) Scenario.mid_june Scenario.christmas_trip 1
     <> Returns (Py.float Float.zero).
Proof.
  split; [reflexivity|]. split; [vm_compute; reflexivity|].
  split; intros H; vm_compute in H; discriminate.
Qed.

Example forecast_of_three_expenses :
  forecast_next_month (RT := Reference.runtime) Scenario.mid_february Scenario.three_expenses 1
  = Returns (Py.float (Float.ratio 35 2)).
Proof. vm_compute. reflexivity. Qed.

(** 154.40 in January and 708.69 in February: the doubles add up to
    863.09, half of which rounds to 431.55. *)
Example forecast_of_two_months :
  forecast_rows (RT := Reference.runtime) Scenario.mid_february Scenario.two_months 1
  = [(Some "2024-01", Sql.VReal (Float.ratio 15440 100));
     (Some "2024-02", Sql.VReal (Float.ratio 70869 100))]
  /\ forecast_next_month (RT := Reference.runtime) Scenario.mid_february Scenario.two_months 1
     = Returns (Py.float (Float.ratio 43155 100))
  /\ Float.ratio 43155 100 <> Float.ratio 43154 100.
Proof.
  split; [vm_compute; reflexivity|]. split; [vm_compute; reflexivity|].
  intros H. vm_compute in H. discriminate.
Qed.

(** Amounts of one month that add up to no number give the total NULL,
    which Python cannot add. *)
Example forecast_of_overflowing_amounts :
  forecast_rows (RT := Reference.runtime) Scenario.mid_february Scenario.overflowing 1
  = [(Some "2024-02", Sql.VNull)]
  /\ forecast_next_month (RT := Reference.runtime) Scenario.mid_february Scenario.overflowing 1
     = TypeError.
Proof. split; vm_compute; reflexivity. Qed.

(* ===================================================================== *)
(** ** The text of the listing query *)
(* ===================================================================== *)

Lemma where_text_listed (a b c d : bool) : In (where_text a b c d) where_texts.
Proof.
  destruct a, b, c, d; vm_compute; repeat (try (left; reflexivity); right).
Qed.

Lemma where_texts_have_no_order_by :
  Forall (fun w => Text.contains "ORDER BY" w = false) where_texts.
Proof. unfold where_texts; cbn [flat_map map app]. repeat constructor. Qed.

Lemma get_expenses_query_text (user_id : Z)
    (category start_date end_date search : option string)
    (sort_by sort_order : string) :
  fst (get_expenses_query user_id category start_date end_date search sort_by sort_order)
  = (where_text
       (match category with
        | Some c => Text.truthy c && negb (c =? "All")%string
        | None => false
        end)
       (Text.truthy_opt start_date) (Text.truthy_opt end_date) (Text.truthy_opt search)
     ++ (if existsb (String.eqb sort_by) sort_columns
         then " ORDER BY " ++ sort_by ++ " "
              ++ (if (sort_order =? "ASC")%string then "ASC" else "DESC")
         else ""))%string.
Proof.
  unfold get_expenses_query, sort_columns.
  destruct category as [c|]; [destruct (Text.truthy c && negb (c =? "All")%string)|];
    (destruct start_date as [sd|]; [cbn [Text.truthy_opt]; destruct (Text.truthy sd)|]);
    (destruct end_date as [ed|]; [cbn [Text.truthy_opt]; destruct (Text.truthy ed)|]);
    (destruct search as [q|]; [cbn [Text.truthy_opt]; destruct (Text.truthy q)|]);
    cbn [fst Text.truthy_opt];
    destruct (existsb (String.eqb sort_by) ["date"; "amount"; "category"]);
    reflexivity.
Qed.

Lemma existsb_eqb_In (x : string) (l : list string) :
  existsb (String.eqb x) l = true <-> In x l.
Proof.
  rewrite existsb_exists. split.
  - intros [y [Hin Hy]]. apply String.eqb_eq in Hy. now subst.
  - intros Hin. exists x. split; [exact Hin|apply String.eqb_refl].
Qed.

(** C3.  Whatever [sort_by] and [sort_order] are, the query text of
    [get_expenses] is one of sixteen fixed texts without ORDER BY,
    followed, exactly when [sort_by] is one of date, amount, category, by
    " ORDER BY <sort_by> <direction>" where the direction is ASC when
    [sort_order] is "ASC" and DESC for every other value.  When [sort_by]
    is not in the list the text has no ORDER BY at all. *)
Theorem order_by_only_from_allow_list (user_id : Z)
    (category start_date end_date search : option string)
    (sort_by sort_order : string) :
  let query :=
    fst (get_expenses_query user_id category start_date end_date search
           sort_by sort_order) in
  Forall (fun w => Text.contains "ORDER BY" w = false) where_texts
  /\ if existsb (String.eqb sort_by) sort_columns
     then
       In sort_by ["date"; "amount"; "category"]
       /\ exists w direction,
            In w where_texts
            /\ In direction ["ASC"; "DESC"]
            /\ direction = (if (sort_order =? "ASC")%string then "ASC" else "DESC")
            /\ query = (w ++ " ORDER BY " ++ sort_by ++ " " ++ direction)%string
     else In query where_texts /\ Text.contains "ORDER BY" query = false.
Proof.
  cbv zeta. split; [exact where_texts_have_no_order_by|].
  rewrite get_expenses_query_text.
  destruct (existsb (String.eqb sort_by) sort_columns) eqn:Hcol.
  - split; [now apply existsb_eqb_In|].
    eexists; exists (if (sort_order =? "ASC")%string then "ASC" else "DESC").
    split; [apply where_text_listed|].
    split; [destruct (sort_order =? "ASC")%string; cbn; auto|].
    split; reflexivity.
  - assert (forall w, (w ++ "")%string = w) as Happ
      by (induction w as [|ch w IH]; cbn; [reflexivity|now rewrite IH]).
    rewrite Happ. split; [apply where_text_listed|].
    pose proof where_texts_have_no_order_by as Hall.
    rewrite Forall_forall in Hall. apply Hall, where_text_listed.
Qed.

Example order_by_ignores_hostile_direction :
  fst (get_expenses_query 1 (Some "Food") (Some "") None (Some "x")
         "amount" "ASC; DROP TABLE users")
  = "SELECT * FROM expenses WHERE user_id = ? AND category = ? AND (note LIKE ? OR category LIKE ?) ORDER BY amount DESC"
  /\ fst (get_expenses_query 1 None None None None "id; DROP TABLE users" "ASC")
     = "SELECT * FROM expenses WHERE user_id = ?".
Proof. split; reflexivity. Qed.

(* ===================================================================== *)
(** ** Signup *)
(* ===================================================================== *)

Lemma fetchone_select_Some (A : Type) (t : Sql.table A) (cond : A -> bool) (x : A) :
  In x (Sql.rows t) -> cond x = true ->
  exists y, Sql.fetchone (Sql.select t cond) = Some y.
Proof.
  intros Hin Hc. unfold Sql.fetchone, Sql.select.
  assert (In x (filter cond (Sql.rows t))) as H by (apply filter_In; now split).
  destruct (filter cond (Sql.rows t)) as [|y l]; [contradiction|].
  now exists y.
Qed.

(** A POST whose password field has fewer than 8 characters leaves the
    database as it is, whatever else the form holds. *)
Lemma signup_short_password_changes_nothing {RT : Runtime}
    (form : fields) (db : database) (password : string) :
  field "password" form = Some password ->
  (Text.len password < 8)%nat ->
  out_db (signup POST form db) = db.
Proof.
  intros Hp Hlen. unfold signup, form_item. rewrite Hp.
  destruct (field "username" form); [|reflexivity].
  destruct (field "email" form); [|reflexivity].
  apply Nat.ltb_lt in Hlen. now rewrite Hlen.
Qed.

(** C4.  A signup POST with a password of fewer than 8 characters, or
    with a username or an email that a row of [users] already has, leaves
    the database unchanged (no user row is inserted) and is answered by
    one flashed "danger" message and a redirect to the signup page. *)
Theorem signup_rejection_inserts_nothing {RT : Runtime}
    (form : fields) (db : database) (username email password : string) :
  field "username" form = Some username ->
  field "email" form = Some email ->
  field "password" form = Some password ->
  (Text.len password < 8)%nat
  \/ (exists u, In u (Sql.rows (users db))
                /\ (Users.username u = username \/ Users.email u = email)) ->
  let o := signup POST form db in
  out_db o = db
  /\ Sql.rows (users (out_db o)) = Sql.rows (users db)
  /\ out_response o = Redirect "signup"
  /\ exists message, out_flash o = [(message, "danger")].
Proof.
  intros Hu He Hp Hcase. cbv zeta.
  unfold signup, form_item. rewrite Hu, He, Hp.
  destruct (Text.len password <? 8)%nat eqn:Hlen.
  - cbn. repeat split. eauto.
  - destruct Hcase as [Hshort|[u [Hin Hdup]]].
    + apply Nat.ltb_lt in Hshort. congruence.
    + destruct (@fetchone_select_Some _ (users db)
                  (fun u => (Users.username u =? username)%string
                            || (Users.email u =? email)%string)%bool u Hin)
        as [y Hy].
      { apply orb_true_iff. destruct Hdup as [<-|<-];
          [left|right]; apply String.eqb_refl. }
      rewrite Hy. cbn. repeat split. eauto.
Qed.

Lemma signup_rejection_inserts_nothing_witness :
  let form := Scenario.signup_form "bob" "bob@example.org" "пароль1" in
  let o := signup (RT := Reference.runtime) POST form Scenario.one_account in
  out_db o = Scenario.one_account
  /\ Sql.rows (users (out_db o)) = Sql.rows (users Scenario.one_account)
  /\ out_response o = Redirect "signup"
  /\ exists message, out_flash o = [(message, "danger")].
Proof.
  apply (@signup_rejection_inserts_nothing Reference.runtime
           (Scenario.signup_form "bob" "bob@example.org" "пароль1")
           Scenario.one_account "bob" "bob@example.org" "пароль1");
    try reflexivity.
  left. vm_compute. lia.
Defined.

Example signup_duplicate_email_rejected :
  let form := Scenario.signup_form "anna" "ana@example.org" "another long one" in
  let o := signup (RT := Reference.runtime) POST form Scenario.one_account in
  out_db o = Scenario.one_account
  /\ out_flash o = [("Username or email already exists!", "danger")]
  /\ out_response o = Redirect "signup".
Proof. repeat split. Qed.

(** Seven characters are too few, whatever their number of bytes, and
    eight are enough. *)
Example signup_counts_characters :
  let seven := Scenario.signup_form "bob" "bob@example.org" "пароль1" in
  let eight := Scenario.signup_form "bob" "bob@example.org" "пароль12" in
  let ascii := Scenario.signup_form "bob" "bob@example.org" "hunter2" in
  out_flash (signup (RT := Reference.runtime) POST seven Scenario.one_account)
  = [("Password must be at least 8 characters long!", "danger")]
  /\ out_flash (signup (RT := Reference.runtime) POST ascii Scenario.one_account)
     = [("Password must be at least 8 characters long!", "danger")]
  /\ out_response (signup (RT := Reference.runtime) POST eight Scenario.one_account)
     = Redirect "login".
Proof. repeat split. Qed.

Example signup_accepts_fresh_account :
  let form := Scenario.signup_form "bob" "bob@example.org" "long enough" in
  let o := signup (RT := Reference.runtime) POST form Scenario.one_account in
  map Users.username (Sql.rows (users (out_db o))) = ["ana"; "bob"]
  /\ out_response o = Redirect "login".
Proof. repeat split. Qed.

(* ===================================================================== *)
(** ** Editing and deleting *)
(* ===================================================================== *)

Section Frame.
Variable A : Type.
Variables cond keep : A -> bool.

Lemma filter_update (set : A -> A) (l : list A) :
  (forall r, cond r = true -> keep r = false /\ keep (set r) = false) ->
  filter keep (map (fun r => if cond r then set r else r) l) = filter keep l.
Proof.
  intros H. induction l as [|r l IH]; cbn [map filter].
  - reflexivity.
  - destruct (cond r) eqn:Hc.
    + destruct (H r Hc) as [-> ->]. exact IH.
    + now rewrite IH.
Qed.

Lemma filter_delete (l : list A) :
  (forall r, cond r = true -> keep r = false) ->
  filter keep (filter (fun r => negb (cond r)) l) = filter keep l.
Proof.
  intros H. induction l as [|r l IH]; cbn [filter].
  - reflexivity.
  - destruct (cond r) eqn:Hc; cbn [negb filter].
    + now rewrite (H r Hc).
    + now rewrite IH.
Qed.
End Frame.

Lemma edit_expense_others {RT : Runtime} (current_user expense_id : Z)
    (method : http_method) (form : fields) (db : database) :
  let db' := out_db (edit_expense current_user expense_id method form db) in
  expenses_of_others db' current_user = expenses_of_others db current_user
  /\ users db' = users db /\ user_budget db' = user_budget db.
Proof.
  cbv zeta. unfold edit_expense, form_item.
  destruct method.
  - destruct (Sql.fetchone _); cbn; auto.
  - destruct (field "amount" form); [|cbn; auto].
    destruct (field "category" form); [|cbn; auto].
    destruct (field "date" form); [|cbn; auto].
    cbn [out_db flash_and_redirect]. repeat split.
    unfold expenses_of_others. cbn [expenses with_expenses Sql.update Sql.rows].
    apply filter_update.
    intros r Hr. apply andb_true_iff in Hr. destruct Hr as [_ Hr].
    cbn [Expenses.user_id]. now rewrite Hr.
Qed.

Lemma delete_expense_others {RT : Runtime} (current_user expense_id : Z) (db : database) :
  let db' := out_db (delete_expense current_user expense_id db) in
  expenses_of_others db' current_user = expenses_of_others db current_user
  /\ users db' = users db /\ user_budget db' = user_budget db.
Proof.
  cbv zeta. unfold delete_expense. cbn [out_db flash_and_redirect]. repeat split.
  unfold expenses_of_others. cbn [expenses with_expenses Sql.delete Sql.rows].
  apply filter_delete.
  intros r Hr. apply andb_true_iff in Hr. destruct Hr as [_ Hr]. now rewrite Hr.
Qed.

(** C5.  Whatever expense id the logged-in user edits or deletes, the
    expense rows of every other user are afterwards what they were
    before, in the same order; this includes the id of an expense that
    belongs to somebody else. *)
Theorem edit_and_delete_leave_other_users_rows {RT : Runtime}
    (current_user expense_id : Z) (method : http_method) (form : fields)
    (db : database) :
  expenses_of_others (out_db (edit_expense current_user expense_id method form db))
    current_user
  = expenses_of_others db current_user
  /\ expenses_of_others (out_db (delete_expense current_user expense_id db)) current_user
     = expenses_of_others db current_user.
Proof.
  split.
  - apply edit_expense_others.
  - apply delete_expense_others.
Qed.

Example edit_and_delete_foreign_id :
  let form := [("amount", "0"); ("category", "Other"); ("date", "1999-01-01")] in
  Sql.rows (expenses (out_db (edit_expense (RT := Reference.runtime) 1 2 POST form
                                Scenario.two_users)))
  = Sql.rows (expenses Scenario.two_users)
  /\ Sql.rows (expenses (out_db (delete_expense 1 2 Scenario.two_users)))
     = Sql.rows (expenses Scenario.two_users)
  /\ map Expenses.id
       (Sql.rows (expenses (out_db (delete_expense 2 2 Scenario.two_users))))
     = [1%Z].
Proof. repeat split. Qed.

(* ===================================================================== *)
(** ** The budget row *)
(* ===================================================================== *)

(** The row that [get_budget] inserts for [user_id] into [db]. *)
Lemma get_budget_fresh (db : database) (user_id : Z) :
  budget_rows_of db user_id = [] ->
  let r := {| UserBudget.id := (Sql.seq (user_budget db) + 1)%Z;
              UserBudget.user_id := user_id;
              UserBudget.monthly_income := default_monthly_income;
              UserBudget.savings_goal := default_savings_goal |} in
  get_budget db user_id
  = (with_user_budget db
       {| Sql.rows := Sql.rows (user_budget db) ++ [r];
          Sql.seq := (Sql.seq (user_budget db) + 1)%Z |},
     Some r).
Proof.
  intros Hnone. cbv zeta. unfold get_budget, Sql.select, Sql.fetchone.
  fold (budget_rows_of db user_id). rewrite Hnone. cbn [hd_error].
  f_equal.
  cbn [user_budget with_user_budget Sql.insert Sql.rows].
  rewrite filter_app. fold (budget_rows_of db user_id). rewrite Hnone.
  cbn [filter UserBudget.user_id app]. now rewrite Z.eqb_refl.
Qed.

Lemma get_budget_existing (db : database) (user_id : Z) (r : UserBudget.row)
    (rest : list UserBudget.row) :
  budget_rows_of db user_id = r :: rest ->
  get_budget db user_id = (db, Some r).
Proof.
  intros Hsome. unfold get_budget, Sql.select, Sql.fetchone.
  fold (budget_rows_of db user_id). now rewrite Hsome.
Qed.

Lemma get_budget_keeps_other_tables (db : database) (user_id : Z) :
  users (fst (get_budget db user_id)) = users db
  /\ expenses (fst (get_budget db user_id)) = expenses db.
Proof.
  destruct (budget_rows_of db user_id) as [|r rest] eqn:Hrows.
  - rewrite (get_budget_fresh _ _ Hrows). now split.
  - rewrite (get_budget_existing _ _ Hrows). now split.
Qed.


Lemma get_budget_one_per_user (db : database) (user_id : Z) :
  one_budget_per_user db -> one_budget_per_user (fst (get_budget db user_id)).
Proof.
  intros Hinv u.
  destruct (budget_rows_of db user_id) as [|r rest] eqn:Hrows.
  - rewrite (get_budget_fresh _ _ Hrows). cbn [fst].
    unfold budget_rows_of. cbn [user_budget with_user_budget Sql.rows].
    rewrite filter_app, length_app. cbn [filter UserBudget.user_id].
    destruct (Z.eqb_spec user_id u) as [->|Hne].
    + fold (budget_rows_of db u). rewrite Hrows. cbn. lia.
    + specialize (Hinv u). unfold budget_rows_of in Hinv. cbn. lia.
  - rewrite (get_budget_existing _ _ Hrows). apply Hinv.
Qed.

Lemma filter_map_same_length (A : Type) (p : A -> bool) (f : A -> A) (l : list A) :
  (forall r, p (f r) = p r) ->
  List.length (filter p (map f l)) = List.length (filter p l).
Proof.
  intros H. induction l as [|r l IH]; cbn [map filter].
  - reflexivity.
  - rewrite H. destruct (p r); cbn [List.length]; now rewrite IH.
Qed.

Lemma map_update_none (A : Type) (cond : A -> bool) (set : A -> A) (l : list A) :
  filter cond l = [] -> map (fun r => if cond r then set r else r) l = l.
Proof.
  induction l as [|r l IH]; cbn [map filter]; intros H.
  - reflexivity.
  - destruct (cond r); [discriminate|]. now rewrite IH.
Qed.

Lemma set_budget_one_per_user {RT : Runtime} (current_user : Z) (method : http_method)
    (form : fields) (db : database) :
  one_budget_per_user db ->
  one_budget_per_user (out_db (set_budget current_user method form db)).
Proof.
  intros Hinv. unfold set_budget, form_item. destruct method.
  - pose proof (get_budget_one_per_user current_user Hinv) as H.
    destruct (get_budget db current_user) as [db' b]. exact H.
  - destruct (field "monthly_income" form); [|exact Hinv].
    destruct (field "savings_goal" form); [|exact Hinv].
    cbn [out_db flash_and_redirect]. intros u.
    unfold budget_rows_of. cbn [user_budget with_user_budget Sql.update Sql.rows].
    rewrite filter_map_same_length; [apply Hinv|].
    intros r. now destruct (UserBudget.user_id r =? current_user)%Z.
Qed.

(** Only [get_budget] and [/set_budget] write to [user_budget]. *)
Lemma handle_one_per_user {RT : Runtime} (r : request) (db : database) :
  one_budget_per_user db -> one_budget_per_user (handle r db).
Proof.
  intros Hinv. destruct r as [m f|now u args|u m f|u i m f|u i|u m f|now u];
    cbn [handle].
  - unfold signup, form_item. destruct m; [exact Hinv|].
    destruct (field "username" f); [|exact Hinv].
    destruct (field "email" f); [|exact Hinv].
    destruct (field "password" f) as [password|]; [|exact Hinv].
    destruct (Text.len password <? 8)%nat; [exact Hinv|].
    destruct (Sql.fetchone _); exact Hinv.
  - unfold dashboard.
    pose proof (get_budget_one_per_user u Hinv) as H.
    destruct (get_budget db u) as [db' b]. exact H.
  - unfold add_expense, form_item. destruct m; [exact Hinv|].
    destruct (field "amount" f); [|exact Hinv].
    destruct (field "category" f); [|exact Hinv].
    destruct (field "date" f); exact Hinv.
  - intros v. unfold budget_rows_of.
    destruct (edit_expense_others u i m f db) as (_ & _ & ->). apply Hinv.
  - intros v. unfold budget_rows_of.
    destruct (delete_expense_others u i db) as (_ & _ & ->). apply Hinv.
  - now apply set_budget_one_per_user.
  - exact Hinv.
Qed.

Lemma reachable_one_budget_per_user {RT : Runtime} (db : database) :
  reachable db -> one_budget_per_user db.
Proof.
  induction 1 as [|r db _ IH].
  - intros u. cbn. lia.
  - now apply handle_one_per_user.
Qed.

(** C6.  In any database the application can reach: when the user has
    no budget row, [get_budget] appends exactly one row for that user,
    with monthly income 5000 and savings goal 1000, and returns it; when
    the user has a row, [get_budget] returns it and changes nothing; and
    in either case no user has more than one budget row afterwards. *)
Theorem get_budget_creates_default_once {RT : Runtime} (db : database) (user_id : Z) :
  reachable db ->
  let db' := fst (get_budget db user_id) in
  let budget := snd (get_budget db user_id) in
  one_budget_per_user db'
  /\ match budget_rows_of db user_id with
     | [] =>
         exists r,
           budget = Some r
           /\ UserBudget.user_id r = user_id
           /\ UserBudget.monthly_income r = Sql.VReal (Float.of_Z 5000)
           /\ UserBudget.savings_goal r = Sql.VReal (Float.of_Z 1000)
           /\ Sql.rows (user_budget db') = Sql.rows (user_budget db) ++ [r]
           /\ budget_rows_of db' user_id = [r]
           /\ users db' = users db /\ expenses db' = expenses db
     | r :: others =>
         others = [] /\ budget = Some r /\ db' = db
     end.
Proof.
  intros Hreach. cbv zeta.
  pose proof (reachable_one_budget_per_user Hreach) as Hinv.
  split; [now apply get_budget_one_per_user|].
  destruct (budget_rows_of db user_id) as [|r others] eqn:Hrows.
  - rewrite (get_budget_fresh _ _ Hrows). cbn [fst snd].
    eexists. split; [reflexivity|]. repeat split.
    unfold budget_rows_of. cbn [user_budget with_user_budget Sql.rows].
    rewrite filter_app. fold (budget_rows_of db user_id). rewrite Hrows.
    cbn [filter UserBudget.user_id app]. now rewrite Z.eqb_refl.
  - rewrite (get_budget_existing _ _ Hrows). cbn [fst snd].
    repeat split.
    specialize (Hinv user_id). rewrite Hrows in Hinv.
    destruct others; [reflexivity|cbn in Hinv; lia].
Qed.

Lemma get_budget_creates_default_once_witness :
  reachable (RT := Reference.runtime) init_db
  /\ let db' := fst (get_budget init_db 1) in
     let budget := snd (get_budget init_db 1) in
     one_budget_per_user db'
     /\ match budget_rows_of init_db 1 with
        | [] =>
            exists r,
              budget = Some r
              /\ UserBudget.user_id r = 1%Z
              /\ UserBudget.monthly_income r = Sql.VReal (Float.of_Z 5000)
              /\ UserBudget.savings_goal r = Sql.VReal (Float.of_Z 1000)
              /\ Sql.rows (user_budget db') = Sql.rows (user_budget init_db) ++ [r]
              /\ budget_rows_of db' 1 = [r]
              /\ users db' = users init_db /\ expenses db' = expenses init_db
        | r :: others =>
            others = [] /\ budget = Some r /\ db' = init_db
        end.
Proof.
  split.
  - apply reachable_init.
  - apply (@get_budget_creates_default_once Reference.runtime init_db 1).
    apply reachable_init.
Defined.

Example get_budget_twice :
  let first := get_budget init_db 7 in
  let second := get_budget (fst first) 7 in
  snd first = Some {| UserBudget.id := 1; UserBudget.user_id := 7;
                      UserBudget.monthly_income := Sql.VReal (Float.of_Z 5000);
                      UserBudget.savings_goal := Sql.VReal (Float.of_Z 1000) |}
  /\ second = first.
Proof. split; reflexivity. Qed.

(** C9.  When the user has no budget row, a POST to [/set_budget] with
    both fields leaves the whole database unchanged, flashes the success
    message and redirects to the dashboard; the next [get_budget] then
    yields the default row (5000, 1000), not the submitted values. *)
Theorem set_budget_without_row_is_lost {RT : Runtime}
    (current_user : Z) (form : fields) (db : database)
    (monthly_income savings_goal : string) :
  field "monthly_income" form = Some monthly_income ->
  field "savings_goal" form = Some savings_goal ->
  budget_rows_of db current_user = [] ->
  let o := set_budget current_user POST form db in
  out_db o = db
  /\ Sql.rows (user_budget (out_db o)) = Sql.rows (user_budget db)
  /\ out_flash o = [("Budget settings updated!", "success")]
  /\ out_response o = Redirect "dashboard"
  /\ exists r,
       snd (get_budget (out_db o) current_user) = Some r
       /\ UserBudget.monthly_income r = Sql.VReal (Float.of_Z 5000)
       /\ UserBudget.savings_goal r = Sql.VReal (Float.of_Z 1000).
Proof.
  intros Hincome Hgoal Hnone. cbv zeta.
  unfold set_budget, form_item. rewrite Hincome, Hgoal.
  cbn [out_db out_flash out_response flash_and_redirect].
  assert (with_user_budget db
            (Sql.update (user_budget db)
               (fun b => (UserBudget.user_id b =? current_user)%Z)
               (fun b => {| UserBudget.id := UserBudget.id b;
                            UserBudget.user_id := UserBudget.user_id b;
                            UserBudget.monthly_income := sqlite_real monthly_income;
                            UserBudget.savings_goal := sqlite_real savings_goal |}))
          = db) as Hsame.
  { unfold budget_rows_of in Hnone.
    destruct db as [us es [brows bseq]].
    unfold with_user_budget, Sql.update. cbn in *.
    now rewrite map_update_none. }
  rewrite Hsame. repeat split.
  rewrite (get_budget_fresh _ _ Hnone). cbn [snd].
  eexists. repeat split.
Qed.

Lemma set_budget_without_row_is_lost_witness :
  let form := [("monthly_income", "8000"); ("savings_goal", "2500")] in
  let o := set_budget (RT := Reference.runtime) 1 POST form Scenario.one_account in
  out_db o = Scenario.one_account
  /\ Sql.rows (user_budget (out_db o)) = Sql.rows (user_budget Scenario.one_account)
  /\ out_flash o = [("Budget settings updated!", "success")]
  /\ out_response o = Redirect "dashboard"
  /\ exists r,
       snd (get_budget (out_db o) 1) = Some r
       /\ UserBudget.monthly_income r = Sql.VReal (Float.of_Z 5000)
       /\ UserBudget.savings_goal r = Sql.VReal (Float.of_Z 1000).
Proof.
  apply (@set_budget_without_row_is_lost Reference.runtime 1
           [("monthly_income", "8000"); ("savings_goal", "2500")]
           Scenario.one_account "8000" "2500"); reflexivity.
Defined.

Example set_budget_after_first_read_is_kept :
  let form := [("monthly_income", "8000"); ("savings_goal", "2500")] in
  let db := fst (get_budget Scenario.one_account 1) in
  map (fun b => (UserBudget.monthly_income b, UserBudget.savings_goal b))
    (Sql.rows (user_budget (out_db (set_budget (RT := Reference.runtime) 1 POST form db))))
  = [(Sql.VReal (Float.of_Z 8000), Sql.VReal (Float.of_Z 2500))].
Proof. reflexivity. Qed.

(* ===================================================================== *)

(* ===================================================================== *)
(** ** Top expenses *)
(* ===================================================================== *)

Lemma StronglySorted_weaken (A : Type) (R1 R2 : A -> A -> Prop) (l : list A) :
  (forall a b, R1 a b -> R2 a b) -> StronglySorted R1 l -> StronglySorted R2 l.
Proof.
  intros H. induction 1 as [|x l _ IH Hx]; constructor.
  - exact IH.
  - eapply Forall_impl; [|exact Hx]. intros b. apply H.
Qed.


(** The user's expenses, largest amount first. *)
Lemma by_amount_desc_sorted (l : list Expenses.row) :
  StronglySorted (fun a b => Sql.value_le (Expenses.amount b) (Expenses.amount a) = true)
    (Sql.order_by (fun a b => Sql.value_le (Expenses.amount b) (Expenses.amount a)) l).
Proof.
  apply order_by_sorted.
  - intros x y. apply value_le_total.
  - intros x y z Hxy Hyz. now apply value_le_trans with (Expenses.amount y).
Qed.

Lemma value_eqv_le (a b v : Sql.value) :
  Sql.value_eqv a v = true -> Sql.value_eqv b v = true -> Sql.value_le b a = true.
Proof.
  unfold Sql.value_eqv. intros Ha Hb.
  apply andb_true_iff in Ha. apply andb_true_iff in Hb.
  destruct Ha as [_ Hva], Hb as [Hbv _].
  now apply value_le_trans with v.
Qed.

Lemma by_amount_desc_stable (v : Sql.value) (l : list Expenses.row) :
  filter (fun e => Sql.value_eqv (Expenses.amount e) v)
    (Sql.order_by (fun a b => Sql.value_le (Expenses.amount b) (Expenses.amount a)) l)
  = filter (fun e => Sql.value_eqv (Expenses.amount e) v) l.
Proof.
  apply order_by_stable.
  intros x y Hx Hy. now apply value_eqv_le with v.
Qed.

(** Among numbers the order of amounts is the order of their values. *)
Lemma value_le_numbers (s t : bool) (m n : positive) (e f : Z) :
  Sql.value_le (Sql.VReal (S754_finite s m e)) (Sql.VReal (S754_finite t n f)) = true
  <-> Float.value (S754_finite s m e) <= Float.value (S754_finite t n f).
Proof.
  cbn [Sql.value_le]. unfold Float.leb. cbn [Float.rank].
  cbn [Z.ltb Z.eqb Z.compare orb andb]. apply Qle_bool_iff.
Qed.

(** C7.  For a limit [N >= 0], [get_top_expenses] returns the first
    [min N count] rows of the user's expenses put in descending order of
    amount: together with the rows left out they are a rearrangement of
    the user's expenses in which no amount is followed by a larger one,
    and rows of equal amount come in storage order.  Amounts compare as
    SQLite compares what the column holds: numbers by their value, and an
    amount that is kept as text, being no number, above every number.
    For the expenses (10.00, Food), (20.00, Food), (5.00, Travel) the
    top 1 is the 20.00 row; with an expense whose amount field was
    left empty among 10.00 and 20.00, that expense comes first. *)
Theorem top_expenses_are_the_largest (db : database) (user_id : Z) (N : Z) :
  (0 <= N)%Z ->
  let owned := owned_expenses db user_id in
  let top := get_top_expenses db user_id N in
  (exists rest,
      Permutation (top ++ rest) owned
      /\ StronglySorted
           (fun a b => Sql.value_le (Expenses.amount b) (Expenses.amount a) = true)
           (top ++ rest)
      /\ forall v,
           filter (fun e => Sql.value_eqv (Expenses.amount e) v) (top ++ rest)
           = filter (fun e => Sql.value_eqv (Expenses.amount e) v) owned)
  /\ List.length top = Nat.min (Z.to_nat N) (List.length owned)
  /\ get_top_expenses Scenario.three_expenses 1 1
     = [{| Expenses.id := 2; Expenses.user_id := 1;
           Expenses.amount := Sql.VReal (Float.of_Z 20);
           Expenses.category := "Food"; Expenses.date := "2024-01-10";
           Expenses.note := Some "" |}]
  /\ map (fun e => (Expenses.id e, Expenses.amount e))
       (get_top_expenses Scenario.empty_amount 1 2)
     = [(2%Z, Sql.VText ""); (3%Z, Sql.VReal (Float.of_Z 20))].
Proof.
  intros HN. cbv zeta.
  unfold get_top_expenses, Sql.limit, Sql.select. fold (owned_expenses db user_id).
  assert ((N <? 0)%Z = false) as -> by now apply Z.ltb_ge.
  set (sorted := Sql.order_by _ (owned_expenses db user_id)).
  split; [|split].
  - exists (skipn (Z.to_nat N) sorted). rewrite firstn_skipn. split; [|split].
    + apply order_by_perm.
    + apply by_amount_desc_sorted.
    + intros v. apply by_amount_desc_stable.
  - rewrite length_firstn. unfold sorted. now rewrite order_by_length.
  - split; vm_compute; reflexivity.
Qed.

Lemma top_expenses_are_the_largest_witness :
  (0 <= 2)%Z
  /\ get_top_expenses Scenario.three_expenses 1 2
     = [{| Expenses.id := 2; Expenses.user_id := 1;
           Expenses.amount := Sql.VReal (Float.of_Z 20);
           Expenses.category := "Food"; Expenses.date := "2024-01-10";
           Expenses.note := Some "" |};
        {| Expenses.id := 1; Expenses.user_id := 1;
           Expenses.amount := Sql.VReal (Float.of_Z 10);
           Expenses.category := "Food"; Expenses.date := "2024-01-05";
           Expenses.note := Some "" |}]
  /\ List.length (get_top_expenses Scenario.three_expenses 1 2)
     = Nat.min (Z.to_nat 2) (List.length (owned_expenses Scenario.three_expenses 1)).
Proof.
  split; [lia|]. split; [vm_compute; reflexivity|].
  apply (@top_expenses_are_the_largest Scenario.three_expenses 1 2). lia.
Defined.

Example top_expenses_ties_in_storage_order :
  let db :=
    Scenario.post_expense 1 "9" "Food" "2024-03-03"
      (Scenario.post_expense 1 "9.0" "Rent" "2024-03-02"
         (Scenario.post_expense 1 "4" "Bills" "2024-03-01" init_db)) in
  map Expenses.id (get_top_expenses db 1 3) = [2; 3; 1]%Z
  /\ map Expenses.id (get_top_expenses db 1 1) = [2%Z]
  /\ map Expenses.id (get_top_expenses db 1 (-1)) = [2; 3; 1]%Z.
Proof. repeat split. Qed.

(** An amount field left empty is kept as text and ranks first. *)
Example top_expenses_rank_text_first :
  map (fun e => (Expenses.id e, Expenses.amount e))
    (get_top_expenses Scenario.empty_amount 1 3)
  = [(2%Z, Sql.VText ""); (3%Z, Sql.VReal (Float.of_Z 20));
     (1%Z, Sql.VReal (Float.of_Z 10))].
Proof. vm_compute. reflexivity. Qed.

(* ===================================================================== *)
(** ** CSV export *)
(* ===================================================================== *)


Lemma prefix_append (s t : string) : prefix s (s ++ t) = true.
Proof.
  induction s as [|c s IH]; cbn [append prefix].
  - now destruct t.
  - destruct (ascii_dec c c) as [_|Hne]; [exact IH|now elim Hne].
Qed.





Example export_of_january_and_of_march :
  out_response (export_expenses (RT := Reference.runtime)
                  {| Clock.year := 2024; Clock.month := 1; Clock.day := 31 |}
                  1 Scenario.three_expenses)
  = SendFile
      ("id,user_id,amount,category,date,note" ++ Reference.newline
       ++ "2,1,20.0,Food,2024-01-10," ++ Reference.newline
       ++ "1,1,10.0,Food,2024-01-05," ++ Reference.newline)
      "text/csv" true "expenses_2024-01.csv"
  /\ out_response (export_expenses (RT := Reference.runtime)
                     {| Clock.year := 2024; Clock.month := 3; Clock.day := 1 |}
                     1 Scenario.three_expenses)
     = SendFile Reference.newline "text/csv" true "expenses_2024-03.csv".
Proof. split; vm_compute; reflexivity. Qed.


(* ===================================================================== *)
(** ** The dashboard *)
(* ===================================================================== *)

Lemma get_budget_stored (db : database) (user_id : Z) :
  snd (get_budget db user_id) = Some (stored_budget db user_id).
Proof.
  unfold stored_budget.
  destruct (budget_rows_of db user_id) as [|r rest] eqn:Hrows.
  - now rewrite (get_budget_fresh _ _ Hrows).
  - now rewrite (get_budget_existing _ _ Hrows).
Qed.


(** The dashboard, step by step: the listing is read first, then the
    budget row, and four of the later steps can raise. *)
Lemma dashboard_steps {RT : Runtime} (now : Clock.datetime) (current_user : Z)
    (args : fields) (db : database) :
  let db' := fst (get_budget db current_user) in
  let listing := dashboard_listing db current_user args in
  let budget := stored_budget db current_user in
  fst (dashboard now current_user args db) = db'
  /\ snd (dashboard now current_user args db)
     = (let! forecast := (forecast_next_month now db' current_user) in
        let! monthly_trend := (get_monthly_trend now db' current_user) in
        let! total_spent := (py_sum (map Expenses.amount listing)) in
        let! remaining_budget :=
          (py_sub (Py.of_sql (UserBudget.monthly_income budget)) total_spent) in
        Returns
          {| ctx_expenses := listing;
             ctx_budget := Some budget;
             ctx_total_spent := total_spent;
             ctx_remaining_budget := remaining_budget;
             ctx_category_data := category_data_of db' current_user;
             ctx_daily_data :=
               fold_left
                 (fun data row =>
                    dict_set String.eqb (fst row) (Py.of_sql (snd row)) data)
                 (calculate_daily_spending now db' current_user "month") [];
             ctx_monthly_trend := monthly_trend;
             ctx_forecast := forecast;
             ctx_top_expenses := get_top_expenses db' current_user 3 |}).
Proof.
  cbv zeta. unfold dashboard.
  pose proof (get_budget_stored db current_user) as Hb.
  destruct (get_budget db current_user) as [db' budget].
  cbn [fst snd] in *. subst budget. split; reflexivity.
Qed.






(** One amount kept as text in the listing, and the dashboard is not
    shown; filtered away, it is. *)
Example dashboard_of_empty_amount :
  snd (dashboard (RT := Reference.runtime) Scenario.mid_february 1 []
         Scenario.empty_amount) = TypeError
  /\ and_then
       (snd (dashboard (RT := Reference.runtime) Scenario.mid_february 1
               [("category", "Food")] Scenario.empty_amount))
       (fun ctx => Returns (ctx_total_spent ctx, ctx_remaining_budget ctx))
     = Returns (Py.float (Float.of_Z 30), Py.float (Float.of_Z 4970))
  /\ and_then
       (snd (dashboard (RT := Reference.runtime) Scenario.mid_february 1
               [("category", "Rent")] Scenario.empty_amount))
       (fun ctx => Returns (ctx_total_spent ctx, ctx_remaining_budget ctx))
     = Returns (Py.int 0, Py.float (Float.of_Z 5000)).
Proof. repeat split; vm_compute; reflexivity. Qed.

(* ===================================================================== *)
(** ** The UNIQUE constraints of [users] *)
(* ===================================================================== *)

Lemma filter_nil_none (A : Type) (cond : A -> bool) (l : list A) (x : A) :
  filter cond l = [] -> In x l -> cond x = false.
Proof.
  intros Hnil Hin. destruct (cond x) eqn:Hc; [|reflexivity].
  assert (In x (filter cond l)) as H by (apply filter_In; now split).
  rewrite Hnil in H. contradiction.
Qed.

Lemma NoDup_map_snoc (A B : Type) (f : A -> B) (l : list A) (x : A) :
  NoDup (map f l) -> (forall y, In y l -> f y <> f x) -> NoDup (map f (l ++ [x])).
Proof.
  intros Hnd Hfresh. rewrite map_app. cbn [map].
  apply NoDup_app; [exact Hnd|repeat constructor; intros []|].
  intros b Hb [<-|[]].
  apply in_map_iff in Hb. destruct Hb as [y [Hy Hin]].
  exact (Hfresh y Hin Hy).
Qed.

(** [signup] inserts only a username and an email that no row has, so
    the INSERT never violates a UNIQUE constraint. *)
Lemma signup_unique_accounts {RT : Runtime} (method : http_method) (form : fields)
    (db : database) :
  unique_accounts db -> unique_accounts (out_db (signup method form db)).
Proof.
  intros Hinv. unfold signup, form_item. destruct method; [exact Hinv|].
  destruct (field "username" form) as [username|]; [|exact Hinv].
  destruct (field "email" form) as [email|]; [|exact Hinv].
  destruct (field "password" form) as [password|]; [|exact Hinv].
  destruct (Text.len password <? 8)%nat; [exact Hinv|].
  unfold Sql.fetchone, Sql.select.
  destruct (filter _ (Sql.rows (users db))) as [|u rest] eqn:Hnone; [|exact Hinv].
  destruct Hinv as [Hnames Hemails].
  cbn [out_db flash_and_redirect]. unfold unique_accounts.
  cbn [users with_users Sql.insert Sql.rows].
  split; apply NoDup_map_snoc; try assumption; intros y Hy Heq;
    pose proof (filter_nil_none _ _ y Hnone Hy) as Hc;
    apply orb_false_iff in Hc; destruct Hc as [Hn He];
    cbn [Users.username Users.email] in Heq.
  - apply String.eqb_neq in Hn. contradiction.
  - apply String.eqb_neq in He. contradiction.
Qed.

Lemma handle_unique_accounts {RT : Runtime} (r : request) (db : database) :
  unique_accounts db -> unique_accounts (handle r db).
Proof.
  intros Hinv. destruct r as [m f|now u args|u m f|u i m f|u i|u m f|now u];
    cbn [handle].
  - now apply signup_unique_accounts.
  - unfold dashboard.
    pose proof (proj1 (get_budget_keeps_other_tables db u)) as H.
    destruct (get_budget db u) as [db' b]. cbn [fst] in *.
    unfold unique_accounts. now rewrite H.
  - unfold add_expense, form_item. destruct m; [exact Hinv|].
    destruct (field "amount" f); [|exact Hinv].
    destruct (field "category" f); [|exact Hinv].
    destruct (field "date" f); exact Hinv.
  - unfold unique_accounts.
    destruct (edit_expense_others u i m f db) as (_ & -> & _). exact Hinv.
  - unfold unique_accounts.
    destruct (delete_expense_others u i db) as (_ & -> & _). exact Hinv.
  - unfold set_budget, form_item. destruct m.
    + pose proof (proj1 (get_budget_keeps_other_tables db u)) as H.
      destruct (get_budget db u) as [db' b]. cbn [fst out_db respond] in *.
      unfold unique_accounts. now rewrite H.
    + destruct (field "monthly_income" f); [|exact Hinv].
      destruct (field "savings_goal" f); exact Hinv.
  - exact Hinv.
Qed.

Lemma reachable_unique_accounts {RT : Runtime} (db : database) :
  reachable db -> unique_accounts db.
Proof.
  induction 1 as [|r db _ IH].
  - split; constructor.
  - now apply handle_unique_accounts.
Qed.

(* ===================================================================== *)
(** ** Keys *)
(* ===================================================================== *)

Section Keys.
Variable A : Type.
Variable key : A -> Z.

Lemma StronglySorted_snoc_lt (l : list Z) (x : Z) :
  StronglySorted Z.lt l -> Forall (fun y => (y < x)%Z) l ->
  StronglySorted Z.lt (l ++ [x]).
Proof.
  induction 1 as [|y l Hs IH Hy]; intros Hall; cbn [app].
  - repeat constructor.
  - inversion Hall as [|? ? Hyx Hall']; subst.
    constructor; [now apply IH|].
    apply Forall_app. split; [exact Hy|now repeat constructor].
Qed.

Lemma StronglySorted_lt_filter (p : A -> bool) (l : list A) :
  StronglySorted Z.lt (map key l) -> StronglySorted Z.lt (map key (filter p l)).
Proof.
  induction l as [|r l IH]; cbn [map filter]; intros Hs.
  - constructor.
  - inversion Hs as [|? ? Hs' Hr]; subst.
    destruct (p r); cbn [map]; [|now apply IH].
    constructor; [now apply IH|].
    rewrite Forall_forall in *. intros k Hk. apply Hr.
    apply in_map_iff in Hk. destruct Hk as [x [<- Hx]].
    apply in_map. apply filter_In in Hx. tauto.
Qed.

Lemma StronglySorted_lt_NoDup (l : list Z) : StronglySorted Z.lt l -> NoDup l.
Proof.
  induction 1 as [|y l Hs IH Hy]; constructor; [|exact IH].
  intros Hin. rewrite Forall_forall in Hy. specialize (Hy y Hin). lia.
Qed.

Lemma keys_in_sequence_empty : keys_in_sequence key Sql.empty.
Proof. repeat split; try constructor. cbn. lia. Qed.

Lemma keys_in_sequence_insert (t : Sql.table A) (mk : Z -> A) :
  (forall i, key (mk i) = i) ->
  keys_in_sequence key t -> keys_in_sequence key (Sql.insert t mk).
Proof.
  intros Hmk (Hs & Hall & Hseq). unfold keys_in_sequence, Sql.insert.
  cbn [Sql.rows Sql.seq]. split; [|split].
  - rewrite map_app. cbn [map]. rewrite Hmk.
    apply StronglySorted_snoc_lt; [exact Hs|].
    rewrite Forall_map. eapply Forall_impl; [|exact Hall].
    cbn beta. intros r Hr. lia.
  - apply Forall_app. split.
    + eapply Forall_impl; [|exact Hall]. cbn beta. intros r Hr. lia.
    + repeat constructor; rewrite Hmk; lia.
  - lia.
Qed.

Lemma keys_in_sequence_update (t : Sql.table A) (cond : A -> bool) (set : A -> A) :
  (forall r, key (set r) = key r) ->
  keys_in_sequence key t -> keys_in_sequence key (Sql.update t cond set).
Proof.
  intros Hset (Hs & Hall & Hseq). unfold keys_in_sequence, Sql.update.
  cbn [Sql.rows Sql.seq].
  assert (map key (map (fun r => if cond r then set r else r) (Sql.rows t))
          = map key (Sql.rows t)) as Hkeys.
  { rewrite map_map. apply map_ext. intros r. destruct (cond r); [apply Hset|reflexivity]. }
  split; [|split].
  - now rewrite Hkeys.
  - rewrite Forall_map. eapply Forall_impl; [|exact Hall].
    cbn beta. intros r Hr. destruct (cond r); [now rewrite Hset|exact Hr].
  - exact Hseq.
Qed.

Lemma keys_in_sequence_delete (t : Sql.table A) (cond : A -> bool) :
  keys_in_sequence key t -> keys_in_sequence key (Sql.delete t cond).
Proof.
  intros (Hs & Hall & Hseq). unfold keys_in_sequence, Sql.delete.
  cbn [Sql.rows Sql.seq]. split; [|split].
  - now apply StronglySorted_lt_filter.
  - rewrite Forall_forall in *. intros r Hr. apply Hall.
    apply filter_In in Hr. tauto.
  - exact Hseq.
Qed.

Lemma keys_in_sequence_NoDup (t : Sql.table A) :
  keys_in_sequence key t -> NoDup (map key (Sql.rows t)).
Proof. intros (Hs & _). now apply StronglySorted_lt_NoDup. Qed.

(** Two rows of a table with the same key are the same row. *)
Lemma NoDup_key_inj (l : list A) (x y : A) :
  NoDup (map key l) -> In x l -> In y l -> key x = key y -> x = y.
Proof.
  induction l as [|r l IH]; cbn [map In]; intros Hnd Hx Hy Hk; [contradiction|].
  inversion Hnd as [|? ? Hnotin Hnd']; subst.
  destruct Hx as [->|Hx], Hy as [->|Hy].
  - reflexivity.
  - exfalso. apply Hnotin. rewrite Hk. now apply in_map.
  - exfalso. apply Hnotin. rewrite <- Hk. now apply in_map.
  - now apply IH.
Qed.
End Keys.

(** What each request writes. *)
Lemma get_budget_writes (db : database) (user_id : Z) :
  writes db (fst (get_budget db user_id)).
Proof.
  unfold get_budget.
  destruct (Sql.fetchone (Sql.select (user_budget db) _)); cbn [fst].
  - constructor.
  - now apply writes_insert_budget.
Qed.

Lemma handle_writes {RT : Runtime} (r : request) (db : database) :
  writes db (handle r db).
Proof.
  destruct r as [m f|now u args|u m f|u i m f|u i|u m f|now u]; cbn [handle].
  - unfold signup, form_item. destruct m; [constructor|].
    destruct (field "username" f); [|constructor].
    destruct (field "email" f); [|constructor].
    destruct (field "password" f) as [password|]; [|constructor].
    destruct (Text.len password <? 8)%nat; [constructor|].
    destruct (Sql.fetchone _); [constructor|].
    now apply writes_insert_user.
  - unfold dashboard. pose proof (get_budget_writes db u) as H.
    destruct (get_budget db u) as [db' b]. exact H.
  - unfold add_expense, form_item. destruct m; [constructor|].
    destruct (field "amount" f); [|constructor].
    destruct (field "category" f); [|constructor].
    destruct (field "date" f); [|constructor].
    now apply writes_insert_expense.
  - unfold edit_expense, form_item. destruct m.
    + destruct (Sql.fetchone _); constructor.
    + destruct (field "amount" f); [|constructor].
      destruct (field "category" f); [|constructor].
      destruct (field "date" f); [|constructor].
      now apply writes_update_expense.
  - apply writes_delete_expense.
  - unfold set_budget, form_item. destruct m.
    + pose proof (get_budget_writes db u) as H.
      destruct (get_budget db u) as [db' b]. exact H.
    + destruct (field "monthly_income" f); [|constructor].
      destruct (field "savings_goal" f); [|constructor].
      now apply writes_update_budget.
  - constructor.
Qed.

Lemma writes_well_keyed (db db' : database) :
  writes db db' -> well_keyed db -> well_keyed db'.
Proof.
  intros Hw (Hu & He & Hb).
  destruct Hw; unfold well_keyed;
    cbn [users expenses user_budget with_users with_expenses with_user_budget];
    (split; [|split]); try assumption;
    first [ now apply keys_in_sequence_insert
          | now apply keys_in_sequence_update
          | now apply keys_in_sequence_delete ].
Qed.

Lemma writes_seq_monotone (db db' : database) :
  writes db db' ->
  (Sql.seq (users db) <= Sql.seq (users db'))%Z
  /\ (Sql.seq (expenses db) <= Sql.seq (expenses db'))%Z
  /\ (Sql.seq (user_budget db) <= Sql.seq (user_budget db'))%Z.
Proof.
  intros Hw. destruct Hw; cbn; lia.
Qed.

Lemma reachable_keys {RT : Runtime} (db : database) :
  reachable db -> well_keyed db.
Proof.
  induction 1 as [|r db _ IH].
  - repeat split; try constructor; cbn; lia.
  - eapply writes_well_keyed; [apply handle_writes|exact IH].
Qed.

(** X1.  In every database the application can reach, the ids of each
    table increase strictly in storage order, are positive and at most
    the table's sequence, so no two rows of a table share an id; and no
    request lowers a sequence, so the id of a deleted row is not handed
    out again. *)
Theorem ids_increase_and_are_never_reused {RT : Runtime} (db : database) :
  reachable db ->
  well_keyed db
  /\ NoDup (map Users.id (Sql.rows (users db)))
  /\ NoDup (map Expenses.id (Sql.rows (expenses db)))
  /\ NoDup (map UserBudget.id (Sql.rows (user_budget db)))
  /\ forall r,
       (Sql.seq (users db) <= Sql.seq (users (handle r db)))%Z
       /\ (Sql.seq (expenses db) <= Sql.seq (expenses (handle r db)))%Z
       /\ (Sql.seq (user_budget db) <= Sql.seq (user_budget (handle r db)))%Z.
Proof.
  intros Hreach. pose proof (reachable_keys Hreach) as Hk.
  split; [exact Hk|]. destruct Hk as (Hu & He & Hb).
  repeat split; try (now apply keys_in_sequence_NoDup);
    apply (writes_seq_monotone (handle_writes r db)).
Qed.

Lemma ids_increase_and_are_never_reused_witness :
  reachable (RT := Reference.runtime) Cases.one_expense
  /\ NoDup (map Expenses.id (Sql.rows (expenses Cases.one_expense))).
Proof.
  split.
  - apply reachable_step, reachable_init.
  - apply (@ids_increase_and_are_never_reused Reference.runtime Cases.one_expense).
    apply reachable_step, reachable_init.
Defined.

(* ===================================================================== *)
(** ** Adding, editing and deleting the user's own expenses *)
(* ===================================================================== *)

Lemma filter_all (A : Type) (p : A -> bool) (l : list A) :
  (forall x, In x l -> p x = true) -> filter p l = l.
Proof.
  induction l as [|x l IH]; cbn [filter]; intros H.
  - reflexivity.
  - rewrite (H x (or_introl eq_refl)). f_equal. apply IH. intros y Hy. apply H. now right.
Qed.


Lemma remove_by_key_perm (A : Type) (key : A -> Z) (l : list A) (e : A) :
  NoDup (map key l) -> In e l ->
  Permutation (e :: filter (fun r => negb (key r =? key e)%Z) l) l.
Proof.
  induction l as [|r l IH]; cbn [map In filter]; intros Hnd Hin; [contradiction|].
  inversion Hnd as [|? ? Hnotin Hnd']; subst.
  destruct Hin as [->|Hin].
  - rewrite Z.eqb_refl. cbn [negb]. rewrite filter_all; [reflexivity|].
    intros x Hx. apply negb_true_iff, Z.eqb_neq. intros Heq.
    apply Hnotin. rewrite <- Heq. now apply in_map.
  - assert (key r <> key e) as Hne.
    { intros Heq. apply Hnotin. rewrite Heq. now apply in_map. }
    apply Z.eqb_neq in Hne. rewrite Hne. cbn [negb].
    rewrite perm_swap. constructor. now apply IH.
Qed.

(** In a reachable database the row with id [i] that [u] owns is the
    only row with id [i]. *)
Lemma own_row_condition {RT : Runtime} (db : database) (u i : Z) (e r : Expenses.row) :
  reachable db ->
  In e (Sql.rows (expenses db)) -> Expenses.id e = i -> Expenses.user_id e = u ->
  In r (Sql.rows (expenses db)) ->
  ((Expenses.id r =? i)%Z && (Expenses.user_id r =? u)%Z)%bool = (Expenses.id r =? i)%Z.
Proof.
  intros Hreach He Hi Hu Hr.
  destruct (Z.eqb_spec (Expenses.id r) i) as [Heq|Hne]; [|reflexivity].
  destruct (reachable_keys Hreach) as (_ & Hk & _).
  assert (r = e) as ->.
  { apply (NoDup_key_inj Expenses.id (Sql.rows (expenses db)));
      [now apply keys_in_sequence_NoDup|assumption|assumption|congruence]. }
  rewrite Hu. cbn. apply Z.eqb_refl.
Qed.

(** X2.  A POST to [/add] that carries amount, category and date
    appends exactly one row at the end of [expenses]:
    it belongs to the logged-in user, takes the next id of the sequence
    and holds the submitted values as they are (the category is not
    checked against the six categories; a missing note is stored as the
    empty text).  Every row that was there stays, the tables [users] and
    [user_budget] are untouched. *)
Theorem add_expense_appends_one_row {RT : Runtime} (current_user : Z) (form : fields)
    (db : database) (amount category date : string) :
  field "amount" form = Some amount ->
  field "category" form = Some category ->
  field "date" form = Some date ->
  let o := add_expense current_user POST form db in
  let new := expense_of_form (Sql.seq (expenses db) + 1) current_user
               amount category date form in
  Sql.rows (expenses (out_db o)) = Sql.rows (expenses db) ++ [new]
  /\ owned_expenses (out_db o) current_user = owned_expenses db current_user ++ [new]
  /\ expenses_of_others (out_db o) current_user = expenses_of_others db current_user
  /\ users (out_db o) = users db
  /\ user_budget (out_db o) = user_budget db
  /\ out_flash o = [("Expense added successfully!", "success")]
  /\ out_response o = Redirect "dashboard".
Proof.
  intros Ha Hc Hd. cbv zeta. unfold add_expense, form_item. rewrite Ha, Hc, Hd.
  cbn [out_db out_flash out_response flash_and_redirect].
  unfold owned_expenses, expenses_of_others.
  cbn [expenses users user_budget with_expenses Sql.insert Sql.rows].
  rewrite !filter_app. cbn [filter Expenses.user_id expense_of_form].
  rewrite Z.eqb_refl. cbn [negb]. rewrite app_nil_r.
  repeat split.
Qed.

Lemma add_expense_appends_one_row_witness :
  let form := Cases.add_form "3.20" "Coffee" "2024-02-04" in
  let o := add_expense (RT := Reference.runtime) 2 POST form Scenario.two_users in
  map Expenses.category (owned_expenses (out_db o) 2) = ["Bills"; "Coffee"]
  /\ map Expenses.id (Sql.rows (expenses (out_db o))) = [1; 2; 3]%Z
  /\ owned_expenses (out_db o) 2
     = owned_expenses Scenario.two_users 2
       ++ [expense_of_form (RT := Reference.runtime) 3 2 "3.20" "Coffee" "2024-02-04" form].
Proof.
  split; [reflexivity|]. split; [reflexivity|].
  apply (@add_expense_appends_one_row Reference.runtime 2
           (Cases.add_form "3.20" "Coffee" "2024-02-04") Scenario.two_users
           "3.20" "Coffee" "2024-02-04"); reflexivity.
Defined.

(** X3.  In a reachable database, when the logged-in user deletes an
    expense of their own, exactly that row disappears: the other rows
    keep their order, the id is gone from the table, and [users] and
    [user_budget] are untouched. *)
Theorem delete_removes_exactly_that_row {RT : Runtime} (db : database)
    (current_user expense_id : Z) (e : Expenses.row) :
  reachable db ->
  In e (Sql.rows (expenses db)) ->
  Expenses.id e = expense_id ->
  Expenses.user_id e = current_user ->
  let db' := out_db (delete_expense current_user expense_id db) in
  Sql.rows (expenses db')
  = filter (fun r => negb (Expenses.id r =? expense_id)%Z) (Sql.rows (expenses db))
  /\ Permutation (e :: Sql.rows (expenses db')) (Sql.rows (expenses db))
  /\ ~ In expense_id (map Expenses.id (Sql.rows (expenses db')))
  /\ users db' = users db /\ user_budget db' = user_budget db.
Proof.
  intros Hreach He Hi Hu. cbv zeta. unfold delete_expense.
  cbn [out_db flash_and_redirect expenses users user_budget with_expenses
       Sql.delete Sql.rows].
  assert (filter
            (fun r => negb ((Expenses.id r =? expense_id)%Z
                            && (Expenses.user_id r =? current_user)%Z))
            (Sql.rows (expenses db))
          = filter (fun r => negb (Expenses.id r =? expense_id)%Z)
              (Sql.rows (expenses db))) as ->.
  { apply filter_ext_in. intros r Hr.
    now rewrite (@own_row_condition _ db current_user expense_id e r Hreach He Hi Hu Hr). }
  split; [reflexivity|]. split; [|split; [|now split]].
  - subst expense_id. apply remove_by_key_perm; [|exact He].
    destruct (reachable_keys Hreach) as (_ & Hk & _).
    now apply keys_in_sequence_NoDup.
  - intros Hin. apply in_map_iff in Hin. destruct Hin as [r [Hr Hin]].
    apply filter_In in Hin. destruct Hin as [_ Hne].
    apply negb_true_iff, Z.eqb_neq in Hne. contradiction.
Qed.

Lemma delete_removes_exactly_that_row_witness :
  let db' := out_db (delete_expense 1 1 Scenario.three_expenses) in
  map Expenses.id (Sql.rows (expenses db')) = [2; 3]%Z
  /\ ~ In 1%Z (map Expenses.id (Sql.rows (expenses db'))).
Proof.
  split; [reflexivity|].
  refine (proj1 (proj2 (proj2
    (@delete_removes_exactly_that_row Reference.runtime Scenario.three_expenses 1 1
       {| Expenses.id := 1; Expenses.user_id := 1; Expenses.amount := Sql.VReal (Float.of_Z 10);
          Expenses.category := "Food"; Expenses.date := "2024-01-05";
          Expenses.note := Some "" |} _ _ _ _)))).
  - do 3 apply (reachable_step (AddExpense _ _ _)). apply reachable_init.
  - left. reflexivity.
  - reflexivity.
  - reflexivity.
Defined.

(** X4.  In a reachable database, when the logged-in user posts the
    edit form for an expense of their own, exactly that row is rewritten
    in place with the submitted amount, category, date and note; it keeps
    its id, its owner and its position, and no row is added or removed. *)
Theorem edit_rewrites_exactly_that_row {RT : Runtime} (db : database)
    (current_user expense_id : Z) (e : Expenses.row) (form : fields)
    (amount category date : string) :
  reachable db ->
  In e (Sql.rows (expenses db)) ->
  Expenses.id e = expense_id ->
  Expenses.user_id e = current_user ->
  field "amount" form = Some amount ->
  field "category" form = Some category ->
  field "date" form = Some date ->
  let o := edit_expense current_user expense_id POST form db in
  let new := expense_of_form expense_id current_user amount category date form in
  Sql.rows (expenses (out_db o))
  = map (fun r => if (Expenses.id r =? expense_id)%Z then new else r)
      (Sql.rows (expenses db))
  /\ In new (Sql.rows (expenses (out_db o)))
  /\ Sql.seq (expenses (out_db o)) = Sql.seq (expenses db)
  /\ out_flash o = [("Expense updated successfully!", "success")]
  /\ out_response o = Redirect "dashboard".
Proof.
  intros Hreach He Hi Hu Ha Hc Hd. cbv zeta.
  unfold edit_expense, form_item. rewrite Ha, Hc, Hd.
  cbn [out_db out_flash out_response flash_and_redirect expenses with_expenses
       Sql.update Sql.rows Sql.seq].
  assert (map
            (fun r =>
               if ((Expenses.id r =? expense_id)%Z
                   && (Expenses.user_id r =? current_user)%Z)%bool
               then {| Expenses.id := Expenses.id r;
                       Expenses.user_id := Expenses.user_id r;
                       Expenses.amount := sqlite_real amount;
                       Expenses.category := category;
                       Expenses.date := date;
                       Expenses.note := Some (field_or "note" "" form) |}
               else r)
            (Sql.rows (expenses db))
          = map (fun r => if (Expenses.id r =? expense_id)%Z
                          then expense_of_form expense_id current_user
                                 amount category date form
                          else r)
              (Sql.rows (expenses db))) as Hmap.
  { apply map_ext_in. intros r Hr.
    rewrite (@own_row_condition _ db current_user expense_id e r Hreach He Hi Hu Hr).
    destruct (Z.eqb_spec (Expenses.id r) expense_id) as [Heq|Hne]; [|reflexivity].
    destruct (reachable_keys Hreach) as (_ & Hk & _).
    assert (r = e) as ->.
    { apply (NoDup_key_inj Expenses.id (Sql.rows (expenses db)));
        [now apply keys_in_sequence_NoDup|assumption|assumption|congruence]. }
    unfold expense_of_form. now rewrite Hi, Hu. }
  rewrite Hmap. repeat split.
  apply in_map_iff. exists e. split; [|exact He].
  apply Z.eqb_eq in Hi. now rewrite Hi.
Qed.

Lemma edit_rewrites_exactly_that_row_witness :
  let form := [("amount", "6"); ("category", "Food"); ("date", "2024-02-02");
               ("note", "lunch")] in
  let o := edit_expense (RT := Reference.runtime) 1 3 POST form Scenario.three_expenses in
  map (fun r => (Expenses.id r, Expenses.category r, Expenses.note r))
    (Sql.rows (expenses (out_db o)))
  = [(1%Z, "Food", Some ""); (2%Z, "Food", Some ""); (3%Z, "Food", Some "lunch")]
  /\ In (expense_of_form (RT := Reference.runtime) 3 1 "6" "Food" "2024-02-02" form)
       (Sql.rows (expenses (out_db o))).
Proof.
  split; [reflexivity|].
  refine (proj1 (proj2
    (@edit_rewrites_exactly_that_row Reference.runtime Scenario.three_expenses 1 3
       {| Expenses.id := 3; Expenses.user_id := 1; Expenses.amount := Sql.VReal (Float.of_Z 5);
          Expenses.category := "Travel"; Expenses.date := "2024-02-01";
          Expenses.note := Some "" |}
       [("amount", "6"); ("category", "Food"); ("date", "2024-02-02");
        ("note", "lunch")]
       "6" "Food" "2024-02-02" _ _ _ _ _ _ _))); try reflexivity.
  - do 3 apply (reachable_step (AddExpense _ _ _)). apply reachable_init.
  - right. right. left. reflexivity.
Defined.



(** X6.  In a reachable database, adding an expense and then deleting
    the id it was given puts the rows of [expenses] back as they were;
    only the sequence has moved on. *)
Theorem add_then_delete_restores_rows {RT : Runtime} (db : database)
    (current_user : Z) (form : fields) (amount category date : string) :
  reachable db ->
  field "amount" form = Some amount ->
  field "category" form = Some category ->
  field "date" form = Some date ->
  let added := out_db (add_expense current_user POST form db) in
  let new_id := Sql.seq (expenses added) in
  let back := out_db (delete_expense current_user new_id added) in
  Sql.rows (expenses back) = Sql.rows (expenses db)
  /\ Sql.seq (expenses back) = (Sql.seq (expenses db) + 1)%Z
  /\ users back = users db /\ user_budget back = user_budget db.
Proof.
  intros Hreach Ha Hc Hd. cbv zeta.
  unfold add_expense, form_item. rewrite Ha, Hc, Hd.
  unfold delete_expense.
  cbn [out_db flash_and_redirect expenses users user_budget with_expenses
       Sql.insert Sql.delete Sql.rows Sql.seq].
  repeat split.
  rewrite filter_app. cbn [filter Expenses.id Expenses.user_id].
  rewrite !Z.eqb_refl. cbn [andb negb]. rewrite app_nil_r.
  apply filter_all. intros r Hr.
  destruct (reachable_keys Hreach) as (_ & (_ & Hall & _) & _).
  rewrite Forall_forall in Hall. specialize (Hall r Hr).
  apply negb_true_iff, andb_false_iff. left. apply Z.eqb_neq. lia.
Qed.

Lemma add_then_delete_restores_rows_witness :
  let form := Cases.add_form "3.20" "Coffee" "2024-02-04" in
  let added := out_db (add_expense (RT := Reference.runtime) 2 POST form
                         Scenario.two_users) in
  let back := out_db (delete_expense 2 (Sql.seq (expenses added)) added) in
  Sql.rows (expenses back) = Sql.rows (expenses Scenario.two_users)
  /\ Sql.seq (expenses back) = (Sql.seq (expenses Scenario.two_users) + 1)%Z
  /\ users back = users Scenario.two_users
  /\ user_budget back = user_budget Scenario.two_users.
Proof.
  apply (@add_then_delete_restores_rows Reference.runtime Scenario.two_users 2
           (Cases.add_form "3.20" "Coffee" "2024-02-04") "3.20" "Coffee" "2024-02-04");
    try reflexivity.
  do 2 apply (reachable_step (AddExpense _ _ _)). apply reachable_init.
Defined.

(* ===================================================================== *)
(** ** Setting the budget *)
(* ===================================================================== *)

Lemma filter_map_commute (A : Type) (p : A -> bool) (f : A -> A) (l : list A) :
  (forall x, p (f x) = p x) -> filter p (map f l) = map f (filter p l).
Proof.
  intros H. induction l as [|x l IH]; cbn [map filter].
  - reflexivity.
  - rewrite H. destruct (p x); cbn [map]; now rewrite IH.
Qed.

(** X7.  A POST to [/set_budget] with both fields rewrites the income
    and the goal of every budget row of the logged-in user and of no
    other row; ids and owners stay.  So once the user has a budget row,
    the next [get_budget] returns that row with the submitted values and
    writes nothing. *)
Theorem set_budget_rewrites_own_row {RT : Runtime} (db : database) (current_user : Z)
    (form : fields) (monthly_income savings_goal : string)
    (r : UserBudget.row) (others : list UserBudget.row) :
  field "monthly_income" form = Some monthly_income ->
  field "savings_goal" form = Some savings_goal ->
  budget_rows_of db current_user = r :: others ->
  let o := set_budget current_user POST form db in
  let set := fun b =>
    {| UserBudget.id := UserBudget.id b;
       UserBudget.user_id := UserBudget.user_id b;
       UserBudget.monthly_income := sqlite_real monthly_income;
       UserBudget.savings_goal := sqlite_real savings_goal |} in
  budget_rows_of (out_db o) current_user = map set (r :: others)
  /\ (forall u, u <> current_user ->
                budget_rows_of (out_db o) u = budget_rows_of db u)
  /\ get_budget (out_db o) current_user = (out_db o, Some (set r))
  /\ users (out_db o) = users db /\ expenses (out_db o) = expenses db
  /\ out_flash o = [("Budget settings updated!", "success")]
  /\ out_response o = Redirect "dashboard".
Proof.
  intros Hincome Hgoal Hrows. cbv zeta.
  unfold set_budget, form_item. rewrite Hincome, Hgoal.
  cbn [out_db out_flash out_response flash_and_redirect].
  set (set := fun b : UserBudget.row =>
    {| UserBudget.id := UserBudget.id b;
       UserBudget.user_id := UserBudget.user_id b;
       UserBudget.monthly_income := sqlite_real monthly_income;
       UserBudget.savings_goal := sqlite_real savings_goal |}).
  set (db' := with_user_budget db _).
  assert (budget_rows_of db' current_user = map set (r :: others)) as Hown.
  { unfold budget_rows_of, db'.
    cbn [user_budget with_user_budget Sql.update Sql.rows].
    rewrite filter_map_commute.
    - fold (budget_rows_of db current_user). rewrite Hrows.
      apply map_ext_in. intros b Hb. rewrite <- Hrows in Hb.
      apply filter_In in Hb. destruct Hb as [_ Hb]. now rewrite Hb.
    - intros b. destruct (UserBudget.user_id b =? current_user)%Z eqn:Hb;
        cbn [UserBudget.user_id set]; exact Hb. }
  split; [exact Hown|]. split; [|split; [|repeat split]].
  - intros u Hu. unfold budget_rows_of, db'.
    cbn [user_budget with_user_budget Sql.update Sql.rows].
    apply filter_update. intros b Hb. apply Z.eqb_eq in Hb.
    unfold set. cbn [UserBudget.user_id].
    split; apply Z.eqb_neq; rewrite Hb; intros Heq; apply Hu; now symmetry.
  - now apply get_budget_existing with (rest := map set others).
Qed.

Lemma set_budget_rewrites_own_row_witness :
  let form := [("monthly_income", "8000"); ("savings_goal", "2500")] in
  let o := set_budget (RT := Reference.runtime) 2 POST form Cases.two_budgets in
  map (fun b => (UserBudget.user_id b, UserBudget.monthly_income b,
                 UserBudget.savings_goal b))
    (Sql.rows (user_budget (out_db o)))
  = [(1%Z, Sql.VReal (Float.of_Z 5000), Sql.VReal (Float.of_Z 1000));
     (2%Z, Sql.VReal (Float.of_Z 8000), Sql.VReal (Float.of_Z 2500))]
  /\ forall u, u <> 2%Z ->
       budget_rows_of (out_db o) u = budget_rows_of Cases.two_budgets u.
Proof.
  split; [reflexivity|].
  refine (proj1 (proj2
    (@set_budget_rewrites_own_row Reference.runtime Cases.two_budgets 2
       [("monthly_income", "8000"); ("savings_goal", "2500")] "8000" "2500"
       {| UserBudget.id := 2; UserBudget.user_id := 2;
          UserBudget.monthly_income := Sql.VReal (Float.of_Z 5000);
          UserBudget.savings_goal := Sql.VReal (Float.of_Z 1000) |}
       [] _ _ _))); reflexivity.
Defined.

(* ===================================================================== *)
(** ** Which request writes where *)
(* ===================================================================== *)

Lemma signup_keeps_other_tables {RT : Runtime} (m : http_method) (f : fields)
    (db : database) :
  expenses (out_db (signup m f db)) = expenses db
  /\ user_budget (out_db (signup m f db)) = user_budget db.
Proof.
  unfold signup, form_item. destruct m; [now split|].
  destruct (field "username" f); [|now split].
  destruct (field "email" f); [|now split].
  destruct (field "password" f) as [password|]; [|now split].
  destruct (Text.len password <? 8)%nat; [now split|].
  destruct (Sql.fetchone _); now split.
Qed.

Lemma add_expense_keeps_other_tables {RT : Runtime} (u : Z) (m : http_method)
    (f : fields) (db : database) :
  users (out_db (add_expense u m f db)) = users db
  /\ user_budget (out_db (add_expense u m f db)) = user_budget db.
Proof.
  unfold add_expense, form_item. destruct m; [now split|].
  destruct (field "amount" f); [|now split].
  destruct (field "category" f); [|now split].
  destruct (field "date" f); now split.
Qed.

Lemma set_budget_keeps_other_tables {RT : Runtime} (u : Z) (m : http_method)
    (f : fields) (db : database) :
  users (out_db (set_budget u m f db)) = users db
  /\ expenses (out_db (set_budget u m f db)) = expenses db.
Proof.
  unfold set_budget, form_item. destruct m.
  - pose proof (get_budget_keeps_other_tables db u) as H.
    destruct (get_budget db u) as [db' b]. exact H.
  - destruct (field "monthly_income" f); [|now split].
    destruct (field "savings_goal" f); now split.
Qed.

Lemma dashboard_database {RT : Runtime} (now : Clock.datetime) (u : Z) (args : fields)
    (db : database) :
  fst (dashboard now u args db) = fst (get_budget db u).
Proof. unfold dashboard. now destruct (get_budget db u). Qed.

(** X8.  [users] is written by no request but a POST to [/signup];
    [expenses] by none but a POST to [/add] or [/edit] and [/delete];
    [user_budget] by none but the dashboard and [/set_budget].  A GET of
    [/signup], [/add] or [/edit] and [/export] write nothing at all. *)
Theorem requests_write_only_their_table {RT : Runtime} (r : request) (db : database) :
  match r with
  | Signup POST _ => True
  | _ => users (handle r db) = users db
  end
  /\ match r with
     | AddExpense _ POST _ | EditExpense _ _ POST _ | DeleteExpense _ _ => True
     | _ => expenses (handle r db) = expenses db
     end
  /\ match r with
     | Dashboard _ _ _ | SetBudget _ _ _ => True
     | _ => user_budget (handle r db) = user_budget db
     end
  /\ match r with
     | Signup GET _ | AddExpense _ GET _ | EditExpense _ _ GET _ | Export _ _ =>
         handle r db = db
     | _ => True
     end.
Proof.
  destruct r as [m f|now u args|u m f|u i m f|u i|u m f|now u]; cbn [handle].
  - destruct (signup_keeps_other_tables m f db) as [He Hb].
    destruct m; repeat split; assumption.
  - rewrite dashboard_database.
    destruct (get_budget_keeps_other_tables db u) as [Hu He]. now repeat split.
  - destruct (add_expense_keeps_other_tables u m f db) as [Hu Hb].
    destruct m; repeat split; assumption.
  - destruct (edit_expense_others u i m f db) as (_ & Hu & Hb).
    destruct m; repeat split; try assumption;
      unfold edit_expense; now destruct (Sql.fetchone _).
  - destruct (delete_expense_others u i db) as (_ & Hu & Hb). now repeat split.
  - destruct (set_budget_keeps_other_tables u m f db) as [Hu He]. now repeat split.
  - now repeat split.
Qed.

(* ===================================================================== *)
(** ** One user's requests and another user's data *)
(* ===================================================================== *)

Lemma select_owned_and (db : database) (u : Z) (extra : Expenses.row -> bool) :
  Sql.select (expenses db) (fun e => ((Expenses.user_id e =? u)%Z && extra e)%bool)
  = filter extra (owned_expenses db u).
Proof. unfold Sql.select, owned_expenses. apply filter_andb. Qed.

(** Every query of [app.py] reads the expenses of its user only. *)
Lemma queries_read_owned_rows_only {RT : Runtime} (db1 db2 : database) (u : Z) :
  owned_expenses db1 u = owned_expenses db2 u ->
  (forall category start_date end_date search sort_by sort_order,
      get_expenses db1 u category start_date end_date search sort_by sort_order
      = get_expenses db2 u category start_date end_date search sort_by sort_order)
  /\ calculate_category_spending db1 u = calculate_category_spending db2 u
  /\ (forall now period,
        calculate_daily_spending now db1 u period
        = calculate_daily_spending now db2 u period)
  /\ (forall now, forecast_next_month now db1 u = forecast_next_month now db2 u)
  /\ (forall now, get_monthly_trend now db1 u = get_monthly_trend now db2 u)
  /\ (forall limit, get_top_expenses db1 u limit = get_top_expenses db2 u limit)
  /\ (forall now, export_rows now u db1 = export_rows now u db2).
Proof.
  intros Howned.
  assert (forall now, forecast_next_month now db1 u = forecast_next_month now db2 u)
    as Hforecast.
  { intros now. unfold forecast_next_month, forecast_rows.
    now rewrite !select_owned_and, Howned. }
  split; [|split; [|split; [|split; [|split; [|split]]]]].
  - intros. unfold get_expenses, Sql.select.
    fold (owned_expenses db1 u). fold (owned_expenses db2 u). now rewrite Howned.
  - unfold calculate_category_spending, Sql.select.
    fold (owned_expenses db1 u). fold (owned_expenses db2 u). now rewrite Howned.
  - intros. unfold calculate_daily_spending. now rewrite !select_owned_and, Howned.
  - exact Hforecast.
  - intros now. unfold get_monthly_trend.
    now rewrite !select_owned_and, Howned, Hforecast.
  - intros. unfold get_top_expenses, Sql.select.
    fold (owned_expenses db1 u). fold (owned_expenses db2 u). now rewrite Howned.
  - intros. unfold export_rows. now rewrite !select_owned_and, Howned.
Qed.

Lemma get_budget_other_user (db : database) (v u : Z) :
  v <> u -> budget_rows_of (fst (get_budget db v)) u = budget_rows_of db u.
Proof.
  intros Hne. destruct (budget_rows_of db v) as [|r rest] eqn:Hrows.
  - rewrite (get_budget_fresh _ _ Hrows). cbn [fst].
    unfold budget_rows_of. cbn [user_budget with_user_budget Sql.rows].
    rewrite filter_app. cbn [filter UserBudget.user_id].
    apply Z.eqb_neq in Hne. rewrite Hne. apply app_nil_r.
  - now rewrite (get_budget_existing _ _ Hrows).
Qed.

Lemma handle_keeps_other_users_rows {RT : Runtime} (r : request) (db : database) (u : Z) :
  request_user r <> Some u ->
  owned_expenses (handle r db) u = owned_expenses db u
  /\ budget_rows_of (handle r db) u = budget_rows_of db u.
Proof.
  intros Hother.
  destruct r as [m f|now v args|v m f|v i m f|v i|v m f|now v];
    cbn [handle request_user] in *;
    try (assert (v <> u) as Hne by congruence).
  - destruct (signup_keeps_other_tables m f db) as [He Hb].
    unfold owned_expenses, budget_rows_of. now rewrite He, Hb.
  - rewrite dashboard_database. split.
    + unfold owned_expenses.
      now rewrite (proj2 (get_budget_keeps_other_tables db v)).
    + now apply get_budget_other_user.
  - destruct (add_expense_keeps_other_tables v m f db) as [_ Hb].
    split; [|unfold budget_rows_of; now rewrite Hb].
    unfold add_expense, form_item. destruct m; [reflexivity|].
    destruct (field "amount" f); [|reflexivity].
    destruct (field "category" f); [|reflexivity].
    destruct (field "date" f); [|reflexivity].
    unfold owned_expenses.
    cbn [out_db flash_and_redirect expenses with_expenses Sql.insert Sql.rows].
    rewrite filter_app. cbn [filter Expenses.user_id].
    apply Z.eqb_neq in Hne. rewrite Hne. apply app_nil_r.
  - destruct (edit_expense_others v i m f db) as (_ & _ & Hb).
    split; [|unfold budget_rows_of; now rewrite Hb].
    unfold edit_expense, form_item. destruct m.
    + now destruct (Sql.fetchone _).
    + destruct (field "amount" f); [|reflexivity].
      destruct (field "category" f); [|reflexivity].
      destruct (field "date" f); [|reflexivity].
      unfold owned_expenses.
      cbn [out_db flash_and_redirect expenses with_expenses Sql.update Sql.rows].
      apply filter_update. intros e He.
      apply andb_true_iff in He. destruct He as [_ He]. apply Z.eqb_eq in He.
      cbn [Expenses.user_id]. rewrite He. split; now apply Z.eqb_neq.
  - destruct (delete_expense_others v i db) as (_ & _ & Hb).
    split; [|unfold budget_rows_of; now rewrite Hb].
    unfold delete_expense, owned_expenses.
    cbn [out_db flash_and_redirect expenses with_expenses Sql.delete Sql.rows].
    apply filter_delete. intros e He.
    apply andb_true_iff in He. destruct He as [_ He]. apply Z.eqb_eq in He.
    rewrite He. now apply Z.eqb_neq.
  - destruct (set_budget_keeps_other_tables v m f db) as [_ He].
    split; [unfold owned_expenses; now rewrite He|].
    unfold set_budget, form_item. destruct m.
    + pose proof (get_budget_other_user db Hne) as H.
      destruct (get_budget db v) as [db' b]. exact H.
    + destruct (field "monthly_income" f); [|reflexivity].
      destruct (field "savings_goal" f); [|reflexivity].
      unfold budget_rows_of.
      cbn [out_db flash_and_redirect user_budget with_user_budget Sql.update Sql.rows].
      apply filter_update. intros b Hb. apply Z.eqb_eq in Hb.
      cbn [UserBudget.user_id]. rewrite Hb. split; now apply Z.eqb_neq.
  - now split.
Qed.

(** X9.  A request that runs for another user, or a signup, changes
    nothing of what a user's queries return: the user's expense rows and
    budget rows are the same afterwards, and so are the listing, the
    category totals, the daily totals, the forecast, the monthly trend,
    the top expenses and the rows of the export. *)
Theorem other_requests_leave_a_users_view {RT : Runtime} (r : request) (db : database)
    (u : Z) :
  request_user r <> Some u ->
  let db' := handle r db in
  owned_expenses db' u = owned_expenses db u
  /\ budget_rows_of db' u = budget_rows_of db u
  /\ (forall category start_date end_date search sort_by sort_order,
        get_expenses db' u category start_date end_date search sort_by sort_order
        = get_expenses db u category start_date end_date search sort_by sort_order)
  /\ calculate_category_spending db' u = calculate_category_spending db u
  /\ (forall now period,
        calculate_daily_spending now db' u period
        = calculate_daily_spending now db u period)
  /\ (forall now, forecast_next_month now db' u = forecast_next_month now db u)
  /\ (forall now, get_monthly_trend now db' u = get_monthly_trend now db u)
  /\ (forall limit, get_top_expenses db' u limit = get_top_expenses db u limit)
  /\ (forall now, export_rows now u db' = export_rows now u db).
Proof.
  intros Hother. cbv zeta.
  destruct (handle_keeps_other_users_rows r db Hother) as [Howned Hbudget].
  split; [exact Howned|]. split; [exact Hbudget|].
  now apply queries_read_owned_rows_only.
Qed.

Lemma other_requests_leave_a_users_view_witness :
  let r := DeleteExpense 2 1 in
  let db' := handle (RT := Reference.runtime) r Scenario.two_users in
  request_user r <> Some 1%Z
  /\ owned_expenses db' 1 = owned_expenses Scenario.two_users 1
  /\ calculate_category_spending (RT := Reference.runtime) db' 1
     = calculate_category_spending (RT := Reference.runtime) Scenario.two_users 1.
Proof.
  split; [discriminate|].
  split;
    apply (@other_requests_leave_a_users_view Reference.runtime (DeleteExpense 2 1)
             Scenario.two_users 1); discriminate.
Defined.

(* ===================================================================== *)

(* ===================================================================== *)
(** ** The listing *)
(* ===================================================================== *)









Example listing_examples :
  map Expenses.id
    (get_expenses Scenario.three_expenses 1 (Some "All") (Some "") (Some "") (Some "")
       "amount" "ASC") = [3; 1; 2]%Z
  /\ map Expenses.id
       (get_expenses Scenario.three_expenses 1 (Some "Food") (Some "2024-01-06") None
          None "date" "DESC") = [2%Z]
  /\ map Expenses.id
       (get_expenses Scenario.three_expenses 1 None None (Some "2024-01-31") (Some "OO")
          "rowid" "ASC") = [1; 2]%Z
  /\ map Expenses.id
       (get_expenses Scenario.empty_amount 1 None None None None "amount" "ASC")
     = [1; 3; 2]%Z
  /\ map Expenses.id
       (get_expenses Scenario.empty_amount 1 None None None None "amount" "DESC")
     = [2; 3; 1]%Z.
Proof. repeat split. Qed.

(** [_] in a search stands for one character, of however many bytes. *)
Example listing_search_reads_characters :
  let db := Scenario.cafe in
  map Expenses.id (get_expenses db 1 None None None (Some "f_ b") "date" "DESC") = [1%Z]
  /\ map Expenses.id (get_expenses db 1 None None None (Some "f__ b") "date" "DESC") = []
  /\ map Expenses.id (get_expenses db 1 None None None (Some "CAF") "date" "DESC") = [1%Z]
  /\ map Expenses.id (get_expenses db 1 None None None (Some "É") "date" "DESC") = [].
Proof. repeat split. Qed.

(* ===================================================================== *)
(** ** Searching *)
(* ===================================================================== *)










Example search_wildcards_are_not_escaped :
  map Expenses.id
    (get_expenses Scenario.three_expenses 1 None None None (Some "f_o") "date" "ASC")
  = [1; 2]%Z
  /\ map Expenses.id
       (get_expenses Scenario.three_expenses 1 None None None (Some "%") "date" "ASC")
     = [1; 2; 3]%Z.
Proof. split; reflexivity. Qed.


(** A note is searched up to its first NUL byte only: the note
    "x", NUL, "lunch" is found under "x" and not under "lunch". *)
Example search_stops_at_nul :
  let nul := String (ascii_of_nat 0) "" in
  Text.like "%lunch%" ("x" ++ nul ++ "lunch") = false
  /\ Text.like "%x%" ("x" ++ nul ++ "lunch") = true
  /\ Text.like ("%lunch" ++ nul ++ "zzz%") "a lunch" = true
  /\ map Expenses.note (Sql.rows (expenses Scenario.nul_note))
     = [Some ("x" ++ nul ++ "lunch")%string]
  /\ get_expenses Scenario.nul_note 1 None None None (Some "lunch") "date" "DESC" = []
  /\ map Expenses.id
       (get_expenses Scenario.nul_note 1 None None None (Some "x") "date" "DESC")
     = [1%Z].
Proof. repeat split. Qed.

(* ===================================================================== *)
(** ** Daily totals *)
(* ===================================================================== *)

(** X12.  [calculate_daily_spending] lists each date on or after the
    cutoff (7 days back for period "week", 30 days back for every other
    period) on which the user has an expense, once, in ascending order of
    the date text, with SQLite's [SUM] over that date's amounts in
    storage order. *)
Theorem daily_totals_by_ascending_date {RT : Runtime} (now : Clock.datetime)
    (db : database) (user_id : Z) (period : string) :
  let days_back := if (period =? "week")%string then 7%Z else 30%Z in
  let cutoff := Clock.strftime_Ymd (Clock.minus_days now days_back) in
  let recent :=
    filter (fun e => Text.text_ge (Expenses.date e) cutoff)
      (owned_expenses db user_id) in
  let daily := calculate_daily_spending now db user_id period in
  StronglySorted (fun a b => Text.text_le (fst a) (fst b) = true) daily
  /\ NoDup (map fst daily)
  /\ (forall d, In d (map fst daily) <-> In d (map Expenses.date recent))
  /\ Forall
       (fun dt =>
          snd dt
          = sqlite_sum
              (map Expenses.amount
                 (filter (fun e => (Expenses.date e =? fst dt)%string) recent)))
       daily.
Proof.
  cbv zeta. unfold calculate_daily_spending.
  assert ((if (period =? "week")%string then 7%Z
           else if (period =? "month")%string then 30%Z else 30%Z)
          = (if (period =? "week")%string then 7%Z else 30%Z)) as ->
    by (now destruct (period =? "week")%string, (period =? "month")%string).
  rewrite select_owned_and.
  set (recent := filter _ (owned_expenses db user_id)).
  set (groups := group_sum Expenses.date Expenses.amount String.eqb Text.text_le recent).
  pose proof (order_by_perm (fun a b : string * Sql.value => Text.text_le (fst a) (fst b))
                groups)
    as Hperm.
  split; [|split; [|split]].
  - apply order_by_sorted.
    + intros x y. apply text_le_total.
    + intros x y z. apply text_le_trans.
  - eapply Permutation_NoDup; [apply Permutation_map; symmetry; exact Hperm|].
    apply group_sum_NoDup, String.eqb_eq.
  - intros d.
    rewrite <- (@group_sum_In _ _ _ Expenses.date Expenses.amount String.eqb
                  Text.text_le String.eqb_eq d recent).
    split; apply Permutation_in, Permutation_map;
      [exact Hperm|symmetry; exact Hperm].
  - apply Forall_forall. intros [d t] Hin. cbn [fst snd].
    apply (Permutation_in _ Hperm) in Hin.
    rewrite (@group_sum_each _ _ _ Expenses.date Expenses.amount String.eqb
               Text.text_le String.eqb_eq _ _ _ Hin).
    f_equal. f_equal. apply filter_ext.
    intros e. apply String.eqb_sym.
Qed.

Example daily_totals_example :
  calculate_daily_spending (RT := Reference.runtime) Scenario.mid_february
    Scenario.three_expenses 1 "month"
  = [("2024-02-01", Sql.VReal (Float.of_Z 5))]
  /\ map fst (calculate_daily_spending (RT := Reference.runtime) Scenario.mid_february
                Scenario.three_expenses 1 "year") = ["2024-02-01"]
  /\ map fst (calculate_daily_spending (RT := Reference.runtime) Scenario.mid_february
                Scenario.three_expenses 1 "week") = []
  /\ calculate_daily_spending (RT := Reference.runtime)
       {| Clock.year := 2024; Clock.month := 1; Clock.day := 31 |}
       Scenario.tenths 1 "year"
     = [("2024-01-05", Sql.VReal (Float.ratio 1 10));
        ("2024-01-06", Sql.VReal (Float.ratio 1 10));
        ("2024-01-07", Sql.VReal (Float.ratio 11 10))].
Proof. repeat split; vm_compute; reflexivity. Qed.

(* ===================================================================== *)
(** ** Dictionaries *)
(* ===================================================================== *)

Section DictFacts.
Variables K V : Type.
Variable keq : K -> K -> bool.
Hypothesis keq_eq : forall a b, keq a b = true <-> a = b.

Lemma keq_refl (k : K) : keq k k = true.
Proof. now apply keq_eq. Qed.

Lemma dict_set_keys (k : K) (v : V) (d : list (K * V)) :
  map fst (dict_set keq k v d)
  = if dict_has keq k d then map fst d else map fst d ++ [k].
Proof.
  induction d as [|[k' v'] d IH]; cbn [dict_set dict_has existsb map fst app].
  - reflexivity.
  - fold (dict_has keq k d).
    destruct (keq k' k); cbn [orb map fst]; [reflexivity|].
    rewrite IH. now destruct (dict_has keq k d).
Qed.

Lemma dict_has_In (k : K) (d : list (K * V)) :
  dict_has keq k d = true <-> In k (map fst d).
Proof.
  unfold dict_has. rewrite existsb_exists, in_map_iff. split.
  - intros [kv [Hin Hk]]. apply keq_eq in Hk. now exists kv.
  - intros [kv [Hk Hin]]. exists kv. split; [exact Hin|]. now apply keq_eq.
Qed.

Lemma dict_set_NoDup (k : K) (v : V) (d : list (K * V)) :
  NoDup (map fst d) -> NoDup (map fst (dict_set keq k v d)).
Proof.
  intros Hnd. rewrite dict_set_keys.
  destruct (dict_has keq k d) eqn:Hhas; [exact Hnd|].
  apply NoDup_app; [exact Hnd|repeat constructor; intros []|].
  intros x Hx [<-|[]]. apply dict_has_In in Hx. congruence.
Qed.

Lemma dict_get_set_same (k : K) (v : V) (d : list (K * V)) :
  dict_get keq k (dict_set keq k v d) = Some v.
Proof.
  induction d as [|[k' v'] d IH]; cbn [dict_set dict_get].
  - now rewrite keq_refl.
  - destruct (keq k' k) eqn:Hk; cbn [dict_get]; now rewrite Hk.
Qed.

Lemma dict_get_set_other (k c : K) (v : V) (d : list (K * V)) :
  k <> c -> dict_get keq c (dict_set keq k v d) = dict_get keq c d.
Proof.
  intros Hne. induction d as [|[k' v'] d IH]; cbn [dict_set dict_get].
  - destruct (keq k c) eqn:Hk; [|reflexivity]. apply keq_eq in Hk. contradiction.
  - destruct (keq k' k) eqn:Hk; cbn [dict_get].
    + apply keq_eq in Hk. subst k'.
      destruct (keq k c) eqn:Hkc; [|reflexivity]. apply keq_eq in Hkc. contradiction.
    + now rewrite IH.
Qed.

Lemma dict_get_In (k : K) (v : V) (d : list (K * V)) :
  NoDup (map fst d) -> In (k, v) d -> dict_get keq k d = Some v.
Proof.
  induction d as [|[k' v'] d IH]; cbn [map fst In dict_get]; intros Hnd Hin.
  - contradiction.
  - inversion Hnd as [|? ? Hnotin Hnd']; subst.
    destruct Hin as [Heq|Hin].
    + inversion Heq; subst. now rewrite keq_refl.
    + destruct (keq k' k) eqn:Hk; [|now apply IH].
      apply keq_eq in Hk. subst k'. exfalso. apply Hnotin.
      change k with (fst (k, v)). now apply in_map.
Qed.

Lemma dict_get_Some_In (k : K) (v : V) (d : list (K * V)) :
  dict_get keq k d = Some v -> In (k, v) d.
Proof.
  induction d as [|[k' v'] d IH]; cbn [dict_get In]; [discriminate|].
  destruct (keq k' k) eqn:Hk.
  - intros [= ->]. apply keq_eq in Hk. subst. now left.
  - intros H. right. now apply IH.
Qed.

(** Filling an empty dictionary from rows with distinct keys keeps the
    rows as they are. *)
Lemma dict_fill_distinct (l acc : list (K * V)) :
  NoDup (map fst (acc ++ l)) ->
  fold_left (fun d row => dict_set keq (fst row) (snd row) d) l acc = acc ++ l.
Proof.
  revert acc. induction l as [|[k v] l IH]; intros acc Hnd; cbn [fold_left fst snd].
  - now rewrite app_nil_r.
  - assert (dict_set keq k v acc = acc ++ [(k, v)]) as ->.
    { assert (~ In k (map fst acc)) as Hnotin.
      { rewrite map_app in Hnd. cbn [map fst] in Hnd.
        apply NoDup_remove_2 in Hnd. intros Hin. apply Hnd.
        apply in_or_app. now left. }
      clear - Hnotin keq_eq. induction acc as [|[k' v'] acc IH]; cbn [dict_set app].
      - reflexivity.
      - cbn [map fst In] in Hnotin.
        destruct (keq k' k) eqn:Hk.
        + apply keq_eq in Hk. tauto.
        + rewrite IH; [reflexivity|tauto]. }
    rewrite IH; rewrite <- app_assoc; [reflexivity|exact Hnd].
Qed.
End DictFacts.

(* ===================================================================== *)
(** ** Monthly trend *)
(* ===================================================================== *)

Lemma fold_dict_set_map (K V W : Type) (keq : K -> K -> bool) (f : V -> W)
    (l : list (K * V)) (acc : list (K * W)) :
  fold_left (fun d row => dict_set keq (fst row) (f (snd row)) d) l acc
  = fold_left (fun d row => dict_set keq (fst row) (snd row) d)
      (map (fun row => (fst row, f (snd row))) l) acc.
Proof.
  revert acc. induction l as [|r l IH]; intros acc; cbn [fold_left map fst snd].
  - reflexivity.
  - apply IH.
Qed.

(** X13.  [get_monthly_trend] raises [TypeError] when the forecast does.
    Otherwise its dictionary has one entry per key.  Under next month's
    label it always holds the forecast, also when expenses are already
    dated in that month (their total is overwritten).  Every other entry
    is a month key of the user's expenses dated on or after the day 180
    days back, with SQLite's [SUM] over the amounts under that key, and
    every such month key has an entry. *)
Theorem monthly_trend_holds_forecast_under_next_month {RT : Runtime}
    (now : Clock.datetime) (db : database) (user_id : Z) :
  let label := Some (Clock.strftime_Ym (Clock.plus_one_month now)) in
  let since := Clock.strftime_Ymd (Clock.minus_days now 180) in
  let recent :=
    filter (fun e => Text.text_ge (Expenses.date e) since) (owned_expenses db user_id) in
  let month := fun e => sqlite_strftime_Ym (Expenses.date e) in
  match get_monthly_trend now db user_id with
  | TypeError => forecast_next_month now db user_id = TypeError
  | Returns trend =>
      NoDup (map fst trend)
      /\ (exists forecast,
            forecast_next_month now db user_id = Returns forecast
            /\ dict_get Sql.opt_text_eqb label trend = Some forecast)
      /\ (forall e, In e recent -> In (month e) (map fst trend))
      /\ Forall
           (fun kt =>
              fst kt = label
              \/ (In (fst kt) (map month recent)
                  /\ snd kt
                     = Py.of_sql
                         (sqlite_sum
                            (map Expenses.amount
                               (filter (fun e => Sql.opt_text_eqb (fst kt) (month e))
                                  recent)))))
           trend
  end.
Proof.
  cbv zeta. unfold get_monthly_trend. rewrite select_owned_and.
  destruct (forecast_next_month now db user_id) as [forecast|]; cbn [and_then];
    [|reflexivity].
  set (recent := filter _ (owned_expenses db user_id)).
  set (groups := group_sum (fun e => sqlite_strftime_Ym (Expenses.date e))
                   Expenses.amount Sql.opt_text_eqb Sql.opt_text_le recent).
  set (rows := Sql.order_by _ groups).
  set (label := Some (Clock.strftime_Ym (Clock.plus_one_month now))).
  rewrite (fold_dict_set_map Sql.opt_text_eqb Py.of_sql rows []).
  set (result := map (fun row => (fst row, Py.of_sql (snd row))) rows).
  assert (Permutation rows groups) as Hperm by apply order_by_perm.
  assert (map fst result = map fst rows) as Hkeys
    by (unfold result; rewrite map_map; reflexivity).
  assert (NoDup (map fst result)) as Hnd.
  { rewrite Hkeys.
    eapply Permutation_NoDup; [apply Permutation_map; symmetry; exact Hperm|].
    apply group_sum_NoDup, opt_text_eqb_eq. }
  rewrite (dict_fill_distinct Sql.opt_text_eqb opt_text_eqb_eq result []) by exact Hnd.
  cbn [app].
  pose proof (dict_set_NoDup Sql.opt_text_eqb opt_text_eqb_eq label forecast result Hnd) as Hnd'.
  split; [exact Hnd'|]. split; [|split].
  - exists forecast. split; [reflexivity|]. apply dict_get_set_same, opt_text_eqb_eq.
  - intros e He.
    assert (In (sqlite_strftime_Ym (Expenses.date e)) (map fst result)) as Hin.
    { rewrite Hkeys.
      apply (Permutation_in _ (Permutation_map fst (Permutation_sym Hperm))).
      apply (@group_sum_In _ _ _ (fun e => sqlite_strftime_Ym (Expenses.date e))
               Expenses.amount Sql.opt_text_eqb Sql.opt_text_le opt_text_eqb_eq).
      apply (in_map (fun e => sqlite_strftime_Ym (Expenses.date e))). exact He. }
    rewrite (dict_set_keys _ label forecast result).
    destruct (dict_has _ label result); [exact Hin|].
    apply in_or_app. now left.
  - apply Forall_forall. intros [k t] Hin. cbn [fst snd].
    destruct (opt_text_dec k label) as [Heq|Hne]; [now left|right].
    apply (dict_get_In Sql.opt_text_eqb opt_text_eqb_eq _ _ _ Hnd') in Hin.
    rewrite dict_get_set_other in Hin by (try apply opt_text_eqb_eq; congruence).
    apply dict_get_Some_In in Hin; [|apply opt_text_eqb_eq].
    unfold result in Hin. apply in_map_iff in Hin.
    destruct Hin as [[k' t'] [Heq Hin]]. cbn [fst snd] in Heq.
    injection Heq as -> <-.
    apply (Permutation_in _ Hperm) in Hin. split.
    + apply (@group_sum_In _ _ _ (fun e => sqlite_strftime_Ym (Expenses.date e))
               Expenses.amount Sql.opt_text_eqb Sql.opt_text_le opt_text_eqb_eq).
      change k with (fst (k, t')). now apply in_map.
    + f_equal.
      apply (@group_sum_each _ _ _ (fun e => sqlite_strftime_Ym (Expenses.date e))
               Expenses.amount Sql.opt_text_eqb Sql.opt_text_le opt_text_eqb_eq _ _ _ Hin).
Qed.

Example monthly_trend_examples :
  get_monthly_trend (RT := Reference.runtime) Scenario.mid_february
    Scenario.three_expenses 1
  = Returns [(Some "2024-01", Py.float (Float.of_Z 30));
             (Some "2024-02", Py.float (Float.of_Z 5));
             (Some "2024-03", Py.float (Float.ratio 35 2))]
  /\ get_monthly_trend (RT := Reference.runtime) Scenario.mid_june
       (Scenario.post_expense 1 "99" "Rent" "2024-07-01" Scenario.christmas_trip) 1
     = Returns [(Some "2024-07", Py.float (Float.ratio 139 2));
                (Some "2024-12", Py.float (Float.of_Z 40))]
  /\ get_monthly_trend (RT := Reference.runtime) Scenario.mid_june init_db 1
     = Returns [(Some "2024-07", Py.int 0)].
Proof. repeat split; vm_compute; reflexivity. Qed.

(* ===================================================================== *)
(** ** The pie chart of the dashboard *)
(* ===================================================================== *)

Lemma dict_get_None (K V : Type) (keq : K -> K -> bool) (k : K) (d : list (K * V)) :
  (forall a b, keq a b = true <-> a = b) ->
  dict_get keq k d = None <-> ~ In k (map fst d).
Proof.
  intros keq_eq. induction d as [|[k' v'] d IH]; cbn [dict_get map fst In].
  - tauto.
  - destruct (keq k' k) eqn:Hk.
    + apply keq_eq in Hk. split; [discriminate|]. intros Hn. exfalso. apply Hn. now left.
    + rewrite IH. split.
      * intros Hn [Heq|Hin]; [|tauto]. apply keq_eq in Heq. congruence.
      * tauto.
Qed.

(** Reading a key of the pie chart after the category totals went in. *)
Lemma category_fold_get (rows : list (string * Sql.value))
    (data : list (string * Py.value)) (c : string) :
  NoDup (map fst rows) ->
  dict_has String.eqb c data = true ->
  dict_get String.eqb c
    (fold_left
       (fun data row =>
          if dict_has String.eqb (fst row) data
          then dict_set String.eqb (fst row) (Py.of_sql (snd row)) data
          else data)
       rows data)
  = match dict_get String.eqb c rows with
    | Some t => Some (Py.of_sql t)
    | None => dict_get String.eqb c data
    end.
Proof.
  revert data. induction rows as [|[k t] rows IH]; intros data Hnd Hhas;
    cbn [fold_left map fst snd dict_get].
  - reflexivity.
  - inversion Hnd as [|? ? Hnotin Hnd']; subst.
    set (data' := if dict_has String.eqb k data
                  then dict_set String.eqb k (Py.of_sql t) data else data).
    assert (dict_has String.eqb c data' = true) as Hhas'.
    { unfold data'. destruct (dict_has String.eqb k data) eqn:Hk; [|exact Hhas].
      apply (dict_has_In String.eqb String.eqb_eq). rewrite (dict_set_keys String.eqb), Hk.
      now apply (dict_has_In String.eqb String.eqb_eq). }
    rewrite (IH data' Hnd' Hhas').
    destruct (String.eqb_spec k c) as [->|Hne].
    + assert (dict_get String.eqb c rows = None) as ->
        by (now apply (@dict_get_None _ _ String.eqb c rows String.eqb_eq)).
      unfold data'. rewrite Hhas. apply dict_get_set_same, String.eqb_eq.
    + destruct (dict_get String.eqb c rows); [reflexivity|].
      unfold data'. destruct (dict_has String.eqb k data); [|reflexivity].
      apply dict_get_set_other; [apply String.eqb_eq|exact Hne].
Qed.

Lemma category_fold_keys (rows : list (string * Sql.value))
    (data : list (string * Py.value)) :
  map fst
    (fold_left
       (fun data row =>
          if dict_has String.eqb (fst row) data
          then dict_set String.eqb (fst row) (Py.of_sql (snd row)) data
          else data)
       rows data)
  = map fst data.
Proof.
  revert data. induction rows as [|[k t] rows IH]; intros data; cbn [fold_left fst snd].
  - reflexivity.
  - rewrite IH. destruct (dict_has String.eqb k data) eqn:Hk; [|reflexivity].
    now rewrite (dict_set_keys String.eqb), Hk.
Qed.

(** X14.  When the dashboard is shown, its [category_data] has exactly
    the six fixed categories as keys, in their fixed order, whatever
    categories are stored; a category without expense of the user holds
    the int 0, any other SQLite's [SUM] over the amounts of the user's
    expenses of that category.  Expenses stored under any other category
    text are in no slice. *)
Theorem category_data_has_the_six_categories {RT : Runtime} (now : Clock.datetime)
    (current_user : Z) (args : fields) (db : database) (ctx : dashboard_context) :
  snd (dashboard now current_user args db) = Returns ctx ->
  let data := ctx_category_data ctx in
  map fst data = ["Food"; "Rent"; "Travel"; "Entertainment"; "Bills"; "Other"]
  /\ Forall
       (fun cv =>
          snd cv
          = match filter (fun e => (Expenses.category e =? fst cv)%string)
                    (owned_expenses db current_user) with
            | [] => Py.int 0
            | e :: es => Py.of_sql (sqlite_sum (map Expenses.amount (e :: es)))
            end)
       data.
Proof.
  intros Hctx. cbv zeta.
  rewrite (proj2 (dashboard_steps now current_user args db)) in Hctx.
  assert (ctx_category_data ctx
          = category_data_of (fst (get_budget db current_user)) current_user) as ->.
  { destruct (forecast_next_month _ _ _); [|discriminate]. cbn [and_then] in Hctx.
    destruct (get_monthly_trend _ _ _); [|discriminate]. cbn [and_then] in Hctx.
    destruct (py_sum _); [|discriminate]. cbn [and_then] in Hctx.
    destruct (py_sub _ _); [|discriminate]. cbn [and_then] in Hctx.
    now injection Hctx as <-. }
  clear Hctx. unfold category_data_of.
  pose proof (proj2 (get_budget_keeps_other_tables db current_user)) as Hexp.
  assert (calculate_category_spending (fst (get_budget db current_user)) current_user
          = calculate_category_spending db current_user) as ->
    by (unfold calculate_category_spending; now rewrite Hexp).
  set (spending := calculate_category_spending db current_user).
  set (zeros := map (fun cat => (cat, Py.int 0)) categories).
  assert (NoDup (map fst spending)) as Hnd
    by (apply group_sum_NoDup, String.eqb_eq).
  split; [now rewrite category_fold_keys|].
  apply Forall_forall. intros [c v] Hin. cbn [fst snd].
  assert (In c (map fst zeros)) as Hc.
  { rewrite <- (category_fold_keys spending zeros).
    change c with (fst (c, v)). now apply in_map. }
  apply (dict_get_In String.eqb String.eqb_eq) in Hin;
    [|rewrite category_fold_keys; unfold zeros, categories; cbn;
      repeat constructor; cbn; intuition discriminate].
  rewrite category_fold_get in Hin;
    [|exact Hnd|now apply (dict_has_In String.eqb String.eqb_eq)].
  set (mine := filter (fun e => (Expenses.category e =? c)%string)
                 (owned_expenses db current_user)).
  assert (forall t, In (c, t) spending ->
                    t = sqlite_sum (map Expenses.amount mine)) as Heach.
  { intros t Ht. unfold spending, calculate_category_spending, Sql.select in Ht.
    fold (owned_expenses db current_user) in Ht.
    rewrite (@group_sum_each _ _ _ Expenses.category Expenses.amount String.eqb
               Text.text_le String.eqb_eq _ _ _ Ht).
    unfold mine. f_equal. f_equal. apply filter_ext. intros e. apply String.eqb_sym. }
  assert (In c (map fst spending) <-> mine <> []) as Hkey.
  { unfold spending, calculate_category_spending, Sql.select.
    fold (owned_expenses db current_user).
    rewrite (@group_sum_In _ _ _ Expenses.category Expenses.amount String.eqb
               Text.text_le String.eqb_eq).
    rewrite in_map_iff. unfold mine. split.
    - intros [e [He Hin']] Hnil.
      assert (In e (filter (fun e => (Expenses.category e =? c)%string)
                      (owned_expenses db current_user))) as H
        by (apply filter_In; split; [exact Hin'|now apply String.eqb_eq]).
      rewrite Hnil in H. contradiction.
    - intros Hne.
      destruct (filter _ (owned_expenses db current_user)) as [|e es] eqn:Hf;
        [contradiction|].
      assert (In e (filter (fun e => (Expenses.category e =? c)%string)
                      (owned_expenses db current_user))) as H
        by (rewrite Hf; now left).
      apply filter_In in H. destruct H as [Hin' Hcat]. apply String.eqb_eq in Hcat.
      now exists e. }
  destruct (dict_get String.eqb c spending) as [t|] eqn:Hget.
  - injection Hin as <-.
    apply dict_get_Some_In in Hget; [|apply String.eqb_eq].
    assert (mine <> []) as Hne
      by (apply Hkey; change c with (fst (c, t)); now apply in_map).
    rewrite (Heach t Hget).
    destruct mine; [contradiction|reflexivity].
  - apply (@dict_get_None _ _ String.eqb c spending String.eqb_eq) in Hget.
    assert (mine = []) as ->.
    { destruct mine as [|e es] eqn:Hm; [reflexivity|].
      exfalso. apply Hget, Hkey. discriminate. }
    apply dict_get_Some_In in Hin; [|apply String.eqb_eq].
    unfold zeros, categories in Hin. cbn in Hin.
    repeat destruct Hin as [Hin|Hin]; try (now injection Hin); contradiction.
Qed.

Lemma category_data_has_the_six_categories_witness :
  let db := Scenario.post_expense 1 "3.20" "Coffee" "2024-02-04" Scenario.three_expenses in
  exists ctx,
    snd (dashboard (RT := Reference.runtime) Scenario.mid_february 1 [] db) = Returns ctx
    /\ ctx_category_data ctx
       = [("Food", Py.float (Float.of_Z 30)); ("Rent", Py.int 0);
          ("Travel", Py.float (Float.of_Z 5)); ("Entertainment", Py.int 0);
          ("Bills", Py.int 0); ("Other", Py.int 0)]
    /\ map fst (ctx_category_data ctx)
       = ["Food"; "Rent"; "Travel"; "Entertainment"; "Bills"; "Other"].
Proof.
  cbv zeta. eexists. split; [vm_compute; reflexivity|].
  split; [reflexivity|].
  refine (proj1
    (@category_data_has_the_six_categories Reference.runtime Scenario.mid_february 1 []
       (Scenario.post_expense 1 "3.20" "Coffee" "2024-02-04" Scenario.three_expenses)
       _ _)).
  vm_compute. reflexivity.
Defined.

Example category_data_drops_other_texts :
  let db := Scenario.post_expense 1 "3.20" "Coffee" "2024-02-04" Scenario.three_expenses in
  map fst (calculate_category_spending (RT := Reference.runtime) db 1)
  = ["Coffee"; "Food"; "Travel"].
Proof. vm_compute. reflexivity. Qed.

(* ===================================================================== *)
(** ** Accounts and the session *)
(* ===================================================================== *)

Lemma fetchone_select_None (A : Type) (t : Sql.table A) (cond : A -> bool) :
  (forall x, In x (Sql.rows t) -> cond x = false) ->
  Sql.fetchone (Sql.select t cond) = None.
Proof.
  intros H. unfold Sql.fetchone, Sql.select.
  destruct (filter cond (Sql.rows t)) as [|y l] eqn:Hf; [reflexivity|].
  assert (In y (filter cond (Sql.rows t))) as Hin by (rewrite Hf; now left).
  apply filter_In in Hin. destruct Hin as [Hin Hc]. rewrite (H y Hin) in Hc. discriminate.
Qed.

(** The first row that meets a condition which only one row meets. *)
Lemma fetchone_select_unique (A : Type) (t : Sql.table A) (cond : A -> bool) (x : A) :
  In x (Sql.rows t) -> cond x = true ->
  (forall y, In y (Sql.rows t) -> cond y = true -> y = x) ->
  Sql.fetchone (Sql.select t cond) = Some x.
Proof.
  intros Hin Hc Huniq. unfold Sql.fetchone, Sql.select.
  destruct (filter cond (Sql.rows t)) as [|y l] eqn:Hf.
  - assert (In x (filter cond (Sql.rows t))) as H by (apply filter_In; now split).
    rewrite Hf in H. contradiction.
  - assert (In y (filter cond (Sql.rows t))) as H by (rewrite Hf; now left).
    apply filter_In in H. destruct H as [Hy Hcy].
    cbn [hd_error]. f_equal. now apply Huniq.
Qed.

Lemma signup_fresh {RT : Runtime} (form : fields) (db : database)
    (username email password : string) :
  field "username" form = Some username ->
  field "email" form = Some email ->
  field "password" form = Some password ->
  (8 <= Text.len password)%nat ->
  (forall u, In u (Sql.rows (users db)) ->
             Users.username u <> username /\ Users.email u <> email) ->
  signup POST form db
  = flash_and_redirect
      (with_users db
         (Sql.insert (users db)
            (fun i => {| Users.id := i;
                         Users.username := username;
                         Users.email := email;
                         Users.password_hash := generate_password_hash password |})))
      "Account created successfully! Please login." "success" "login".
Proof.
  intros Hu He Hp Hlen Hfresh. unfold signup, form_item. rewrite Hu, He, Hp.
  assert ((Text.len password <? 8)%nat = false) as ->
    by (apply Nat.ltb_ge; exact Hlen).
  rewrite fetchone_select_None; [reflexivity|].
  intros u Hin. destruct (Hfresh u Hin) as [Hn Hm].
  apply orb_false_iff. split; now apply String.eqb_neq.
Qed.

Lemma signup_taken {RT : Runtime} (form : fields) (db : database)
    (username email password : string) (u : Users.row) :
  field "username" form = Some username ->
  field "email" form = Some email ->
  field "password" form = Some password ->
  (8 <= Text.len password)%nat ->
  In u (Sql.rows (users db)) ->
  Users.username u = username \/ Users.email u = email ->
  signup POST form db
  = flash_and_redirect db "Username or email already exists!" "danger" "signup".
Proof.
  intros Hu He Hp Hlen Hin Hdup. unfold signup, form_item. rewrite Hu, He, Hp.
  assert ((Text.len password <? 8)%nat = false) as ->
    by (apply Nat.ltb_ge; exact Hlen).
  destruct (@fetchone_select_Some _ (users db)
              (fun u => (Users.username u =? username)%string
                        || (Users.email u =? email)%string)%bool u Hin) as [y Hy].
  - apply orb_true_iff.
    destruct Hdup as [<-|<-]; [left|right]; apply String.eqb_refl.
  - now rewrite Hy.
Qed.

(** X15.  A signup POST with the three fields, a password of at least 8
    characters and a username and an email that no row has appends
    exactly one row to [users]: it takes the next id and holds the
    username, the email and the hash of the password.  Nothing else
    changes, the success message is flashed and the response redirects to
    the login page.  Sending the same form again is rejected and changes
    nothing. *)
Theorem signup_creates_one_account {RT : Runtime} (form : fields) (db : database)
    (username email password : string) :
  field "username" form = Some username ->
  field "email" form = Some email ->
  field "password" form = Some password ->
  (8 <= Text.len password)%nat ->
  (forall u, In u (Sql.rows (users db)) ->
             Users.username u <> username /\ Users.email u <> email) ->
  let o := signup POST form db in
  let new := {| Users.id := (Sql.seq (users db) + 1)%Z;
                Users.username := username;
                Users.email := email;
                Users.password_hash := generate_password_hash password |} in
  Sql.rows (users (out_db o)) = Sql.rows (users db) ++ [new]
  /\ expenses (out_db o) = expenses db
  /\ user_budget (out_db o) = user_budget db
  /\ out_flash o = [("Account created successfully! Please login.", "success")]
  /\ out_response o = Redirect "login"
  /\ signup POST form (out_db o)
     = flash_and_redirect (out_db o) "Username or email already exists!" "danger" "signup".
Proof.
  intros Hu He Hp Hlen Hfresh. cbv zeta.
  rewrite (signup_fresh form db Hu He Hp Hlen Hfresh).
  cbn [out_db out_flash out_response flash_and_redirect].
  repeat split.
  eapply signup_taken; try eassumption.
  - cbn [users with_users Sql.insert Sql.rows]. apply in_or_app. right. now left.
  - now left.
Qed.

Lemma signup_creates_one_account_witness :
  let form := Scenario.signup_form "bob" "bob@example.org" "пароль12" in
  let o := signup (RT := Reference.runtime) POST form Scenario.one_account in
  map Users.username (Sql.rows (users (out_db o))) = ["ana"; "bob"]
  /\ Sql.rows (users (out_db o))
     = Sql.rows (users Scenario.one_account)
       ++ [{| Users.id := 2; Users.username := "bob"; Users.email := "bob@example.org";
              Users.password_hash := "hash:пароль12" |}].
Proof.
  split; [reflexivity|].
  apply (@signup_creates_one_account Reference.runtime
           (Scenario.signup_form "bob" "bob@example.org" "пароль12")
           Scenario.one_account "bob" "bob@example.org" "пароль12").
  - reflexivity.
  - reflexivity.
  - reflexivity.
  - vm_compute. lia.
  - intros u [<-|[]]. split; discriminate.
Defined.

(** X16.  When the hashes verify the passwords they were made from, a
    user who has just signed up can log in with the same username and
    password: the login succeeds, changes nothing, and hands to the
    session the user object with the new id, the username and the
    email. *)
Theorem signup_then_login_succeeds {RT : Runtime} {H : Hasher} (form : fields)
    (db : database) (username email password : string) :
  hasher_sound ->
  field "username" form = Some username ->
  field "email" form = Some email ->
  field "password" form = Some password ->
  (8 <= Text.len password)%nat ->
  (forall u, In u (Sql.rows (users db)) ->
             Users.username u <> username /\ Users.email u <> email) ->
  let db' := out_db (signup POST form db) in
  login POST form db'
  = (flash_and_redirect db' "Login successful!" "success" "dashboard",
     Some {| FlaskLogin.id := (Sql.seq (users db) + 1)%Z;
             FlaskLogin.username := username;
             FlaskLogin.email := email |}).
Proof.
  intros Hsound Hu He Hp Hlen Hfresh. cbv zeta.
  rewrite (signup_fresh form db Hu He Hp Hlen Hfresh).
  cbn [out_db flash_and_redirect].
  set (new := {| Users.id := (Sql.seq (users db) + 1)%Z;
                 Users.username := username;
                 Users.email := email;
                 Users.password_hash := generate_password_hash password |}).
  set (db' := with_users db _).
  unfold login. rewrite Hu, Hp.
  rewrite (@fetchone_select_unique _ (users db')
             (fun u => (Users.username u =? username)%string) new).
  - cbn [Users.password_hash new]. rewrite Hsound. reflexivity.
  - unfold db'. cbn [users with_users Sql.insert Sql.rows].
    apply in_or_app. right. now left.
  - cbn [Users.username new]. apply String.eqb_refl.
  - unfold db'. cbn [users with_users Sql.insert Sql.rows].
    intros y Hy Hc. apply in_app_or in Hy. destruct Hy as [Hy|[<-|[]]]; [|reflexivity].
    apply String.eqb_eq in Hc. destruct (Hfresh y Hy) as [Hn _]. contradiction.
Qed.

Lemma signup_then_login_succeeds_witness :
  let form := Scenario.signup_form "bob" "bob@example.org" "long enough" in
  let db' := out_db (signup (RT := Reference.runtime) POST form Scenario.one_account) in
  login (H := reference_hasher) POST form db'
  = (flash_and_redirect db' "Login successful!" "success" "dashboard",
     Some {| FlaskLogin.id := 2; FlaskLogin.username := "bob";
             FlaskLogin.email := "bob@example.org" |}).
Proof.
  apply (@signup_then_login_succeeds Reference.runtime reference_hasher
           (Scenario.signup_form "bob" "bob@example.org" "long enough")
           Scenario.one_account "bob" "bob@example.org" "long enough");
    try reflexivity.
  - intros password. cbn. apply String.eqb_refl.
  - vm_compute. lia.
  - intros u [<-|[]]. split; discriminate.
Defined.

Lemma NoDup_map_inj (A B : Type) (f : A -> B) (l : list A) (x y : A) :
  NoDup (map f l) -> In x l -> In y l -> f x = f y -> x = y.
Proof.
  induction l as [|r l IH]; cbn [map In]; intros Hnd Hx Hy Hk; [contradiction|].
  inversion Hnd as [|? ? Hnotin Hnd']; subst.
  destruct Hx as [->|Hx], Hy as [->|Hy].
  - reflexivity.
  - exfalso. apply Hnotin. rewrite Hk. now apply in_map.
  - exfalso. apply Hnotin. rewrite <- Hk. now apply in_map.
  - now apply IH.
Qed.

Lemma fetchone_select_In (A : Type) (t : Sql.table A) (cond : A -> bool) (x : A) :
  Sql.fetchone (Sql.select t cond) = Some x -> In x (Sql.rows t) /\ cond x = true.
Proof.
  unfold Sql.fetchone, Sql.select. intros H.
  destruct (filter cond (Sql.rows t)) as [|y l] eqn:Hf; [discriminate|].
  injection H as ->.
  apply filter_In. rewrite Hf. now left.
Qed.

(** X17.  In a reachable database a login POST with both fields never
    writes, and it succeeds exactly when the row with that username (there
    is at most one) has a hash that verifies the password; the session
    then gets that row's id, username and email.  An unknown username and
    a wrong password are answered alike: "Invalid username or password!"
    and a redirect to the login page. *)
Theorem login_verifies_the_row_of_the_username {RT : Runtime} {H : Hasher}
    (db : database) (form : fields) (username password : string) :
  reachable db ->
  field "username" form = Some username ->
  field "password" form = Some password ->
  let result := login POST form db in
  out_db (fst result) = db
  /\ ((exists u,
         In u (Sql.rows (users db))
         /\ Users.username u = username
         /\ check_password_hash (Users.password_hash u) password = true
         /\ result
            = (flash_and_redirect db "Login successful!" "success" "dashboard",
               Some (user_object u)))
      \/ ((forall u, In u (Sql.rows (users db)) -> Users.username u = username ->
                     check_password_hash (Users.password_hash u) password = false)
          /\ result
             = (flash_and_redirect db "Invalid username or password!" "danger" "login",
                None))).
Proof.
  intros Hreach Hu Hp. cbv zeta. unfold login. rewrite Hu, Hp.
  destruct (Sql.fetchone _) as [u|] eqn:Hfetch.
  - apply fetchone_select_In in Hfetch. destruct Hfetch as [Hin Hname].
    apply String.eqb_eq in Hname.
    destruct (check_password_hash (Users.password_hash u) password) eqn:Hcheck.
    + split; [reflexivity|]. left. exists u. now repeat split.
    + split; [reflexivity|]. right. split; [|reflexivity].
      intros u' Hin' Hname'.
      assert (u' = u) as ->; [|exact Hcheck].
      destruct (reachable_unique_accounts Hreach) as [Hnames _].
      apply (NoDup_map_inj Users.username (Sql.rows (users db)));
        try assumption. congruence.
  - split; [reflexivity|]. right. split; [|reflexivity].
    intros u Hin Hname. exfalso.
    destruct (@fetchone_select_Some _ (users db)
                (fun u => (Users.username u =? username)%string) u Hin) as [y Hy].
    + now apply String.eqb_eq.
    + congruence.
Qed.

Lemma login_verifies_the_row_of_the_username_witness :
  reachable (RT := Reference.runtime) Scenario.one_account
  /\ login (H := reference_hasher) POST
       [("username", "ana"); ("password", "wrong horse")] Scenario.one_account
     = (flash_and_redirect Scenario.one_account "Invalid username or password!"
          "danger" "login", None)
  /\ out_db (fst (login (H := reference_hasher) POST
                    [("username", "ana"); ("password", "correct horse")]
                    Scenario.one_account))
     = Scenario.one_account.
Proof.
  assert (reachable (RT := Reference.runtime) Scenario.one_account) as Hreach
    by (apply (reachable_step (Signup _ _)), reachable_init).
  split; [exact Hreach|]. split; [reflexivity|].
  apply (@login_verifies_the_row_of_the_username Reference.runtime reference_hasher
           Scenario.one_account [("username", "ana"); ("password", "correct horse")]
           "ana" "correct horse" Hreach); reflexivity.
Defined.

Lemma writes_keeps_users (db db' : database) :
  writes db db' -> exists added, Sql.rows (users db') = Sql.rows (users db) ++ added.
Proof.
  destruct 1; cbn [users with_users with_expenses with_user_budget Sql.insert Sql.rows];
    try (exists []; now rewrite app_nil_r).
  eexists. reflexivity.
Qed.

Lemma later_reachable {RT : Runtime} (db db' : database) :
  reachable db -> later db db' -> reachable db'.
Proof.
  intros Hreach. induction 1 as [|r db' _ IH]; [exact Hreach|].
  now apply reachable_step.
Qed.

(** No request removes or rewrites an account. *)
Lemma later_keeps_users {RT : Runtime} (db db' : database) :
  later db db' -> exists added, Sql.rows (users db') = Sql.rows (users db) ++ added.
Proof.
  induction 1 as [|r db' _ [added IH]].
  - exists []. now rewrite app_nil_r.
  - destruct (writes_keeps_users (handle_writes r db')) as [more Hmore].
    exists (added ++ more). now rewrite Hmore, IH, app_assoc.
Qed.

(** X18.  The user object that a successful login hands to the session
    is the one [load_user] finds again under its id, on the database of
    the login and on every database that later requests lead to. *)
Theorem logged_in_user_is_loaded_again {RT : Runtime} {H : Hasher} (db db' : database)
    (method : http_method) (form : fields) (user : FlaskLogin.User) :
  reachable db ->
  snd (login method form db) = Some user ->
  later db db' ->
  load_user db' (FlaskLogin.id user) = Some user.
Proof.
  intros Hreach Hlogin Hlater. unfold login in Hlogin.
  destruct method; [discriminate|].
  destruct (field "username" form) as [username|]; [|discriminate].
  destruct (field "password" form) as [password|]; [|discriminate].
  destruct (Sql.fetchone _) as [u|] eqn:Hfetch; [|discriminate].
  destruct (check_password_hash _ _); [|discriminate].
  cbn [snd] in Hlogin. injection Hlogin as <-.
  apply fetchone_select_In in Hfetch. destruct Hfetch as [Hin _].
  assert (In u (Sql.rows (users db'))) as Hin'.
  { destruct (later_keeps_users Hlater) as [added ->]. apply in_or_app. now left. }
  unfold load_user. cbn [FlaskLogin.id user_object].
  rewrite (@fetchone_select_unique _ (users db')
             (fun r => (Users.id r =? Users.id u)%Z) u); [reflexivity|exact Hin'| |].
  - apply Z.eqb_refl.
  - intros y Hy Hid. apply Z.eqb_eq in Hid.
    destruct (reachable_keys (later_reachable Hreach Hlater)) as (Hk & _).
    apply (NoDup_map_inj Users.id (Sql.rows (users db')));
      [now apply keys_in_sequence_NoDup|assumption|assumption|exact Hid].
Qed.

Lemma logged_in_user_is_loaded_again_witness :
  let user := {| FlaskLogin.id := 1; FlaskLogin.username := "ana";
                 FlaskLogin.email := "ana@example.org" |} in
  let later_on :=
    handle (RT := Reference.runtime)
      (Signup POST (Scenario.signup_form "bob" "bob@example.org" "long enough"))
      (handle (RT := Reference.runtime)
         (AddExpense 1 POST (Cases.add_form "12.50" "Food" "2024-02-02"))
         Scenario.one_account) in
  snd (login (H := reference_hasher) POST
         [("username", "ana"); ("password", "correct horse")] Scenario.one_account)
  = Some user
  /\ map Users.username (Sql.rows (users later_on)) = ["ana"; "bob"]
  /\ load_user later_on 1 = Some user.
Proof.
  split; [reflexivity|]. split; [reflexivity|].
  apply (@logged_in_user_is_loaded_again Reference.runtime reference_hasher
           Scenario.one_account _ POST
           [("username", "ana"); ("password", "correct horse")]
           {| FlaskLogin.id := 1; FlaskLogin.username := "ana";
              FlaskLogin.email := "ana@example.org" |}).
  - apply (reachable_step (Signup _ _)), reachable_init.
  - reflexivity.
  - apply later_step, later_step, later_now.
Defined.

(* ===================================================================== *)
(** ** Incomplete forms *)
(* ===================================================================== *)

(** X19.  A POST that lacks one of the fields its handler reads with
    [request.form[...]] is answered 400 before any statement runs: the
    database is unchanged and nothing is flashed.  This holds for
    username, email, password on [/signup] and [/login] (which reads
    username and password only), for amount, category, date on [/add]
    and [/edit], and for monthly_income, savings_goal on [/set_budget].
    The note of an expense is optional. *)
Theorem missing_field_is_a_bad_request {RT : Runtime} {H : Hasher} (form : fields)
    (db : database) (current_user expense_id : Z) (k : string) :
  field k form = None ->
  (if existsb (String.eqb k) ["username"; "email"; "password"]
   then signup POST form db = respond db BadRequest
   else True)
  /\ (if existsb (String.eqb k) ["username"; "password"]
      then login POST form db = (respond db BadRequest, None)
      else True)
  /\ (if existsb (String.eqb k) ["amount"; "category"; "date"]
      then add_expense current_user POST form db = respond db BadRequest
           /\ edit_expense current_user expense_id POST form db = respond db BadRequest
      else True)
  /\ (if existsb (String.eqb k) ["monthly_income"; "savings_goal"]
      then set_budget current_user POST form db = respond db BadRequest
      else True).
Proof.
  intros Hk.
  split; [|split; [|split]];
    match goal with
    | |- if existsb _ ?l then _ else True =>
        destruct (existsb (String.eqb k) l) eqn:Hin; [|exact I];
        apply existsb_eqb_In in Hin; cbn [In] in Hin
    end.
  - unfold signup, form_item.
    destruct Hin as [<-|[<-|[<-|[]]]]; rewrite Hk;
      repeat match goal with
             | |- context [field ?x form] =>
                 destruct (field x form); try reflexivity
             end; reflexivity.
  - unfold login.
    destruct Hin as [<-|[<-|[]]]; rewrite Hk; [reflexivity|].
    now destruct (field "username" form).
  - unfold add_expense, edit_expense, form_item.
    destruct Hin as [<-|[<-|[<-|[]]]]; rewrite Hk;
      repeat match goal with
             | |- context [field ?x form] =>
                 destruct (field x form); try (split; reflexivity)
             end; split; reflexivity.
  - unfold set_budget, form_item.
    destruct Hin as [<-|[<-|[]]]; rewrite Hk; [reflexivity|].
    now destruct (field "monthly_income" form).
Qed.

Lemma missing_field_is_a_bad_request_witness :
  let form := [("amount", "4"); ("category", "Food"); ("note", "no date")] in
  field "date" form = None
  /\ add_expense (RT := Reference.runtime) 1 POST form Scenario.three_expenses
     = respond Scenario.three_expenses BadRequest
  /\ edit_expense (RT := Reference.runtime) 1 2 POST form Scenario.three_expenses
     = respond Scenario.three_expenses BadRequest.
Proof.
  split; [reflexivity|].
  apply (@missing_field_is_a_bad_request Reference.runtime reference_hasher
           [("amount", "4"); ("category", "Food"); ("note", "no date")]
           Scenario.three_expenses 1 2 "date").
  reflexivity.
Defined.

(* ===================================================================== *)
(** ** Order of the export *)
(* ===================================================================== *)

(** X20.  The rows of the export come in descending order of the date
    text, and rows of the same date in storage order. *)
Theorem export_rows_newest_first {RT : Runtime} (now : Clock.datetime)
    (current_user : Z) (db : database) :
  let exported := export_rows now current_user db in
  StronglySorted
    (fun a b => Text.text_le (Expenses.date b) (Expenses.date a) = true) exported
  /\ forall d,
       map Expenses.id (filter (fun e => (Expenses.date e =? d)%string) exported)
       = map Expenses.id
           (filter (fun e => (Expenses.date e =? d)%string)
              (filter
                 (fun e => Sql.opt_text_matches (sqlite_strftime_Ym (Expenses.date e))
                             (Clock.strftime_Ym now))
                 (owned_expenses db current_user))).
Proof.
  cbv zeta. unfold export_rows. rewrite select_owned_and. split.
  - apply (order_by_sorted
             (fun a b => Text.text_le (Expenses.date b) (Expenses.date a))).
    + intros x y. apply text_le_total.
    + intros x y z Hxy Hyz. now apply text_le_trans with (Expenses.date y).
  - intros d. f_equal. apply order_by_stable.
    intros x y Hx Hy. apply String.eqb_eq in Hx, Hy.
    rewrite Hx, Hy. unfold Text.text_le.
    destruct (String.leb_total d d); assumption.
Qed.

